(** * SVM VM-exit handling (xen/arch/x86/hvm/svm/svm.c)

    A shallow embedding of the state-projection, event-injection,
    save/restore, MSR-intercept and halt paths of svm.c, and the
    properties of those paths.

    Conventions.  C integers are [Z] with the wrap-around written out
    ([u32], [u64]); [unsigned long] is 64 bits wide (x86_64 build).
    Hardware bit-field unions ([eventinj_t], the pending-event word of
    [struct hvm_hw_cpu]) are kept as their raw word together with
    bit-range accessors.  The functions of svm.c are written in a small
    state monad over the [machine] on which they operate; calls that leave
    the file (scheduler, paging, vlapic, FPU, ...) are recorded in the
    [events] log of the machine, and values obtained from outside are read
    from the [Externals] interface.  Trace and log macros (HVMTRACE_*,
    gdprintk, HVM_DBG_LOG) have no effect on the modelled state and are
    left out. *)

From Stdlib Require Import ZArith Bool List Lia.
Import ListNotations.

Local Open Scope Z_scope.

(** ** Machine integers and bit ranges *)

Definition u32 (x : Z) : Z := x mod 2 ^ 32.
Definition u64 (x : Z) : Z := x mod 2 ^ 64.

(** [bits lo len w]: the value of the bit-field of [w] that starts at bit
    [lo] and is [len] bits wide. *)
Definition bits (lo len w : Z) : Z := Z.land (Z.shiftr w lo) (Z.ones len).

(** [set_bits lo len x w]: [w] with that bit-field replaced by [x],
    truncated to [len] bits as a C bit-field assignment does. *)
Definition set_bits (lo len x w : Z) : Z :=
  Z.lor (Z.ldiff w (Z.shiftl (Z.ones len) lo))
        (Z.shiftl (Z.land x (Z.ones len)) lo).

(** [x & mask] as a C truth value. *)
Definition test (x mask : Z) : bool := negb (Z.land x mask =? 0).

(** ** Constants of the included headers

    Modelled from the spec: the headers svm.c includes (asm/processor.h,
    asm/msr.h, asm/hvm/support.h, asm/hvm/svm/vmcb.h, asm/x86_emulate.h,
    public/arch-x86/hvm/save.h) are not part of the sources at hand.  The
    spec names the bits (paging-enable, write-protect, task-switched, PAE,
    virtualization-enable, long-mode-enable, trap flag, ...) and the
    vectors; the values below are the architectural ones those names
    denote. *)

Definition X86_CR0_TS : Z := 0x8.
Definition X86_CR0_ET : Z := 0x10.
Definition X86_CR0_WP : Z := 0x10000.
Definition X86_CR0_PG : Z := 0x80000000.
Definition X86_CR4_PAE : Z := 0x20.

Definition _EFER_LME : Z := 8.
Definition _EFER_LMA : Z := 10.
Definition _EFER_SVME : Z := 12.
Definition EFER_LME : Z := Z.shiftl 1 _EFER_LME.
Definition EFER_LMA : Z := Z.shiftl 1 _EFER_LMA.
Definition EFER_SVME : Z := Z.shiftl 1 _EFER_SVME.

Definition X86_EFLAGS_TF : Z := 0x100.
Definition X86_EFLAGS_RF : Z := 0x10000.

Definition TRAP_debug : Z := 1.
Definition TRAP_no_device : Z := 7.
Definition TRAP_double_fault : Z := 8.
Definition TRAP_gp_fault : Z := 13.
Definition TRAP_page_fault : Z := 14.

Definition X86_EVENTTYPE_HW_EXCEPTION : Z := 3.
Definition HVM_DELIVER_NO_ERROR_CODE : Z := -1.

Definition X86EMUL_OKAY : Z := 0.
Definition X86EMUL_EXCEPTION : Z := 2.

Definition EINVAL : Z := 22.
Definition PAGE_SHIFT : Z := 12.

Definition MSR_IA32_TSC : Z := 0x10.
Definition MSR_IA32_APICBASE : Z := 0x1b.
Definition MSR_IA32_EBC_FREQUENCY_ID : Z := 0x2c.
Definition MSR_IA32_MCG_CAP : Z := 0x179.
Definition MSR_IA32_MCG_STATUS : Z := 0x17a.
Definition MSR_IA32_DEBUGCTLMSR : Z := 0x1d9.
Definition MSR_IA32_LASTBRANCHFROMIP : Z := 0x1db.
Definition MSR_IA32_LASTBRANCHTOIP : Z := 0x1dc.
Definition MSR_IA32_LASTINTFROMIP : Z := 0x1dd.
Definition MSR_IA32_LASTINTTOIP : Z := 0x1de.
Definition MSR_IA32_MC0_STATUS : Z := 0x401.
Definition MSR_IA32_MC1_STATUS : Z := 0x405.
Definition MSR_IA32_MC2_STATUS : Z := 0x409.
Definition MSR_IA32_MC3_STATUS : Z := 0x40d.
Definition MSR_IA32_MC4_STATUS : Z := 0x411.
Definition MSR_IA32_MC4_MISC : Z := 0x413.
Definition MSR_IA32_MC5_STATUS : Z := 0x415.
Definition MSR_EFER : Z := 0xc0000080.
Definition MSR_F10_MC4_MISC1 : Z := 0xc0000408.
Definition MSR_F10_MC4_MISC3 : Z := 0xc000040a.
Definition MSR_K8_VM_HSAVE_PA : Z := 0xc0010117.

(** ** The event word

    Modelled from the spec: [eventinj_t] is declared in
    asm/hvm/svm/vmcb.h, which is not among the sources.  The spec lists the
    fields of the slot (validity bit, type, vector, has-error-code bit,
    error code); the positions are those of the hardware layout: a 64-bit
    word [bytes] overlaid with vector:8, type:3, ev:1, resvd1:19, v:1,
    errorcode:32. *)

Definition fields_vector (bytes : Z) : Z := bits 0 8 bytes.
Definition fields_type (bytes : Z) : Z := bits 8 3 bytes.
Definition fields_ev (bytes : Z) : Z := bits 11 1 bytes.
Definition fields_resvd1 (bytes : Z) : Z := bits 12 19 bytes.
Definition fields_v (bytes : Z) : Z := bits 31 1 bytes.
Definition fields_errorcode (bytes : Z) : Z := bits 32 32 bytes.

Definition set_fields_vector (x bytes : Z) : Z := set_bits 0 8 x bytes.
Definition set_fields_type (x bytes : Z) : Z := set_bits 8 3 x bytes.
Definition set_fields_ev (x bytes : Z) : Z := set_bits 11 1 x bytes.
Definition set_fields_v (x bytes : Z) : Z := set_bits 31 1 x bytes.
Definition set_fields_errorcode (x bytes : Z) : Z := set_bits 32 32 x bytes.

(** Modelled from the spec: the pending-event word of [struct hvm_hw_cpu]
    (public/arch-x86/hvm/save.h, not among the sources): a 32-bit word
    [pending_event] overlaid with pending_vector:8, pending_type:3,
    pending_error_valid:1, pending_reserved:19, pending_valid:1, the low
    half of the hardware event word. *)

Definition pending_vector (pending_event : Z) : Z := bits 0 8 pending_event.
Definition pending_type (pending_event : Z) : Z := bits 8 3 pending_event.
Definition pending_error_valid (pending_event : Z) : Z :=
  bits 11 1 pending_event.
Definition pending_reserved (pending_event : Z) : Z :=
  bits 12 19 pending_event.
Definition pending_valid (pending_event : Z) : Z := bits 31 1 pending_event.

(** ** Data: the structures the functions work on

    Only the members that the modelled functions read or write are kept.
    [set_f x s] is the assignment [s.f = x]. *)

(** [struct vmcb_struct]: the hardware control block. *)
Record vmcb_struct : Type := mk_vmcb_struct {
  cr0 : Z;
  cr2 : Z;
  cr3 : Z;
  cr4 : Z;
  efer : Z;
  dr6 : Z;
  dr7 : Z;
  dr_intercepts : Z;  (* u32 *)
  exception_intercepts : Z;  (* u32 *)
  eventinj : Z;  (* eventinj_t, raw word *)
  interrupt_shadow : Z;
  sysenter_cs : Z;
  sysenter_esp : Z;
  sysenter_eip : Z;
  np_enable : Z;
  g_pat : Z;
  h_cr3 : Z;
  debugctlmsr : Z;
  lastbranchfromip : Z;
  lastbranchtoip : Z;
  lastintfromip : Z;
  lastinttoip : Z;
  lbr_control : Z;  (* lbrctrl_t, raw word; fields.enable is bit 0 *)
  exitinfo1 : Z
}.

Definition set_cr0 (x : Z) (s : vmcb_struct) : vmcb_struct :=
  mk_vmcb_struct x (cr2 s) (cr3 s) (cr4 s) (efer s) (dr6 s) (dr7 s)
    (dr_intercepts s) (exception_intercepts s) (eventinj s)
    (interrupt_shadow s) (sysenter_cs s) (sysenter_esp s) (sysenter_eip s)
    (np_enable s) (g_pat s) (h_cr3 s) (debugctlmsr s) (lastbranchfromip s)
    (lastbranchtoip s) (lastintfromip s) (lastinttoip s) (lbr_control s)
    (exitinfo1 s).
Definition set_cr2 (x : Z) (s : vmcb_struct) : vmcb_struct :=
  mk_vmcb_struct (cr0 s) x (cr3 s) (cr4 s) (efer s) (dr6 s) (dr7 s)
    (dr_intercepts s) (exception_intercepts s) (eventinj s)
    (interrupt_shadow s) (sysenter_cs s) (sysenter_esp s) (sysenter_eip s)
    (np_enable s) (g_pat s) (h_cr3 s) (debugctlmsr s) (lastbranchfromip s)
    (lastbranchtoip s) (lastintfromip s) (lastinttoip s) (lbr_control s)
    (exitinfo1 s).
Definition set_cr3 (x : Z) (s : vmcb_struct) : vmcb_struct :=
  mk_vmcb_struct (cr0 s) (cr2 s) x (cr4 s) (efer s) (dr6 s) (dr7 s)
    (dr_intercepts s) (exception_intercepts s) (eventinj s)
    (interrupt_shadow s) (sysenter_cs s) (sysenter_esp s) (sysenter_eip s)
    (np_enable s) (g_pat s) (h_cr3 s) (debugctlmsr s) (lastbranchfromip s)
    (lastbranchtoip s) (lastintfromip s) (lastinttoip s) (lbr_control s)
    (exitinfo1 s).
Definition set_cr4 (x : Z) (s : vmcb_struct) : vmcb_struct :=
  mk_vmcb_struct (cr0 s) (cr2 s) (cr3 s) x (efer s) (dr6 s) (dr7 s)
    (dr_intercepts s) (exception_intercepts s) (eventinj s)
    (interrupt_shadow s) (sysenter_cs s) (sysenter_esp s) (sysenter_eip s)
    (np_enable s) (g_pat s) (h_cr3 s) (debugctlmsr s) (lastbranchfromip s)
    (lastbranchtoip s) (lastintfromip s) (lastinttoip s) (lbr_control s)
    (exitinfo1 s).
Definition set_efer (x : Z) (s : vmcb_struct) : vmcb_struct :=
  mk_vmcb_struct (cr0 s) (cr2 s) (cr3 s) (cr4 s) x (dr6 s) (dr7 s)
    (dr_intercepts s) (exception_intercepts s) (eventinj s)
    (interrupt_shadow s) (sysenter_cs s) (sysenter_esp s) (sysenter_eip s)
    (np_enable s) (g_pat s) (h_cr3 s) (debugctlmsr s) (lastbranchfromip s)
    (lastbranchtoip s) (lastintfromip s) (lastinttoip s) (lbr_control s)
    (exitinfo1 s).
Definition set_dr6 (x : Z) (s : vmcb_struct) : vmcb_struct :=
  mk_vmcb_struct (cr0 s) (cr2 s) (cr3 s) (cr4 s) (efer s) x (dr7 s)
    (dr_intercepts s) (exception_intercepts s) (eventinj s)
    (interrupt_shadow s) (sysenter_cs s) (sysenter_esp s) (sysenter_eip s)
    (np_enable s) (g_pat s) (h_cr3 s) (debugctlmsr s) (lastbranchfromip s)
    (lastbranchtoip s) (lastintfromip s) (lastinttoip s) (lbr_control s)
    (exitinfo1 s).
Definition set_dr7 (x : Z) (s : vmcb_struct) : vmcb_struct :=
  mk_vmcb_struct (cr0 s) (cr2 s) (cr3 s) (cr4 s) (efer s) (dr6 s) x
    (dr_intercepts s) (exception_intercepts s) (eventinj s)
    (interrupt_shadow s) (sysenter_cs s) (sysenter_esp s) (sysenter_eip s)
    (np_enable s) (g_pat s) (h_cr3 s) (debugctlmsr s) (lastbranchfromip s)
    (lastbranchtoip s) (lastintfromip s) (lastinttoip s) (lbr_control s)
    (exitinfo1 s).
Definition set_dr_intercepts (x : Z) (s : vmcb_struct) : vmcb_struct :=
  mk_vmcb_struct (cr0 s) (cr2 s) (cr3 s) (cr4 s) (efer s) (dr6 s) (dr7 s) x
    (exception_intercepts s) (eventinj s) (interrupt_shadow s) (sysenter_cs
    s) (sysenter_esp s) (sysenter_eip s) (np_enable s) (g_pat s) (h_cr3 s)
    (debugctlmsr s) (lastbranchfromip s) (lastbranchtoip s) (lastintfromip
    s) (lastinttoip s) (lbr_control s) (exitinfo1 s).
Definition set_exception_intercepts (x : Z) (s : vmcb_struct) : vmcb_struct :=
  mk_vmcb_struct (cr0 s) (cr2 s) (cr3 s) (cr4 s) (efer s) (dr6 s) (dr7 s)
    (dr_intercepts s) x (eventinj s) (interrupt_shadow s) (sysenter_cs s)
    (sysenter_esp s) (sysenter_eip s) (np_enable s) (g_pat s) (h_cr3 s)
    (debugctlmsr s) (lastbranchfromip s) (lastbranchtoip s) (lastintfromip
    s) (lastinttoip s) (lbr_control s) (exitinfo1 s).
Definition set_eventinj (x : Z) (s : vmcb_struct) : vmcb_struct :=
  mk_vmcb_struct (cr0 s) (cr2 s) (cr3 s) (cr4 s) (efer s) (dr6 s) (dr7 s)
    (dr_intercepts s) (exception_intercepts s) x (interrupt_shadow s)
    (sysenter_cs s) (sysenter_esp s) (sysenter_eip s) (np_enable s) (g_pat
    s) (h_cr3 s) (debugctlmsr s) (lastbranchfromip s) (lastbranchtoip s)
    (lastintfromip s) (lastinttoip s) (lbr_control s) (exitinfo1 s).
Definition set_interrupt_shadow (x : Z) (s : vmcb_struct) : vmcb_struct :=
  mk_vmcb_struct (cr0 s) (cr2 s) (cr3 s) (cr4 s) (efer s) (dr6 s) (dr7 s)
    (dr_intercepts s) (exception_intercepts s) (eventinj s) x (sysenter_cs
    s) (sysenter_esp s) (sysenter_eip s) (np_enable s) (g_pat s) (h_cr3 s)
    (debugctlmsr s) (lastbranchfromip s) (lastbranchtoip s) (lastintfromip
    s) (lastinttoip s) (lbr_control s) (exitinfo1 s).
Definition set_sysenter_cs (x : Z) (s : vmcb_struct) : vmcb_struct :=
  mk_vmcb_struct (cr0 s) (cr2 s) (cr3 s) (cr4 s) (efer s) (dr6 s) (dr7 s)
    (dr_intercepts s) (exception_intercepts s) (eventinj s)
    (interrupt_shadow s) x (sysenter_esp s) (sysenter_eip s) (np_enable s)
    (g_pat s) (h_cr3 s) (debugctlmsr s) (lastbranchfromip s) (lastbranchtoip
    s) (lastintfromip s) (lastinttoip s) (lbr_control s) (exitinfo1 s).
Definition set_sysenter_esp (x : Z) (s : vmcb_struct) : vmcb_struct :=
  mk_vmcb_struct (cr0 s) (cr2 s) (cr3 s) (cr4 s) (efer s) (dr6 s) (dr7 s)
    (dr_intercepts s) (exception_intercepts s) (eventinj s)
    (interrupt_shadow s) (sysenter_cs s) x (sysenter_eip s) (np_enable s)
    (g_pat s) (h_cr3 s) (debugctlmsr s) (lastbranchfromip s) (lastbranchtoip
    s) (lastintfromip s) (lastinttoip s) (lbr_control s) (exitinfo1 s).
Definition set_sysenter_eip (x : Z) (s : vmcb_struct) : vmcb_struct :=
  mk_vmcb_struct (cr0 s) (cr2 s) (cr3 s) (cr4 s) (efer s) (dr6 s) (dr7 s)
    (dr_intercepts s) (exception_intercepts s) (eventinj s)
    (interrupt_shadow s) (sysenter_cs s) (sysenter_esp s) x (np_enable s)
    (g_pat s) (h_cr3 s) (debugctlmsr s) (lastbranchfromip s) (lastbranchtoip
    s) (lastintfromip s) (lastinttoip s) (lbr_control s) (exitinfo1 s).
Definition set_np_enable (x : Z) (s : vmcb_struct) : vmcb_struct :=
  mk_vmcb_struct (cr0 s) (cr2 s) (cr3 s) (cr4 s) (efer s) (dr6 s) (dr7 s)
    (dr_intercepts s) (exception_intercepts s) (eventinj s)
    (interrupt_shadow s) (sysenter_cs s) (sysenter_esp s) (sysenter_eip s) x
    (g_pat s) (h_cr3 s) (debugctlmsr s) (lastbranchfromip s) (lastbranchtoip
    s) (lastintfromip s) (lastinttoip s) (lbr_control s) (exitinfo1 s).
Definition set_g_pat (x : Z) (s : vmcb_struct) : vmcb_struct :=
  mk_vmcb_struct (cr0 s) (cr2 s) (cr3 s) (cr4 s) (efer s) (dr6 s) (dr7 s)
    (dr_intercepts s) (exception_intercepts s) (eventinj s)
    (interrupt_shadow s) (sysenter_cs s) (sysenter_esp s) (sysenter_eip s)
    (np_enable s) x (h_cr3 s) (debugctlmsr s) (lastbranchfromip s)
    (lastbranchtoip s) (lastintfromip s) (lastinttoip s) (lbr_control s)
    (exitinfo1 s).
Definition set_h_cr3 (x : Z) (s : vmcb_struct) : vmcb_struct :=
  mk_vmcb_struct (cr0 s) (cr2 s) (cr3 s) (cr4 s) (efer s) (dr6 s) (dr7 s)
    (dr_intercepts s) (exception_intercepts s) (eventinj s)
    (interrupt_shadow s) (sysenter_cs s) (sysenter_esp s) (sysenter_eip s)
    (np_enable s) (g_pat s) x (debugctlmsr s) (lastbranchfromip s)
    (lastbranchtoip s) (lastintfromip s) (lastinttoip s) (lbr_control s)
    (exitinfo1 s).
Definition set_debugctlmsr (x : Z) (s : vmcb_struct) : vmcb_struct :=
  mk_vmcb_struct (cr0 s) (cr2 s) (cr3 s) (cr4 s) (efer s) (dr6 s) (dr7 s)
    (dr_intercepts s) (exception_intercepts s) (eventinj s)
    (interrupt_shadow s) (sysenter_cs s) (sysenter_esp s) (sysenter_eip s)
    (np_enable s) (g_pat s) (h_cr3 s) x (lastbranchfromip s) (lastbranchtoip
    s) (lastintfromip s) (lastinttoip s) (lbr_control s) (exitinfo1 s).
Definition set_lastbranchfromip (x : Z) (s : vmcb_struct) : vmcb_struct :=
  mk_vmcb_struct (cr0 s) (cr2 s) (cr3 s) (cr4 s) (efer s) (dr6 s) (dr7 s)
    (dr_intercepts s) (exception_intercepts s) (eventinj s)
    (interrupt_shadow s) (sysenter_cs s) (sysenter_esp s) (sysenter_eip s)
    (np_enable s) (g_pat s) (h_cr3 s) (debugctlmsr s) x (lastbranchtoip s)
    (lastintfromip s) (lastinttoip s) (lbr_control s) (exitinfo1 s).
Definition set_lastbranchtoip (x : Z) (s : vmcb_struct) : vmcb_struct :=
  mk_vmcb_struct (cr0 s) (cr2 s) (cr3 s) (cr4 s) (efer s) (dr6 s) (dr7 s)
    (dr_intercepts s) (exception_intercepts s) (eventinj s)
    (interrupt_shadow s) (sysenter_cs s) (sysenter_esp s) (sysenter_eip s)
    (np_enable s) (g_pat s) (h_cr3 s) (debugctlmsr s) (lastbranchfromip s) x
    (lastintfromip s) (lastinttoip s) (lbr_control s) (exitinfo1 s).
Definition set_lastintfromip (x : Z) (s : vmcb_struct) : vmcb_struct :=
  mk_vmcb_struct (cr0 s) (cr2 s) (cr3 s) (cr4 s) (efer s) (dr6 s) (dr7 s)
    (dr_intercepts s) (exception_intercepts s) (eventinj s)
    (interrupt_shadow s) (sysenter_cs s) (sysenter_esp s) (sysenter_eip s)
    (np_enable s) (g_pat s) (h_cr3 s) (debugctlmsr s) (lastbranchfromip s)
    (lastbranchtoip s) x (lastinttoip s) (lbr_control s) (exitinfo1 s).
Definition set_lastinttoip (x : Z) (s : vmcb_struct) : vmcb_struct :=
  mk_vmcb_struct (cr0 s) (cr2 s) (cr3 s) (cr4 s) (efer s) (dr6 s) (dr7 s)
    (dr_intercepts s) (exception_intercepts s) (eventinj s)
    (interrupt_shadow s) (sysenter_cs s) (sysenter_esp s) (sysenter_eip s)
    (np_enable s) (g_pat s) (h_cr3 s) (debugctlmsr s) (lastbranchfromip s)
    (lastbranchtoip s) (lastintfromip s) x (lbr_control s) (exitinfo1 s).
Definition set_lbr_control (x : Z) (s : vmcb_struct) : vmcb_struct :=
  mk_vmcb_struct (cr0 s) (cr2 s) (cr3 s) (cr4 s) (efer s) (dr6 s) (dr7 s)
    (dr_intercepts s) (exception_intercepts s) (eventinj s)
    (interrupt_shadow s) (sysenter_cs s) (sysenter_esp s) (sysenter_eip s)
    (np_enable s) (g_pat s) (h_cr3 s) (debugctlmsr s) (lastbranchfromip s)
    (lastbranchtoip s) (lastintfromip s) (lastinttoip s) x (exitinfo1 s).
Definition set_exitinfo1 (x : Z) (s : vmcb_struct) : vmcb_struct :=
  mk_vmcb_struct (cr0 s) (cr2 s) (cr3 s) (cr4 s) (efer s) (dr6 s) (dr7 s)
    (dr_intercepts s) (exception_intercepts s) (eventinj s)
    (interrupt_shadow s) (sysenter_cs s) (sysenter_esp s) (sysenter_eip s)
    (np_enable s) (g_pat s) (h_cr3 s) (debugctlmsr s) (lastbranchfromip s)
    (lastbranchtoip s) (lastintfromip s) (lastinttoip s) (lbr_control s) x.

(** [struct cpu_user_regs]: the guest register file. *)
Record cpu_user_regs : Type := mk_cpu_user_regs {
  eax : Z;
  ecx : Z;
  edx : Z;
  eip : Z;
  eflags : Z
}.

Definition set_eax (x : Z) (s : cpu_user_regs) : cpu_user_regs :=
  mk_cpu_user_regs x (ecx s) (edx s) (eip s) (eflags s).
Definition set_ecx (x : Z) (s : cpu_user_regs) : cpu_user_regs :=
  mk_cpu_user_regs (eax s) x (edx s) (eip s) (eflags s).
Definition set_edx (x : Z) (s : cpu_user_regs) : cpu_user_regs :=
  mk_cpu_user_regs (eax s) (ecx s) x (eip s) (eflags s).
Definition set_eip (x : Z) (s : cpu_user_regs) : cpu_user_regs :=
  mk_cpu_user_regs (eax s) (ecx s) (edx s) x (eflags s).
Definition set_eflags (x : Z) (s : cpu_user_regs) : cpu_user_regs :=
  mk_cpu_user_regs (eax s) (ecx s) (edx s) (eip s) x.

(** [struct hvm_hw_cpu]: the persisted record, members used by
    [svm_vmcb_save] and [svm_vmcb_restore]. *)
Record hvm_hw_cpu : Type := mk_hvm_hw_cpu {
  c_cr0 : Z;  (* c->cr0 *)
  c_cr2 : Z;
  c_cr3 : Z;
  c_cr4 : Z;
  c_sysenter_cs : Z;
  c_sysenter_esp : Z;
  c_sysenter_eip : Z;
  pending_event : Z;  (* u32 *)
  error_code : Z  (* u32 *)
}.

Definition set_c_cr0 (x : Z) (s : hvm_hw_cpu) : hvm_hw_cpu :=
  mk_hvm_hw_cpu x (c_cr2 s) (c_cr3 s) (c_cr4 s) (c_sysenter_cs s)
    (c_sysenter_esp s) (c_sysenter_eip s) (pending_event s) (error_code s).
Definition set_c_cr2 (x : Z) (s : hvm_hw_cpu) : hvm_hw_cpu :=
  mk_hvm_hw_cpu (c_cr0 s) x (c_cr3 s) (c_cr4 s) (c_sysenter_cs s)
    (c_sysenter_esp s) (c_sysenter_eip s) (pending_event s) (error_code s).
Definition set_c_cr3 (x : Z) (s : hvm_hw_cpu) : hvm_hw_cpu :=
  mk_hvm_hw_cpu (c_cr0 s) (c_cr2 s) x (c_cr4 s) (c_sysenter_cs s)
    (c_sysenter_esp s) (c_sysenter_eip s) (pending_event s) (error_code s).
Definition set_c_cr4 (x : Z) (s : hvm_hw_cpu) : hvm_hw_cpu :=
  mk_hvm_hw_cpu (c_cr0 s) (c_cr2 s) (c_cr3 s) x (c_sysenter_cs s)
    (c_sysenter_esp s) (c_sysenter_eip s) (pending_event s) (error_code s).
Definition set_c_sysenter_cs (x : Z) (s : hvm_hw_cpu) : hvm_hw_cpu :=
  mk_hvm_hw_cpu (c_cr0 s) (c_cr2 s) (c_cr3 s) (c_cr4 s) x (c_sysenter_esp s)
    (c_sysenter_eip s) (pending_event s) (error_code s).
Definition set_c_sysenter_esp (x : Z) (s : hvm_hw_cpu) : hvm_hw_cpu :=
  mk_hvm_hw_cpu (c_cr0 s) (c_cr2 s) (c_cr3 s) (c_cr4 s) (c_sysenter_cs s) x
    (c_sysenter_eip s) (pending_event s) (error_code s).
Definition set_c_sysenter_eip (x : Z) (s : hvm_hw_cpu) : hvm_hw_cpu :=
  mk_hvm_hw_cpu (c_cr0 s) (c_cr2 s) (c_cr3 s) (c_cr4 s) (c_sysenter_cs s)
    (c_sysenter_esp s) x (pending_event s) (error_code s).
Definition set_pending_event (x : Z) (s : hvm_hw_cpu) : hvm_hw_cpu :=
  mk_hvm_hw_cpu (c_cr0 s) (c_cr2 s) (c_cr3 s) (c_cr4 s) (c_sysenter_cs s)
    (c_sysenter_esp s) (c_sysenter_eip s) x (error_code s).
Definition set_error_code (x : Z) (s : hvm_hw_cpu) : hvm_hw_cpu :=
  mk_hvm_hw_cpu (c_cr0 s) (c_cr2 s) (c_cr3 s) (c_cr4 s) (c_sysenter_cs s)
    (c_sysenter_esp s) (c_sysenter_eip s) (pending_event s) x.

(** A C array indexed by a small integer, and the assignment [a[i] = x]. *)
Definition upd (a : Z -> Z) (i x : Z) : Z -> Z :=
  fun j => if j =? i then x else a j.

(** [struct vcpu]: the canonical state of a virtual CPU
    (v->arch.hvm_vcpu.*, v->arch.guest_context.debugreg, v->arch.guest_table
    as a frame number). *)
Record vcpu : Type := mk_vcpu {
  guest_cr : Z -> Z;
  hw_cr : Z -> Z;
  guest_efer : Z;
  flag_dr_dirty : Z;
  debugreg : Z -> Z;
  guest_table : Z
}.

Definition set_guest_cr (x : Z -> Z) (s : vcpu) : vcpu :=
  mk_vcpu x (hw_cr s) (guest_efer s) (flag_dr_dirty s) (debugreg s)
    (guest_table s).
Definition set_guest_efer (x : Z) (s : vcpu) : vcpu :=
  mk_vcpu (guest_cr s) (hw_cr s) x (flag_dr_dirty s) (debugreg s)
    (guest_table s).
Definition set_flag_dr_dirty (x : Z) (s : vcpu) : vcpu :=
  mk_vcpu (guest_cr s) (hw_cr s) (guest_efer s) x (debugreg s)
    (guest_table s).
Definition set_debugreg (x : Z -> Z) (s : vcpu) : vcpu :=
  mk_vcpu (guest_cr s) (hw_cr s) (guest_efer s) (flag_dr_dirty s) x
    (guest_table s).
Definition set_guest_table (x : Z) (s : vcpu) : vcpu :=
  mk_vcpu (guest_cr s) (hw_cr s) (guest_efer s) (flag_dr_dirty s)
    (debugreg s) x.

Inductive instruction_index : Type :=
  INSTR_HLT | INSTR_RDMSR | INSTR_WRMSR.

Inductive handler_return : Type :=
  HNDL_done | HNDL_unhandled | HNDL_exception_raised.

Inductive hvm_intsrc : Type :=
  hvm_intsrc_none | hvm_intsrc_pic | hvm_intsrc_lapic | hvm_intsrc_nmi.

Record hvm_intack : Type := mk_hvm_intack { source : hvm_intsrc; vector : Z }.

Definition is_intsrc_none (s : hvm_intsrc) : bool :=
  match s with hvm_intsrc_none => true | _ => false end.

(** Calls that leave svm.c and act on state that is not modelled here. *)
Inductive extcall : Type :=
| Call_domain_crash
| Call_BUG
| Call_setup_fpu
| Call_svm_asid_inv_asid
| Call_get_page (mfn : Z)
| Call_put_page (pfn : Z)
| Call_paging_update_paging_modes
| Call_hvm_set_guest_time (t : Z)
| Call_pt_reset
| Call_vlapic_msr_set (value : Z)
| Call_svm_disable_intercept_for_msr (msr : Z)
| Call_wrmsr_hypervisor_regs (idx eax edx : Z)
| Call_hvm_hlt (rflags : Z).

(** The state the functions act on: one vcpu [v] with its control block
    (v->arch.hvm_svm.vmcb), the guest register file, the debug registers
    0-3 of the physical core, whether [v] is [current], whether the domain
    of [v] uses hardware-assisted paging (paging_mode_hap(v->domain)), and
    the calls made so far, most recent first.  Functions of svm.c that work
    on [current] are applied to this vcpu. *)
Record machine : Type := mk_machine {
  v : vcpu;
  vmcb : vmcb_struct;
  regs : cpu_user_regs;
  hw_debugreg : Z -> Z;
  v_is_current : bool;
  paging_mode_hap : bool;
  events : list extcall
}.

Definition set_v (x : vcpu) (s : machine) : machine :=
  mk_machine x (vmcb s) (regs s) (hw_debugreg s) (v_is_current s)
    (paging_mode_hap s) (events s).
Definition set_vmcb (x : vmcb_struct) (s : machine) : machine :=
  mk_machine (v s) x (regs s) (hw_debugreg s) (v_is_current s)
    (paging_mode_hap s) (events s).
Definition set_regs (x : cpu_user_regs) (s : machine) : machine :=
  mk_machine (v s) (vmcb s) x (hw_debugreg s) (v_is_current s)
    (paging_mode_hap s) (events s).
Definition set_hw_debugreg (x : Z -> Z) (s : machine) : machine :=
  mk_machine (v s) (vmcb s) (regs s) x (v_is_current s)
    (paging_mode_hap s) (events s).
Definition set_events (x : list extcall) (s : machine) : machine :=
  mk_machine (v s) (vmcb s) (regs s) (hw_debugreg s) (v_is_current s)
    (paging_mode_hap s) x.

(** ** What svm.c takes from the rest of the hypervisor

    Functions, macros and globals that svm.c uses and that are defined
    elsewhere.  Each is named as in the source. *)
Class Externals : Type := {
  (** the exception-escalation table of hvm.c *)
  hvm_combine_hw_exceptions : Z -> Z -> Z;
  (** whether an event of this type and vector is redelivered *)
  hvm_event_needs_reinjection : Z -> Z -> bool;
  (** the CR4 bits owned by the host (depends on mmu_cr4_features) *)
  HVM_CR4_HOST_MASK : Z;
  (** gfn_to_mfn(v->domain, gfn, &p2mt): the frame and its type *)
  gfn_to_mfn : Z -> Z * Z;
  p2m_is_ram : Z -> bool;
  (** get_page(mfn_to_page(mfn), v->domain) succeeded *)
  get_page : Z -> bool;
  (** pagetable_get_paddr(v->domain->arch.phys_table) *)
  phys_table_paddr : Z;
  hvm_get_guest_time : Z;
  (** vcpu_vlapic(v)->hw.apic_base_msr *)
  apic_base_msr : Z;
  (** rdmsr_hypervisor_regs / rdmsr_safe: the pair (eax, edx) read, or
      [None] when the register is not handled / the read faults *)
  rdmsr_hypervisor_regs : Z -> option (Z * Z);
  rdmsr_safe : Z -> option (Z * Z);
  (** hvm_set_efer(value): its effect and whether it raised an exception *)
  hvm_set_efer : Z -> machine -> bool * machine;
  cpu_has_svm_lbrv : bool;
  (** __get_instruction_length(v, instr, NULL), an [int] *)
  __get_instruction_length : instruction_index -> Z;
  hvm_vcpu_has_pending_irq : hvm_intack;
  hvm_interrupt_blocked : machine -> hvm_intack -> bool
}.

(** ** A state monad for the functions of svm.c *)

Definition M (A : Type) : Type := machine -> A * machine.

Definition ret {A : Type} (a : A) : M A := fun m => (a, m).

Definition bind {A B : Type} (c : M A) (k : A -> M B) : M B :=
  fun m => let (a, m') := c m in k a m'.

Declare Scope svm_scope.
Delimit Scope svm_scope with svm.
Notation "x <- c ;; k" := (bind c (fun x => k))
  (at level 61, c at next level, right associativity) : svm_scope.
Notation "c ;; k" := (bind c (fun _ => k))
  (at level 61, right associativity) : svm_scope.
Local Open Scope svm_scope.

Definition get : M machine := fun m => (m, m).
Definition modify (f : machine -> machine) : M unit := fun m => (tt, f m).
Definition skip : M unit := ret tt.

(** An external call: recorded in the log. *)
Definition call (e : extcall) : M unit :=
  modify (fun m => set_events (e :: events m) m).

(** [vmcb->f = rhs], [regs->f = rhs], [v->...f = rhs], with [rhs] read in
    the state before the assignment. *)
Definition assign_vmcb (set : Z -> vmcb_struct -> vmcb_struct)
    (rhs : machine -> Z) : M unit :=
  modify (fun m => set_vmcb (set (rhs m) (vmcb m)) m).
Definition assign_regs (set : Z -> cpu_user_regs -> cpu_user_regs)
    (rhs : machine -> Z) : M unit :=
  modify (fun m => set_regs (set (rhs m) (regs m)) m).
Definition assign_v (set : Z -> vcpu -> vcpu) (rhs : machine -> Z) : M unit :=
  modify (fun m => set_v (set (rhs m) (v m)) m).
(** [v->arch.hvm_vcpu.guest_cr[i] = rhs] and
    [v->arch.guest_context.debugreg[i] = rhs] *)
Definition assign_guest_cr (i : Z) (rhs : machine -> Z) : M unit :=
  modify (fun m =>
            set_v (set_guest_cr (upd (guest_cr (v m)) i (rhs m)) (v m)) m).
Definition assign_debugreg (i : Z) (rhs : machine -> Z) : M unit :=
  modify (fun m =>
            set_v (set_debugreg (upd (debugreg (v m)) i (rhs m)) (v m)) m).
(** write_debugreg(i, rhs) *)
Definition write_debugreg (i : Z) (rhs : machine -> Z) : M unit :=
  modify (fun m => set_hw_debugreg (upd (hw_debugreg m) i (rhs m)) m).

Definition in_range (lo hi x : Z) : bool := (lo <=? x) && (x <=? hi).

(** ** The functions of svm.c *)

Section Svm.

Context {E : Externals}.

(** static void svm_save_dr(struct vcpu *v) *)
Definition svm_save_dr : M unit :=
  m <- get ;;
  if flag_dr_dirty (v m) =? 0 then skip
  else
    (* Clear the DR dirty flag and re-enable intercepts for DR accesses. *)
    assign_v set_flag_dr_dirty (fun _ => 0) ;;
    assign_vmcb set_dr_intercepts (fun _ => u32 (Z.lnot 0)) ;;
    assign_debugreg 0 (fun m => hw_debugreg m 0) ;;
    assign_debugreg 1 (fun m => hw_debugreg m 1) ;;
    assign_debugreg 2 (fun m => hw_debugreg m 2) ;;
    assign_debugreg 3 (fun m => hw_debugreg m 3) ;;
    assign_debugreg 6 (fun m => dr6 (vmcb m)) ;;
    assign_debugreg 7 (fun m => dr7 (vmcb m)).

(** static void __restore_debug_registers(struct vcpu *v) *)
Definition __restore_debug_registers : M unit :=
  m <- get ;;
  if negb (flag_dr_dirty (v m) =? 0) then skip
  else
    assign_v set_flag_dr_dirty (fun _ => 1) ;;
    assign_vmcb set_dr_intercepts (fun _ => 0) ;;
    write_debugreg 0 (fun m => debugreg (v m) 0) ;;
    write_debugreg 1 (fun m => debugreg (v m) 1) ;;
    write_debugreg 2 (fun m => debugreg (v m) 2) ;;
    write_debugreg 3 (fun m => debugreg (v m) 3) ;;
    assign_vmcb set_dr6 (fun m => debugreg (v m) 6) ;;
    assign_vmcb set_dr7 (fun m => debugreg (v m) 7).

(** static void svm_inject_exception(
        unsigned int trapnr, int errcode, unsigned long cr2) *)
Definition svm_inject_exception (trapnr errcode cr2 : Z) : M unit :=
  m <- get ;;
  let event := eventinj (vmcb m) in
  let pending_hw :=
    negb (fields_v event =? 0)
    && (fields_type event =? X86_EVENTTYPE_HW_EXCEPTION) in
  let trapnr :=
    if pending_hw
    then u32 (hvm_combine_hw_exceptions (fields_vector event) trapnr)
    else trapnr in
  let errcode :=
    if pending_hw && (trapnr =? TRAP_double_fault) then 0 else errcode in
  let event := 0 in
  let event := set_fields_v 1 event in
  let event := set_fields_type X86_EVENTTYPE_HW_EXCEPTION event in
  let event := set_fields_vector trapnr event in
  let event :=
    set_fields_ev (if errcode =? HVM_DELIVER_NO_ERROR_CODE then 0 else 1)
                  event in
  let event := set_fields_errorcode errcode event in
  assign_vmcb set_eventinj (fun _ => event) ;;
  (if trapnr =? TRAP_page_fault
   then assign_guest_cr 2 (fun _ => cr2) ;;
        assign_vmcb set_cr2 (fun m => guest_cr (v m) 2)
   else skip) ;;
  m <- get ;;
  if (trapnr =? TRAP_debug) && test (eflags (regs m)) X86_EFLAGS_TF
  then __restore_debug_registers ;;
       assign_vmcb set_dr6 (fun m => Z.lor (dr6 (vmcb m)) 0x4000)
  else skip.

(** static void inline __update_guest_eip(
        struct cpu_user_regs *regs, unsigned int inst_len) *)
Definition __update_guest_eip (inst_len : Z) : M unit :=
  if (inst_len =? 0) || (15 <? inst_len)
  then call Call_domain_crash
  else
    assign_regs set_eip (fun m => u64 (eip (regs m) + inst_len)) ;;
    assign_regs set_eflags
      (fun m => Z.land (eflags (regs m)) (Z.lnot X86_EFLAGS_RF)) ;;
    assign_vmcb set_interrupt_shadow (fun _ => 0) ;;
    m <- get ;;
    if test (eflags (regs m)) X86_EFLAGS_TF
    then svm_inject_exception TRAP_debug HVM_DELIVER_NO_ERROR_CODE 0
    else skip.

(** static int svm_vmcb_save(struct vcpu *v, struct hvm_hw_cpu *c);
    the record [c] is passed in and handed back. *)
Definition svm_vmcb_save (c : hvm_hw_cpu) : M (Z * hvm_hw_cpu) :=
  m <- get ;;
  let c := set_c_cr0 (guest_cr (v m) 0) c in
  let c := set_c_cr2 (guest_cr (v m) 2) c in
  let c := set_c_cr3 (guest_cr (v m) 3) c in
  let c := set_c_cr4 (guest_cr (v m) 4) c in
  let c := set_c_sysenter_cs (sysenter_cs (vmcb m)) c in
  let c := set_c_sysenter_esp (sysenter_esp (vmcb m)) c in
  let c := set_c_sysenter_eip (sysenter_eip (vmcb m)) c in
  let c := set_pending_event 0 c in
  let c := set_error_code 0 c in
  let c :=
    if negb (fields_v (eventinj (vmcb m)) =? 0)
       && hvm_event_needs_reinjection (fields_type (eventinj (vmcb m)))
                                      (fields_vector (eventinj (vmcb m)))
    then
      let c := set_pending_event (u32 (eventinj (vmcb m))) c in
      set_error_code (fields_errorcode (eventinj (vmcb m))) c
    else c in
  ret (1, c).

(** static void svm_fpu_enter(struct vcpu *v) *)
Definition svm_fpu_enter : M unit :=
  call Call_setup_fpu ;;
  assign_vmcb set_exception_intercepts
    (fun m => Z.land (exception_intercepts (vmcb m))
                     (u32 (Z.lnot (Z.shiftl 1 TRAP_no_device)))).

(** static void svm_update_guest_cr(struct vcpu *v, unsigned int cr) *)
Definition svm_update_guest_cr (cr : Z) : M unit :=
  if cr =? 0 then
    m <- get ;;
    hw_cr0_mask <-
      (if negb (test (guest_cr (v m) 0) X86_CR0_TS) then
         if negb (v_is_current m) then ret (Z.lor 0 X86_CR0_TS)
         else if test (cr0 (vmcb m)) X86_CR0_TS
              then svm_fpu_enter ;; ret 0
              else ret 0
       else ret 0) ;;
    assign_vmcb set_cr0 (fun m => Z.lor (guest_cr (v m) 0) hw_cr0_mask) ;;
    m <- get ;;
    if negb (paging_mode_hap m)
    then assign_vmcb set_cr0
           (fun m => Z.lor (cr0 (vmcb m)) (Z.lor X86_CR0_PG X86_CR0_WP))
    else skip
  else if cr =? 2 then
    assign_vmcb set_cr2 (fun m => guest_cr (v m) 2)
  else if cr =? 3 then
    assign_vmcb set_cr3 (fun m => hw_cr (v m) 3) ;;
    call Call_svm_asid_inv_asid
  else if cr =? 4 then
    assign_vmcb set_cr4 (fun _ => HVM_CR4_HOST_MASK) ;;
    m <- get ;;
    (if paging_mode_hap m
     then assign_vmcb set_cr4
            (fun m => Z.land (cr4 (vmcb m)) (Z.lnot X86_CR4_PAE))
     else skip) ;;
    assign_vmcb set_cr4 (fun m => Z.lor (cr4 (vmcb m)) (guest_cr (v m) 4))
  else call Call_BUG.

(** static void svm_update_guest_efer(struct vcpu *v) *)
Definition svm_update_guest_efer : M unit :=
  assign_vmcb set_efer
    (fun m => Z.land (Z.lor (guest_efer (v m)) EFER_SVME)
                     (Z.lnot EFER_LME)) ;;
  m <- get ;;
  if test (efer (vmcb m)) EFER_LMA
  then assign_vmcb set_efer (fun m => Z.lor (efer (vmcb m)) EFER_LME)
  else skip.

(** static int svm_vmcb_restore(struct vcpu *v, struct hvm_hw_cpu *c) *)
Definition svm_vmcb_restore (c : hvm_hw_cpu) : M Z :=
  if negb (pending_valid (pending_event c) =? 0)
     && ((pending_type (pending_event c) =? 1)
         || (6 <? pending_type (pending_event c))
         || negb (pending_reserved (pending_event c) =? 0))
  then ret (- EINVAL)
  else
    m <- get ;;
    (* the frame of the new guest table, or [None] for "Invalid CR3" *)
    let mfn :=
      if negb (paging_mode_hap m) && test (c_cr0 c) X86_CR0_PG then
        let (mfn, p2mt) := gfn_to_mfn (Z.shiftr (c_cr3 c) PAGE_SHIFT) in
        if negb (p2m_is_ram p2mt) || negb (get_page mfn)
        then None else Some mfn
      else Some 0 in
    match mfn with
    | None => ret (- EINVAL)
    | Some mfn =>
      (if negb (paging_mode_hap m) then
         (if test (c_cr0 c) X86_CR0_PG
          then call (Call_get_page mfn) else skip) ;;
         (if test (guest_cr (v m) 0) X86_CR0_PG
          then call (Call_put_page (guest_table (v m))) else skip) ;;
         assign_v set_guest_table (fun _ => mfn)
       else skip) ;;
      assign_guest_cr 0 (fun _ => Z.lor (c_cr0 c) X86_CR0_ET) ;;
      assign_guest_cr 2 (fun _ => c_cr2 c) ;;
      assign_guest_cr 3 (fun _ => c_cr3 c) ;;
      assign_guest_cr 4 (fun _ => c_cr4 c) ;;
      svm_update_guest_cr 0 ;;
      svm_update_guest_cr 2 ;;
      svm_update_guest_cr 4 ;;
      assign_vmcb set_sysenter_cs (fun _ => c_sysenter_cs c) ;;
      assign_vmcb set_sysenter_esp (fun _ => c_sysenter_esp c) ;;
      assign_vmcb set_sysenter_eip (fun _ => c_sysenter_eip c) ;;
      (if paging_mode_hap m then
         assign_vmcb set_np_enable (fun _ => 1) ;;
         assign_vmcb set_g_pat (fun _ => 0x0007040600070406) ;;
         assign_vmcb set_h_cr3 (fun _ => phys_table_paddr)
       else skip) ;;
      (if negb (pending_valid (pending_event c) =? 0)
          && hvm_event_needs_reinjection (pending_type (pending_event c))
                                         (pending_vector (pending_event c))
       then
         assign_vmcb set_eventinj (fun _ => pending_event c) ;;
         assign_vmcb set_eventinj
           (fun m => set_fields_errorcode (error_code c) (eventinj (vmcb m)))
       else skip) ;;
      call Call_paging_update_paging_modes ;;
      ret 0
    end.

(** static int svm_event_pending(struct vcpu *v) *)
Definition svm_event_pending : M Z :=
  m <- get ;; ret (fields_v (eventinj (vmcb m))).

(** static enum handler_return long_mode_do_msr_write(
        struct cpu_user_regs *regs) *)
Definition long_mode_do_msr_write : M handler_return :=
  m <- get ;;
  let msr_content :=
    Z.lor (u32 (eax (regs m))) (u64 (Z.shiftl (edx (regs m)) 32)) in
  let ecx' := u32 (ecx (regs m)) in
  if ecx' =? MSR_EFER then
    raised <- hvm_set_efer msr_content ;;
    if raised then ret HNDL_exception_raised else ret HNDL_done
  else if (ecx' =? MSR_IA32_MC4_MISC)
          || in_range MSR_F10_MC4_MISC1 MSR_F10_MC4_MISC3 ecx' then
    (* threshold register: write accesses are ignored *)
    ret HNDL_done
  else ret HNDL_unhandled.

(** static int svm_msr_read_intercept(struct cpu_user_regs *regs) *)
Definition svm_msr_read_intercept : M Z :=
  m <- get ;;
  let ecx' := u32 (ecx (regs m)) in
  (* leaving the switch with [msr_content] set *)
  let break (msr_content : Z) : M Z :=
    assign_regs set_eax (fun _ => Z.land msr_content 0xFFFFFFFF) ;;
    assign_regs set_edx (fun _ => Z.shiftr msr_content 32) ;;
    ret X86EMUL_OKAY in
  let gpf : M Z :=
    svm_inject_exception TRAP_gp_fault 0 0 ;;
    ret X86EMUL_EXCEPTION in
  if ecx' =? MSR_IA32_TSC then break hvm_get_guest_time
  else if ecx' =? MSR_IA32_APICBASE then break apic_base_msr
  else if ecx' =? MSR_EFER then break (guest_efer (v m))
  else if (ecx' =? MSR_IA32_MC4_MISC)
          || in_range MSR_F10_MC4_MISC1 MSR_F10_MC4_MISC3 ecx' then
    break (Z.shiftl 1 61)
  else if ecx' =? MSR_IA32_EBC_FREQUENCY_ID then break 0
  else if ecx' =? MSR_K8_VM_HSAVE_PA then gpf
  else if (ecx' =? MSR_IA32_MCG_CAP) || (ecx' =? MSR_IA32_MCG_STATUS)
          || (ecx' =? MSR_IA32_MC0_STATUS) || (ecx' =? MSR_IA32_MC1_STATUS)
          || (ecx' =? MSR_IA32_MC2_STATUS) || (ecx' =? MSR_IA32_MC3_STATUS)
          || (ecx' =? MSR_IA32_MC4_STATUS) || (ecx' =? MSR_IA32_MC5_STATUS)
  then break 0
  else if ecx' =? MSR_IA32_DEBUGCTLMSR then break (debugctlmsr (vmcb m))
  else if ecx' =? MSR_IA32_LASTBRANCHFROMIP then
    break (lastbranchfromip (vmcb m))
  else if ecx' =? MSR_IA32_LASTBRANCHTOIP then
    break (lastbranchtoip (vmcb m))
  else if ecx' =? MSR_IA32_LASTINTFROMIP then break (lastintfromip (vmcb m))
  else if ecx' =? MSR_IA32_LASTINTTOIP then break (lastinttoip (vmcb m))
  else
    let done (r : Z * Z) : M Z :=
      assign_regs set_eax (fun _ => fst r) ;;
      assign_regs set_edx (fun _ => snd r) ;;
      ret X86EMUL_OKAY in
    match rdmsr_hypervisor_regs ecx' with
    | Some r => done r
    | None =>
      match rdmsr_safe ecx' with
      | Some r => done r
      | None => gpf
      end
    end.

(** static int svm_msr_write_intercept(struct cpu_user_regs *regs) *)
Definition svm_msr_write_intercept : M Z :=
  m <- get ;;
  let ecx' := u32 (ecx (regs m)) in
  let msr_content :=
    Z.lor (u32 (eax (regs m))) (u64 (Z.shiftl (edx (regs m)) 32)) in
  let gpf : M Z :=
    svm_inject_exception TRAP_gp_fault 0 0 ;;
    ret X86EMUL_EXCEPTION in
  if ecx' =? MSR_IA32_TSC then
    call (Call_hvm_set_guest_time msr_content) ;;
    call Call_pt_reset ;;
    ret X86EMUL_OKAY
  else if ecx' =? MSR_IA32_APICBASE then
    call (Call_vlapic_msr_set msr_content) ;;
    ret X86EMUL_OKAY
  else if ecx' =? MSR_K8_VM_HSAVE_PA then gpf
  else if ecx' =? MSR_IA32_DEBUGCTLMSR then
    assign_vmcb set_debugctlmsr (fun _ => msr_content) ;;
    (if (msr_content =? 0) || negb cpu_has_svm_lbrv then skip
     else
       assign_vmcb set_lbr_control
         (fun m => set_bits 0 1 1 (lbr_control (vmcb m))) ;;
       call (Call_svm_disable_intercept_for_msr MSR_IA32_DEBUGCTLMSR) ;;
       call (Call_svm_disable_intercept_for_msr MSR_IA32_LASTBRANCHFROMIP) ;;
       call (Call_svm_disable_intercept_for_msr MSR_IA32_LASTBRANCHTOIP) ;;
       call (Call_svm_disable_intercept_for_msr MSR_IA32_LASTINTFROMIP) ;;
       call (Call_svm_disable_intercept_for_msr MSR_IA32_LASTINTTOIP)) ;;
    ret X86EMUL_OKAY
  else if ecx' =? MSR_IA32_LASTBRANCHFROMIP then
    assign_vmcb set_lastbranchfromip (fun _ => msr_content) ;;
    ret X86EMUL_OKAY
  else if ecx' =? MSR_IA32_LASTBRANCHTOIP then
    assign_vmcb set_lastbranchtoip (fun _ => msr_content) ;;
    ret X86EMUL_OKAY
  else if ecx' =? MSR_IA32_LASTINTFROMIP then
    assign_vmcb set_lastintfromip (fun _ => msr_content) ;;
    ret X86EMUL_OKAY
  else if ecx' =? MSR_IA32_LASTINTTOIP then
    assign_vmcb set_lastinttoip (fun _ => msr_content) ;;
    ret X86EMUL_OKAY
  else
    r <- long_mode_do_msr_write ;;
    match r with
    | HNDL_unhandled =>
      m <- get ;;
      call (Call_wrmsr_hypervisor_regs ecx' (eax (regs m)) (edx (regs m))) ;;
      ret X86EMUL_OKAY
    | HNDL_exception_raised => ret X86EMUL_EXCEPTION
    | HNDL_done => ret X86EMUL_OKAY
    end.

(** static void svm_do_msr_access(struct cpu_user_regs *regs) *)
Definition svm_do_msr_access : M unit :=
  m <- get ;;
  r <- (if exitinfo1 (vmcb m) =? 0 then
          rc <- svm_msr_read_intercept ;;
          ret (rc, __get_instruction_length INSTR_RDMSR)
        else
          rc <- svm_msr_write_intercept ;;
          ret (rc, __get_instruction_length INSTR_WRMSR)) ;;
  let (rc, inst_len) := r in
  if rc =? X86EMUL_OKAY then __update_guest_eip (u32 inst_len) else skip.

(** static void svm_vmexit_do_hlt(struct vmcb_struct *vmcb,
                                  struct cpu_user_regs *regs) *)
Definition svm_vmexit_do_hlt : M unit :=
  let intack := hvm_vcpu_has_pending_irq in
  let inst_len := u32 (__get_instruction_length INSTR_HLT) in
  if inst_len =? 0 then skip
  else
    __update_guest_eip inst_len ;;
    (* Check for pending exception or new interrupt. *)
    m <- get ;;
    if negb (fields_v (eventinj (vmcb m)) =? 0)
       || (negb (is_intsrc_none (source intack))
           && negb (hvm_interrupt_blocked m intack))
    then skip
    else call (Call_hvm_hlt (eflags (regs m))).

End Svm.

(** ** Derived notions used in the statements *)

(** The lazy discipline of the debug registers: the dirty flag is set
    exactly when debug-register accesses are not intercepted. *)
Definition dr_lazy_invariant (m : machine) : Prop :=
  flag_dr_dirty (v m) <> 0 <-> dr_intercepts (vmcb m) = 0.

(** What [svm_inject_exception] decides before it writes the slot: the
    vector after a merge with a pending hardware exception, and the error
    code that goes with it. *)
Section Injected.

Context {E : Externals}.

Definition pending_hw_exception (m : machine) : bool :=
  negb (fields_v (eventinj (vmcb m)) =? 0)
  && (fields_type (eventinj (vmcb m)) =? X86_EVENTTYPE_HW_EXCEPTION).

Definition injected_trapnr (trapnr : Z) (m : machine) : Z :=
  if pending_hw_exception m
  then u32 (hvm_combine_hw_exceptions
              (fields_vector (eventinj (vmcb m))) trapnr)
  else trapnr.

Definition injected_errcode (trapnr errcode : Z) (m : machine) : Z :=
  if pending_hw_exception m
     && (injected_trapnr trapnr m =? TRAP_double_fault)
  then 0 else errcode.

End Injected.

(** The two tests of [svm_vmcb_restore] that make it return -EINVAL: the
    format check of the pending event, and the look-up of the frame that
    the restored CR3 names under shadow paging ([None] for "Invalid
    CR3"). *)
Section RestoreChecks.

Context {E : Externals}.

Definition pending_event_invalid (c : hvm_hw_cpu) : bool :=
  negb (pending_valid (pending_event c) =? 0)
  && ((pending_type (pending_event c) =? 1)
      || (6 <? pending_type (pending_event c))
      || negb (pending_reserved (pending_event c) =? 0)).

Definition restored_guest_table (c : hvm_hw_cpu) (m : machine) : option Z :=
  if negb (paging_mode_hap m) && test (c_cr0 c) X86_CR0_PG then
    let (mfn, p2mt) := gfn_to_mfn (Z.shiftr (c_cr3 c) PAGE_SHIFT) in
    if negb (p2m_is_ram p2mt) || negb (get_page mfn)
    then None else Some mfn
  else Some 0.

End RestoreChecks.

(** ** A concrete host, for evaluating the functions at given inputs *)

Definition is_contributory (vec : Z) : bool :=
  (vec =? 0) || in_range 10 13 vec.

(** Modelled from the spec: hvm_combine_hw_exceptions is defined in hvm.c,
    which is not among the sources.  The spec's escalation rule: two
    contributory faults become a double fault, and so does a contributory
    fault followed by a page fault; otherwise the new vector stands. *)
Definition spec_combine_hw_exceptions (vec1 vec2 : Z) : Z :=
  if is_contributory vec1
     && (is_contributory vec2 || (vec2 =? TRAP_page_fault))
  then TRAP_double_fault
  else vec2.

(** Modelled from the spec: hvm_event_needs_reinjection is defined in
    hvm.c, which is not among the sources.  The spec says only that some
    event types complete before the next entry and must not repeat; here
    external interrupts (type 0), NMIs (type 2) and hardware exceptions
    (type 3) are redelivered and the software types are not. *)
Definition spec_event_needs_reinjection (type vector : Z) : bool :=
  (type =? 0) || (type =? 2) || (type =? X86_EVENTTYPE_HW_EXCEPTION).

Definition sample_host : Externals := {|
  hvm_combine_hw_exceptions := spec_combine_hw_exceptions;
  hvm_event_needs_reinjection := spec_event_needs_reinjection;
  HVM_CR4_HOST_MASK := X86_CR4_PAE;
  gfn_to_mfn := fun gfn => (gfn, 1);
  p2m_is_ram := fun p2mt => p2mt =? 1;
  get_page := fun _ => true;
  phys_table_paddr := 0x1000;
  hvm_get_guest_time := 0;
  apic_base_msr := 0xfee00900;
  rdmsr_hypervisor_regs := fun _ => None;
  rdmsr_safe := fun _ => None;
  hvm_set_efer := fun value m => (false, set_v (set_guest_efer value (v m)) m);
  cpu_has_svm_lbrv := true;
  __get_instruction_length :=
    fun i => match i with INSTR_HLT => 1 | _ => 2 end;
  hvm_vcpu_has_pending_irq := mk_hvm_intack hvm_intsrc_none 0;
  hvm_interrupt_blocked := fun m _ => negb (interrupt_shadow (vmcb m) =? 0)
|}.

Definition vmcb_zero : vmcb_struct :=
  mk_vmcb_struct 0 0 0 0 0 0 0 0 0 0 0 0 0 0 0 0 0 0 0 0 0 0 0 0.

Definition regs_zero : cpu_user_regs := mk_cpu_user_regs 0 0 0 0 0.

Definition vcpu_zero : vcpu :=
  mk_vcpu (fun _ => 0) (fun _ => 0) 0 0 (fun _ => 0) 0.

Definition hw_cpu_zero : hvm_hw_cpu := mk_hvm_hw_cpu 0 0 0 0 0 0 0 0 0.

(** A freshly created vcpu that is running on this core; [hap] chooses
    between shadow paging and hardware-assisted paging. *)
Definition machine_zero (hap : bool) : machine :=
  mk_machine vcpu_zero vmcb_zero regs_zero (fun _ => 0) true hap [].

(** The same with canonical control register [i] holding [x]. *)
Definition machine_with_cr (hap : bool) (i x : Z) : machine :=
  set_v (set_guest_cr (upd (fun _ => 0) i x) vcpu_zero) (machine_zero hap).

(** The same with the event-injection slot holding the word [bytes]. *)
Definition machine_with_event (hap : bool) (bytes : Z) : machine :=
  set_vmcb (set_eventinj bytes vmcb_zero) (machine_zero hap).

(** An event word: valid, of the given type and vector, with error code. *)
Definition event_word (type vec ev errorcode : Z) : Z :=
  set_fields_errorcode errorcode
    (set_fields_ev ev
       (set_fields_vector vec
          (set_fields_type type (set_fields_v 1 0)))).

(** ** More of svm.c: debug registers, lazy FPU, interrupt shadow *)

(** Modelled from the spec: HVM_INTR_SHADOW_STI and HVM_INTR_SHADOW_MOV_SS
    come from asm/hvm/hvm.h, which is not among the sources; they are the
    two low bits of the interruptibility state. *)
Definition HVM_INTR_SHADOW_STI : Z := 0x1.
Definition HVM_INTR_SHADOW_MOV_SS : Z := 0x2.

Section SvmLazyState.

(** The breakpoint-enable bits of DR7 (asm/debugreg.h). *)
Variable DR7_ACTIVE_MASK : Z.

(** static void svm_restore_dr(struct vcpu *v) *)
Definition svm_restore_dr : M unit :=
  m <- get ;;
  if test (debugreg (v m) 7) DR7_ACTIVE_MASK
  then __restore_debug_registers
  else skip.

(** static void svm_dr_access(struct vcpu *v, struct cpu_user_regs *regs) *)
Definition svm_dr_access : M unit := __restore_debug_registers.

(** static void svm_fpu_leave(struct vcpu *v); the two ASSERTs of the
    debug build are not part of the behaviour. *)
Definition svm_fpu_leave : M unit :=
  m <- get ;;
  if negb (test (guest_cr (v m) 0) X86_CR0_TS) then
    assign_vmcb set_exception_intercepts
      (fun m => Z.lor (exception_intercepts (vmcb m))
                      (Z.shiftl 1 TRAP_no_device)) ;;
    assign_vmcb set_cr0 (fun m => Z.lor (cr0 (vmcb m)) X86_CR0_TS)
  else skip.

(** static void svm_fpu_dirty_intercept(void) *)
Definition svm_fpu_dirty_intercept : M unit :=
  svm_fpu_enter ;;
  m <- get ;;
  if negb (test (guest_cr (v m) 0) X86_CR0_TS)
  then assign_vmcb set_cr0
         (fun m => Z.land (cr0 (vmcb m)) (Z.lnot X86_CR0_TS))
  else skip.

(** static unsigned int svm_get_interrupt_shadow(struct vcpu *v) *)
Definition svm_get_interrupt_shadow : M Z :=
  m <- get ;;
  ret (if negb (interrupt_shadow (vmcb m) =? 0)
       then Z.lor HVM_INTR_SHADOW_MOV_SS HVM_INTR_SHADOW_STI
       else 0).

(** static void svm_set_interrupt_shadow(struct vcpu *v,
                                         unsigned int intr_shadow) *)
Definition svm_set_interrupt_shadow (intr_shadow : Z) : M unit :=
  assign_vmcb set_interrupt_shadow
    (fun _ =>
       if test intr_shadow
               (Z.lor HVM_INTR_SHADOW_MOV_SS HVM_INTR_SHADOW_STI)
       then 1 else 0).

End SvmLazyState.

(** ** More of svm.c: segment registers

    The control block's segment state and the in-sync flag of
    [struct arch_svm_struct] are kept in a state of their own; the
    functions below touch nothing else. *)

(** [enum x86_segment] (asm/x86_emulate.h). *)
Inductive x86_segment : Type :=
| x86_seg_cs | x86_seg_ss | x86_seg_ds | x86_seg_es | x86_seg_fs
| x86_seg_gs | x86_seg_tr | x86_seg_ldtr | x86_seg_gdtr | x86_seg_idtr
| x86_seg_none.

Definition x86_segment_eqb (a b : x86_segment) : bool :=
  match a, b with
  | x86_seg_cs, x86_seg_cs | x86_seg_ss, x86_seg_ss
  | x86_seg_ds, x86_seg_ds | x86_seg_es, x86_seg_es
  | x86_seg_fs, x86_seg_fs | x86_seg_gs, x86_seg_gs
  | x86_seg_tr, x86_seg_tr | x86_seg_ldtr, x86_seg_ldtr
  | x86_seg_gdtr, x86_seg_gdtr | x86_seg_idtr, x86_seg_idtr
  | x86_seg_none, x86_seg_none => true
  | _, _ => false
  end.

(** Modelled from the spec: [struct segment_register] is declared in
    asm/hvm/hvm.h, not among the sources: selector, attributes (a 16-bit
    word whose bits 5-6 are the descriptor privilege level), limit, base. *)
Record segment_register : Type := mk_segment_register {
  sel : Z;
  attr : Z;
  limit : Z;
  base : Z
}.

Definition set_attr (x : Z) (s : segment_register) : segment_register :=
  mk_segment_register (sel s) x (limit s) (base s).

Definition attr_dpl (a : Z) : Z := bits 5 2 a.
Definition set_attr_dpl (x a : Z) : Z := set_bits 5 2 x a.

(** The segment members of [struct vmcb_struct], and the current privilege
    level. *)
Record vmcb_segments : Type := mk_vmcb_segments {
  cs : segment_register;
  ds : segment_register;
  es : segment_register;
  fs : segment_register;
  gs : segment_register;
  ss : segment_register;
  tr : segment_register;
  gdtr : segment_register;
  idtr : segment_register;
  ldtr : segment_register;
  cpl : Z
}.

Definition set_cs (x : segment_register) (s : vmcb_segments) : vmcb_segments :=
  mk_vmcb_segments x (ds s) (es s) (fs s) (gs s) (ss s) (tr s) (gdtr s)
    (idtr s) (ldtr s) (cpl s).
Definition set_ds (x : segment_register) (s : vmcb_segments) : vmcb_segments :=
  mk_vmcb_segments (cs s) x (es s) (fs s) (gs s) (ss s) (tr s) (gdtr s)
    (idtr s) (ldtr s) (cpl s).
Definition set_es (x : segment_register) (s : vmcb_segments) : vmcb_segments :=
  mk_vmcb_segments (cs s) (ds s) x (fs s) (gs s) (ss s) (tr s) (gdtr s)
    (idtr s) (ldtr s) (cpl s).
Definition set_fs (x : segment_register) (s : vmcb_segments) : vmcb_segments :=
  mk_vmcb_segments (cs s) (ds s) (es s) x (gs s) (ss s) (tr s) (gdtr s)
    (idtr s) (ldtr s) (cpl s).
Definition set_gs (x : segment_register) (s : vmcb_segments) : vmcb_segments :=
  mk_vmcb_segments (cs s) (ds s) (es s) (fs s) x (ss s) (tr s) (gdtr s)
    (idtr s) (ldtr s) (cpl s).
Definition set_ss (x : segment_register) (s : vmcb_segments) : vmcb_segments :=
  mk_vmcb_segments (cs s) (ds s) (es s) (fs s) (gs s) x (tr s) (gdtr s)
    (idtr s) (ldtr s) (cpl s).
Definition set_tr (x : segment_register) (s : vmcb_segments) : vmcb_segments :=
  mk_vmcb_segments (cs s) (ds s) (es s) (fs s) (gs s) (ss s) x (gdtr s)
    (idtr s) (ldtr s) (cpl s).
Definition set_gdtr (x : segment_register) (s : vmcb_segments) : vmcb_segments :=
  mk_vmcb_segments (cs s) (ds s) (es s) (fs s) (gs s) (ss s) (tr s) x (idtr
    s) (ldtr s) (cpl s).
Definition set_idtr (x : segment_register) (s : vmcb_segments) : vmcb_segments :=
  mk_vmcb_segments (cs s) (ds s) (es s) (fs s) (gs s) (ss s) (tr s) (gdtr s)
    x (ldtr s) (cpl s).
Definition set_ldtr (x : segment_register) (s : vmcb_segments) : vmcb_segments :=
  mk_vmcb_segments (cs s) (ds s) (es s) (fs s) (gs s) (ss s) (tr s) (gdtr s)
    (idtr s) x (cpl s).
Definition set_cpl (x : Z) (s : vmcb_segments) : vmcb_segments :=
  mk_vmcb_segments (cs s) (ds s) (es s) (fs s) (gs s) (ss s) (tr s) (gdtr s)
    (idtr s) (ldtr s) x.

(** The hardware operations on a control block, and the other calls of
    the world switch. *)
Inductive vmcb_ref : Type := guest_vmcb | root_vmcb.

Inductive hw_op : Type :=
| Op_svm_vmsave (which : vmcb_ref)
| Op_svm_vmload (which : vmcb_ref)
| Op_set_segment_register_ds
| Op_set_segment_register_es
| Op_set_segment_register_ss
| Op_BUG.

(** The vcpu as the segment functions see it: the segment state of its
    control block, v->arch.hvm_svm.vmcb_in_sync, whether it is [current],
    and the hardware operations issued so far, most recent first. *)
Record seg_machine : Type := mk_seg_machine {
  segs : vmcb_segments;
  vmcb_in_sync : Z;
  seg_v_is_current : bool;
  ops : list hw_op
}.

Definition set_segs (x : vmcb_segments) (s : seg_machine) : seg_machine :=
  mk_seg_machine x (vmcb_in_sync s) (seg_v_is_current s) (ops s).
Definition set_vmcb_in_sync (x : Z) (s : seg_machine) : seg_machine :=
  mk_seg_machine (segs s) x (seg_v_is_current s) (ops s).
Definition set_ops (x : list hw_op) (s : seg_machine) : seg_machine :=
  mk_seg_machine (segs s) (vmcb_in_sync s) (seg_v_is_current s) x.

Definition hw (o : hw_op) (s : seg_machine) : seg_machine :=
  set_ops (o :: ops s) s.

(** static void svm_sync_vmcb(struct vcpu *v) *)
Definition svm_sync_vmcb (s : seg_machine) : seg_machine :=
  if negb (vmcb_in_sync s =? 0) then s
  else hw (Op_svm_vmsave guest_vmcb) (set_vmcb_in_sync 1 s).

(** static void svm_get_segment_register(struct vcpu *v,
        enum x86_segment seg, struct segment_register *reg);
    [reg] is handed back. *)
Definition svm_get_segment_register (seg : x86_segment)
    (reg : segment_register) (s : seg_machine)
  : segment_register * seg_machine :=
  match seg with
  | x86_seg_cs => (cs (segs s), s)
  | x86_seg_ds => (ds (segs s), s)
  | x86_seg_es => (es (segs s), s)
  | x86_seg_fs => let s := svm_sync_vmcb s in (fs (segs s), s)
  | x86_seg_gs => let s := svm_sync_vmcb s in (gs (segs s), s)
  | x86_seg_ss =>
    let reg := ss (segs s) in
    (set_attr (set_attr_dpl (cpl (segs s)) (attr reg)) reg, s)
  | x86_seg_tr => let s := svm_sync_vmcb s in (tr (segs s), s)
  | x86_seg_gdtr => (gdtr (segs s), s)
  | x86_seg_idtr => (idtr (segs s), s)
  | x86_seg_ldtr => let s := svm_sync_vmcb s in (ldtr (segs s), s)
  | x86_seg_none => (reg, hw Op_BUG s)
  end.

(** static void svm_set_segment_register(struct vcpu *v,
        enum x86_segment seg, struct segment_register *reg) *)
Definition svm_set_segment_register (seg : x86_segment)
    (reg : segment_register) (s : seg_machine) : seg_machine :=
  let sync :=
    match seg with
    | x86_seg_fs | x86_seg_gs | x86_seg_tr | x86_seg_ldtr =>
      seg_v_is_current s
    | _ => false
    end in
  let s := if sync then svm_sync_vmcb s else s in
  let s :=
    match seg with
    | x86_seg_cs => set_segs (set_cs reg (segs s)) s
    | x86_seg_ds => set_segs (set_ds reg (segs s)) s
    | x86_seg_es => set_segs (set_es reg (segs s)) s
    | x86_seg_fs => set_segs (set_fs reg (segs s)) s
    | x86_seg_gs => set_segs (set_gs reg (segs s)) s
    | x86_seg_ss =>
      let s := set_segs (set_ss reg (segs s)) s in
      set_segs (set_cpl (attr_dpl (attr (ss (segs s)))) (segs s)) s
    | x86_seg_tr => set_segs (set_tr reg (segs s)) s
    | x86_seg_gdtr => set_segs (set_gdtr reg (segs s)) s
    | x86_seg_idtr => set_segs (set_idtr reg (segs s)) s
    | x86_seg_ldtr => set_segs (set_ldtr reg (segs s)) s
    | x86_seg_none => hw Op_BUG s
    end in
  if sync then hw (Op_svm_vmload guest_vmcb) s else s.

(** ** More of svm.c: the hypercall page

    The page is a map from byte offsets to bytes; the stores are
    little-endian. *)

Definition PAGE_SIZE : Z := 4096.

(** Modelled from the spec: __HYPERVISOR_iret is defined in public/xen.h,
    which is not among the sources; it is hypercall number 23. *)
Definition __HYPERVISOR_iret : Z := 23.

(** A store of one, two or four bytes at offset [p]. *)
Definition write_u8 (page : Z -> Z) (p x : Z) : Z -> Z :=
  upd page p (bits 0 8 x).
Definition write_u16 (page : Z -> Z) (p x : Z) : Z -> Z :=
  write_u8 (write_u8 page p x) (p + 1) (Z.shiftr x 8).
Definition write_u32 (page : Z -> Z) (p x : Z) : Z -> Z :=
  write_u8
    (write_u8 (write_u8 (write_u8 page p x) (p + 1) (Z.shiftr x 8))
       (p + 2) (Z.shiftr x 16))
    (p + 3) (Z.shiftr x 24).

(** The body of the loop of [svm_init_hypercall_page] for index [i]. *)
Definition hypercall_stub (i : Z) (page : Z -> Z) : Z -> Z :=
  let p := i * 32 in
  let page := write_u8 page (p + 0) 0xb8 in  (* mov imm32, %eax *)
  let page := write_u32 page (p + 1) i in
  let page := write_u8 page (p + 5) 0x0f in  (* vmmcall *)
  let page := write_u8 page (p + 6) 0x01 in
  let page := write_u8 page (p + 7) 0xd9 in
  write_u8 page (p + 8) 0xc3.                (* ret *)

(** for ( i = ...; i < ...; i++ ), with [count] iterations left. *)
Fixpoint hypercall_stubs (count : nat) (i : Z) (page : Z -> Z) : Z -> Z :=
  match count with
  | O => page
  | S count => hypercall_stubs count (i + 1) (hypercall_stub i page)
  end.

(** static void svm_init_hypercall_page(struct domain *d,
                                        void *hypercall_page) *)
Definition svm_init_hypercall_page (hypercall_page : Z -> Z) : Z -> Z :=
  let page :=
    hypercall_stubs (Z.to_nat (PAGE_SIZE / 32)) 0 hypercall_page in
  (* Don't support HYPERVISOR_iret at the moment *)
  write_u16 page (__HYPERVISOR_iret * 32) 0x0b0f.  (* ud2 *)

(** Byte [k] of the stub of hypercall [i], over the byte [old] that was
    there. *)
Definition stub_byte (i k old : Z) : Z :=
  if k =? 0 then 0xb8
  else if k =? 1 then bits 0 8 i
  else if k =? 2 then bits 0 8 (Z.shiftr i 8)
  else if k =? 3 then bits 0 8 (Z.shiftr i 16)
  else if k =? 4 then bits 0 8 (Z.shiftr i 24)
  else if k =? 5 then 0x0f
  else if k =? 6 then 0x01
  else if k =? 7 then 0xd9
  else if k =? 8 then 0xc3
  else old.

(** ** More of svm.c: the CPUID intercept *)

(** Modelled from the spec: the feature numbers of asm/cpufeature.h, which
    is not among the sources (word * 32 + bit; only the bit, [idx & 31],
    is used here). *)
Definition X86_FEATURE_PAE : Z := 0 * 32 + 6.
Definition X86_FEATURE_APIC : Z := 0 * 32 + 9.
Definition X86_FEATURE_PSE36 : Z := 0 * 32 + 17.
Definition X86_FEATURE_SYSCALL : Z := 1 * 32 + 11.
Definition X86_FEATURE_MP : Z := 1 * 32 + 19.
Definition X86_FEATURE_NX : Z := 1 * 32 + 20.
Definition X86_FEATURE_MMXEXT : Z := 1 * 32 + 22.
Definition X86_FEATURE_FFXSR : Z := 1 * 32 + 25.
Definition X86_FEATURE_LM : Z := 1 * 32 + 29.
Definition X86_FEATURE_SSSE3 : Z := 4 * 32 + 9.
Definition X86_FEATURE_SSE4_1 : Z := 4 * 32 + 19.
Definition X86_FEATURE_SSE4_2 : Z := 4 * 32 + 20.
Definition X86_FEATURE_LAHF_LM : Z := 6 * 32 + 0.
Definition X86_FEATURE_SVME : Z := 6 * 32 + 2.
Definition X86_FEATURE_ALTMOVCR : Z := 6 * 32 + 4.
Definition X86_FEATURE_ABM : Z := 6 * 32 + 5.
Definition X86_FEATURE_SSE4A : Z := 6 * 32 + 6.
Definition X86_FEATURE_MISALIGNSSE : Z := 6 * 32 + 7.
Definition X86_FEATURE_3DNOWPF : Z := 6 * 32 + 8.

(** #define bitmaskof(idx)  (1U << ((idx) & 31)) *)
Definition bitmaskof (idx : Z) : Z := u32 (Z.shiftl 1 (Z.land idx 31)).

(** __clear_bit(nr, addr) on one 32-bit word *)
Definition __clear_bit (nr x : Z) : Z := Z.land x (Z.lnot (Z.shiftl 1 nr)).

(** The four registers of a CPUID query. *)
Record cpuid_regs : Type := mk_cpuid_regs {
  cpuid_eax : Z;
  cpuid_ebx : Z;
  cpuid_ecx : Z;
  cpuid_edx : Z
}.

Section Cpuid.

(** hvm_cpuid(input, eax, ebx, ecx, edx): the generic answer, 32-bit
    values. *)
Variable hvm_cpuid : Z -> cpuid_regs -> cpuid_regs.
(** vlapic_hw_disabled(vcpu_vlapic(v)) *)
Variable vlapic_hw_disabled : bool.
(** v->domain->arch.hvm_domain.params[HVM_PARAM_PAE_ENABLED] *)
Variable HVM_PARAM_PAE_ENABLED_value : Z.

(** static void svm_cpuid_intercept(unsigned int *eax, unsigned int *ebx,
                                    unsigned int *ecx, unsigned int *edx);
    the x86_64 build has CONFIG_PAGING_LEVELS >= 3, so the PAE bit is
    cleared only when PAE is not enabled for the domain. *)
Definition svm_cpuid_intercept (r : cpuid_regs) : cpuid_regs :=
  let input := cpuid_eax r in
  let r := hvm_cpuid input r in
  if input =? 0x00000001 then
    (* Mask Intel-only features. *)
    mk_cpuid_regs (cpuid_eax r) (cpuid_ebx r)
      (Z.land (cpuid_ecx r)
         (u32 (Z.lnot (Z.lor (Z.lor (bitmaskof X86_FEATURE_SSSE3)
                                    (bitmaskof X86_FEATURE_SSE4_1))
                             (bitmaskof X86_FEATURE_SSE4_2)))))
      (cpuid_edx r)
  else if input =? 0x80000001 then
    (* Filter features which are shared with 0x00000001:EDX. *)
    let edx := cpuid_edx r in
    let edx :=
      if vlapic_hw_disabled
      then __clear_bit (Z.land X86_FEATURE_APIC 31) edx else edx in
    let edx :=
      if HVM_PARAM_PAE_ENABLED_value =? 0
      then __clear_bit (Z.land X86_FEATURE_PAE 31) edx else edx in
    let edx := __clear_bit (Z.land X86_FEATURE_PSE36 31) edx in
    (* Filter all other features according to a whitelist. *)
    let ecx :=
      Z.land (cpuid_ecx r)
        (Z.lor (Z.lor (Z.lor (Z.lor (Z.lor
           (bitmaskof X86_FEATURE_LAHF_LM)
           (bitmaskof X86_FEATURE_ALTMOVCR))
           (bitmaskof X86_FEATURE_ABM))
           (bitmaskof X86_FEATURE_SSE4A))
           (bitmaskof X86_FEATURE_MISALIGNSSE))
           (bitmaskof X86_FEATURE_3DNOWPF)) in
    let edx :=
      Z.land edx
        (Z.lor (Z.lor (Z.lor (Z.lor (Z.lor (Z.lor
           0x0183f3ff (* features shared with 0x00000001:EDX *)
           (bitmaskof X86_FEATURE_NX))
           (bitmaskof X86_FEATURE_LM))
           (bitmaskof X86_FEATURE_SYSCALL))
           (bitmaskof X86_FEATURE_MP))
           (bitmaskof X86_FEATURE_MMXEXT))
           (bitmaskof X86_FEATURE_FFXSR)) in
    mk_cpuid_regs (cpuid_eax r) (cpuid_ebx r) ecx edx
  else if (input =? 0x80000007) || (input =? 0x8000000A) then
    (* Mask out features of power management and SVM extension. *)
    mk_cpuid_regs 0 0 0 0
  else if input =? 0x80000008 then
    (* Make sure Number of CPU core is 1 when HTT=0 *)
    mk_cpuid_regs (cpuid_eax r) (cpuid_ebx r)
      (Z.land (cpuid_ecx r) 0xFFFFFF00) (cpuid_edx r)
  else r.

End Cpuid.

(** ** More of svm.c: the execution mode of the guest *)

(** Modelled from the spec: X86_CR0_PE and X86_EFLAGS_VM come from
    asm/processor.h, the L and D/B bits of the segment attributes (bits 9
    and 10) from asm/hvm/hvm.h, and hvm_long_mode_enabled(v) is
    [v->arch.hvm_vcpu.guest_efer & EFER_LMA] there; none of these headers
    is among the sources. *)
Definition X86_CR0_PE : Z := 0x1.
Definition X86_EFLAGS_VM : Z := 0x20000.
Definition attr_l (a : Z) : Z := bits 9 1 a.
Definition attr_db (a : Z) : Z := bits 10 1 a.
Definition hvm_long_mode_enabled (m : machine) : bool :=
  test (guest_efer (v m)) EFER_LMA.

(** static int svm_guest_x86_mode(struct vcpu *v); [segments] is the
    segment state of the vcpu's control block. *)
Definition svm_guest_x86_mode (segments : vmcb_segments) (m : machine) : Z :=
  if negb (test (guest_cr (v m) 0) X86_CR0_PE) then 0
  else if test (eflags (regs m)) X86_EFLAGS_VM then 1
  else if hvm_long_mode_enabled m
          && negb (attr_l (attr (cs segments)) =? 0) then 8
  else if negb (attr_db (attr (cs segments)) =? 0) then 4 else 2.

(** ** More of svm.c: the world switch (x86_64) *)

(** Modelled from the spec: TRAP_nmi, TRAP_machine_check and the
    interrupt-stack-table indices IST_DF, IST_NMI, IST_MCE come from
    asm/processor.h, which is not among the sources. *)
Definition TRAP_nmi : Z := 2.
Definition TRAP_machine_check : Z := 18.
Definition IST_DF : Z := 1.
Definition IST_NMI : Z := 2.
Definition IST_MCE : Z := 3.

(** What a world switch works on: the vcpu, the hidden state of its
    control block with the hardware operations issued, and the first
    word of each gate of this core's IDT (idt_tables[cpu][vector].a). *)
Record world : Type := mk_world {
  w_vcpu : machine;
  w_hidden : seg_machine;
  idt_a : Z -> Z
}.

Section WorldSwitch.

Variable DR7_ACTIVE_MASK : Z.

(** static void svm_ctxt_switch_from(struct vcpu *v) *)
Definition svm_ctxt_switch_from (w : world) : world :=
  let m := snd (svm_fpu_leave (w_vcpu w)) in
  let m := snd (svm_save_dr m) in
  let s := svm_sync_vmcb (w_hidden w) in
  let s := hw (Op_svm_vmload root_vmcb) s in
  (* Resume use of ISTs now that the host TR is reinstated. *)
  let idt := idt_a w in
  let idt := upd idt TRAP_double_fault
               (Z.lor (idt TRAP_double_fault) (Z.shiftl IST_DF 32)) in
  let idt := upd idt TRAP_nmi
               (Z.lor (idt TRAP_nmi) (Z.shiftl IST_NMI 32)) in
  let idt := upd idt TRAP_machine_check
               (Z.lor (idt TRAP_machine_check) (Z.shiftl IST_MCE 32)) in
  mk_world m s idt.

(** static void svm_ctxt_switch_to(struct vcpu *v) *)
Definition svm_ctxt_switch_to (w : world) : world :=
  let s := hw Op_set_segment_register_ds (w_hidden w) in
  let s := hw Op_set_segment_register_es s in
  let s := hw Op_set_segment_register_ss s in
  (* Cannot use ISTs for NMI/#MC/#DF while we are running with the guest
     TR. *)
  let idt := idt_a w in
  let idt := upd idt TRAP_double_fault
               (Z.land (idt TRAP_double_fault) (Z.lnot (Z.shiftl 7 32))) in
  let idt := upd idt TRAP_nmi
               (Z.land (idt TRAP_nmi) (Z.lnot (Z.shiftl 7 32))) in
  let idt := upd idt TRAP_machine_check
               (Z.land (idt TRAP_machine_check)
                       (Z.lnot (Z.shiftl 7 32))) in
  let m := snd (svm_restore_dr DR7_ACTIVE_MASK (w_vcpu w)) in
  let s := hw (Op_svm_vmsave root_vmcb) s in
  let s := hw (Op_svm_vmload guest_vmcb) s in
  mk_world m s idt.

End WorldSwitch.

(** A world around the vcpu [m]: zeroed segment state, the control block
    not in sync, the vcpu current, and the IDT [idt]. *)
Definition seg_zero : segment_register := mk_segment_register 0 0 0 0.

Definition world_zero (m : machine) (idt : Z -> Z) : world :=
  mk_world m
    (mk_seg_machine
       (mk_vmcb_segments seg_zero seg_zero seg_zero seg_zero seg_zero
          seg_zero seg_zero seg_zero seg_zero seg_zero 0) 0 true [])
    idt.

(** ** Proof automation *)

(** Unfolding the monad, and reading members through assignments while
    leaving the integer operations alone. *)
Ltac run :=
  unfold bind, get, ret, skip, call, modify, assign_vmcb, assign_regs,
    assign_v, assign_guest_cr, assign_debugreg, write_debugreg;
  cbn [fst snd].

Ltac members :=
  cbn -[Z.land Z.lor Z.lnot Z.ldiff Z.testbit Z.shiftl Z.shiftr Z.modulo
        Z.pow Z.add Z.opp Z.eqb Z.ltb Z.leb bits set_bits u32 u64 test upd
        svm_inject_exception __update_guest_eip __restore_debug_registers
        svm_update_guest_cr].

Ltac break_if :=
  match goal with
  | |- context [if ?b then _ else _] => destruct b eqn:?
  end.

(** Deciding the case labels of the MSR switches at MSR_K8_VM_HSAVE_PA. *)
Ltac switch_on_hsave_pa :=
  repeat match goal with
  | |- context [MSR_K8_VM_HSAVE_PA =? ?b] =>
    let r := eval vm_compute in (MSR_K8_VM_HSAVE_PA =? b) in
    change (MSR_K8_VM_HSAVE_PA =? b) with r
  | |- context [in_range ?a ?b MSR_K8_VM_HSAVE_PA] =>
    let r := eval vm_compute in (in_range a b MSR_K8_VM_HSAVE_PA) in
    change (in_range a b MSR_K8_VM_HSAVE_PA) with r
  end;
  cbn [orb]; cbv iota.

(** Deciding the case labels of the MSR switches at the constant [k]. *)
Ltac switch_on k :=
  repeat match goal with
  | |- context [k =? ?b] =>
    let r := eval vm_compute in (k =? b) in change (k =? b) with r
  | |- context [in_range ?a ?b k] =>
    let r := eval vm_compute in (in_range a b k) in
    change (in_range a b k) with r
  end;
  cbn [orb]; cbv iota.

(** ** Bit-range lemmas *)

Lemma testbit_bits (lo len w i : Z) :
  0 <= lo -> 0 <= len -> 0 <= i ->
  Z.testbit (bits lo len w) i = Z.testbit w (i + lo) && (i <? len).
Proof.
  intros Hlo Hlen Hi. unfold bits.
  rewrite Z.land_spec, Z.shiftr_spec by assumption.
  rewrite Z.testbit_ones_nonneg by assumption. reflexivity.
Qed.

Lemma testbit_set_bits (lo len x w i : Z) :
  0 <= lo -> 0 <= len -> 0 <= i ->
  Z.testbit (set_bits lo len x w) i =
  if (lo <=? i) && (i <? lo + len) then Z.testbit x (i - lo)
  else Z.testbit w i.
Proof.
  intros Hlo Hlen Hi. unfold set_bits.
  rewrite Z.lor_spec, Z.ldiff_spec, !Z.shiftl_spec, Z.land_spec by assumption.
  destruct (Z.leb_spec lo i) as [Hle | Hlt]; cbn [andb].
  - rewrite Z.testbit_ones_nonneg by lia.
    destruct (Z.ltb_spec i (lo + len)) as [Hin | Hout].
    + replace (i - lo <? len) with true by (symmetry; apply Z.ltb_lt; lia).
      cbn [negb]. rewrite andb_false_r, andb_true_r. reflexivity.
    + replace (i - lo <? len) with false by (symmetry; apply Z.ltb_ge; lia).
      cbn [negb]. rewrite andb_true_r, andb_false_r, orb_false_r.
      reflexivity.
  - rewrite !(Z.testbit_neg_r _ (i - lo)) by lia.
    cbn [negb andb]. rewrite andb_true_r, orb_false_r. reflexivity.
Qed.

Lemma bits_set_bits_same (lo len x w : Z) :
  0 <= lo -> 0 <= len ->
  bits lo len (set_bits lo len x w) = Z.land x (Z.ones len).
Proof.
  intros Hlo Hlen. apply Z.bits_inj'. intros i Hi.
  rewrite testbit_bits, testbit_set_bits by lia.
  rewrite Z.land_spec, Z.testbit_ones_nonneg by assumption.
  replace (lo <=? i + lo) with true by (symmetry; apply Z.leb_le; lia).
  cbn [andb]. replace (i + lo - lo) with i by lia.
  destruct (Z.ltb_spec i len) as [Hin | Hout].
  - replace (i + lo <? lo + len) with true by (symmetry; apply Z.ltb_lt; lia).
    reflexivity.
  - rewrite !andb_false_r. reflexivity.
Qed.

Lemma bits_set_bits_other (lo len lo' len' x w : Z) :
  0 <= lo -> 0 <= len -> 0 <= lo' -> 0 <= len' ->
  lo' + len' <= lo \/ lo + len <= lo' ->
  bits lo' len' (set_bits lo len x w) = bits lo' len' w.
Proof.
  intros Hlo Hlen Hlo' Hlen' Hdisj. apply Z.bits_inj'. intros i Hi.
  rewrite !testbit_bits, testbit_set_bits by lia.
  destruct (Z.ltb_spec i len') as [Hin | Hout].
  - replace ((lo <=? i + lo') && (i + lo' <? lo + len)) with false;
      [reflexivity |].
    symmetry. apply andb_false_iff.
    destruct Hdisj; [left; apply Z.leb_gt | right; apply Z.ltb_ge]; lia.
  - rewrite !andb_false_r. reflexivity.
Qed.

Lemma bits_of_zero (lo len : Z) : bits lo len 0 = 0.
Proof. unfold bits. rewrite Z.shiftr_0_l. apply Z.land_0_l. Qed.

(** A bit that the mask forces on stays on under [|]. *)
Lemma land_lor_forced (x c d : Z) :
  Z.land c d = d -> Z.land (Z.lor x c) d = d.
Proof.
  intros H. apply Z.bits_inj'. intros i _.
  rewrite Z.land_spec, Z.lor_spec.
  assert (Hd : Z.testbit d i = Z.testbit c i && Z.testbit d i)
    by (rewrite <- Z.land_spec, H; reflexivity).
  destruct (Z.testbit x i), (Z.testbit c i), (Z.testbit d i);
    cbn in *; congruence.
Qed.

(** Reading a field of an event word through the assignments that built
    it. *)
Ltac fields :=
  unfold fields_v, fields_type, fields_vector, fields_ev, fields_resvd1,
    fields_errorcode, set_fields_v, set_fields_type, set_fields_vector,
    set_fields_ev, set_fields_errorcode;
  repeat first [ rewrite bits_set_bits_same by lia
               | rewrite bits_set_bits_other by lia ];
  rewrite ?bits_of_zero.

(** Testing against a one-bit mask reads that bit. *)
Lemma test_single_bit (x k : Z) :
  0 <= k -> test x (Z.shiftl 1 k) = Z.testbit x k.
Proof.
  intros Hk. unfold test. rewrite Z.shiftl_1_l.
  destruct (Z.testbit x k) eqn:Hx.
  - destruct (Z.eqb_spec (Z.land x (2 ^ k)) 0) as [H0 | _]; [| reflexivity].
    assert (Hb : Z.testbit (Z.land x (2 ^ k)) k = true)
      by (rewrite Z.land_spec, Hx, Z.pow2_bits_true by assumption;
          reflexivity).
    rewrite H0, Z.bits_0 in Hb. discriminate.
  - replace (Z.land x (2 ^ k)) with 0; [reflexivity |].
    apply Z.bits_inj'. intros i Hi.
    rewrite Z.bits_0, Z.land_spec, Z.pow2_bits_eqb by assumption.
    destruct (Z.eqb_spec k i) as [-> | _];
      [rewrite Hx | rewrite andb_false_r]; reflexivity.
Qed.

(** Bits the host mask gives up are those of the guest value. *)
Lemma land_lor_masked_out (mask g p : Z) :
  Z.land (Z.lor (Z.land mask (Z.lnot p)) g) p = Z.land g p.
Proof.
  apply Z.bits_inj'. intros i Hi.
  rewrite !Z.land_spec, Z.lor_spec, Z.land_spec, Z.lnot_spec by assumption.
  destruct (Z.testbit mask i), (Z.testbit g i), (Z.testbit p i);
    reflexivity.
Qed.

(** ** State projection *)

(** C1: with hardware-assisted paging off, [svm_update_guest_cr] for
    register 0 leaves both the paging-enable and the write-protect bit set
    in the control block's CR0, whatever the canonical CR0 holds. *)
Theorem svm_update_guest_cr0_forces_pg_wp {E : Externals} (m : machine) :
  paging_mode_hap m = false ->
  let hw_cr0 := cr0 (vmcb (snd (svm_update_guest_cr 0 m))) in
  Z.land hw_cr0 X86_CR0_PG = X86_CR0_PG /\
  Z.land hw_cr0 X86_CR0_WP = X86_CR0_WP.
Proof.
  intros Hhap hw_cr0. subst hw_cr0.
  unfold svm_update_guest_cr, svm_fpu_enter. cbn [Z.eqb]. run.
  destruct (test (guest_cr (v m) 0) X86_CR0_TS); cbn [negb];
    [| destruct (v_is_current m); cbn [negb];
       [destruct (test (cr0 (vmcb m)) X86_CR0_TS) |]];
    cbn; rewrite Hhap; cbn;
    split; apply land_lor_forced; reflexivity.
Qed.

(** C1, at a guest CR0 with paging-enable and write-protect clear. *)
Lemma svm_update_guest_cr0_forces_pg_wp_witness :
  paging_mode_hap (machine_with_cr false 0 0x11) = false /\
  Z.land (guest_cr (v (machine_with_cr false 0 0x11)) 0)
         (Z.lor X86_CR0_PG X86_CR0_WP) = 0 /\
  Z.land (cr0 (vmcb (snd (@svm_update_guest_cr sample_host 0
                            (machine_with_cr false 0 0x11)))))
         X86_CR0_PG = X86_CR0_PG /\
  Z.land (cr0 (vmcb (snd (@svm_update_guest_cr sample_host 0
                            (machine_with_cr false 0 0x11)))))
         X86_CR0_WP = X86_CR0_WP.
Proof.
  split; [reflexivity | split; [reflexivity |]].
  apply (@svm_update_guest_cr0_forces_pg_wp sample_host
           (machine_with_cr false 0 0x11)).
  reflexivity.
Defined.

(** C4, as the code has it: [svm_update_guest_cr] for register 4 ORs the
    canonical CR4 into the host-mandated mask, from which the PAE bit is
    first removed under hardware-assisted paging.  So under
    hardware-assisted paging the PAE bit of the hardware CR4 is the one of
    the canonical value, and otherwise every bit of the mask is set. *)
Theorem svm_update_guest_cr4_or_host_mask {E : Externals} (m : machine) :
  let hw_cr4 := cr4 (vmcb (snd (svm_update_guest_cr 4 m))) in
  hw_cr4 =
    Z.lor (if paging_mode_hap m
           then Z.land HVM_CR4_HOST_MASK (Z.lnot X86_CR4_PAE)
           else HVM_CR4_HOST_MASK)
          (guest_cr (v m) 4) /\
  (if paging_mode_hap m
   then Z.land hw_cr4 X86_CR4_PAE = Z.land (guest_cr (v m) 4) X86_CR4_PAE
   else Z.land hw_cr4 HVM_CR4_HOST_MASK = HVM_CR4_HOST_MASK).
Proof.
  intros hw_cr4. subst hw_cr4.
  unfold svm_update_guest_cr. cbn [Z.eqb]. run. members.
  destruct (paging_mode_hap m); members.
  - split; [reflexivity | apply land_lor_masked_out].
  - split; [reflexivity |].
    rewrite Z.lor_comm. apply land_lor_forced. apply Z.land_diag.
Qed.

(** C4 as claimed fails: under hardware-assisted paging, with the host
    mask [X86_CR4_PAE] and a canonical CR4 of 0x30 (PSE and PAE), the
    hardware CR4 is 0x30: it is not the canonical value ANDed with the
    mask (0x20), and its PAE bit is set. *)
Lemma svm_update_guest_cr4_counterexample :
  let m := machine_with_cr true 4 0x30 in
  let hw_cr4 := cr4 (vmcb (snd (@svm_update_guest_cr sample_host 4 m))) in
  paging_mode_hap m = true /\
  hw_cr4 = 0x30 /\
  hw_cr4 <> Z.land (guest_cr (v m) 4) (@HVM_CR4_HOST_MASK sample_host) /\
  Z.land hw_cr4 X86_CR4_PAE <> 0.
Proof. cbv zeta. repeat split; vm_compute; discriminate. Qed.

(** C5, as the code has it: after [svm_update_guest_efer] the hardware
    EFER has the SVME bit set, and its LME bit follows the LMA bit of the
    canonical EFER: clear when the guest is not in long mode, set when it
    is. *)
Theorem svm_update_guest_efer_svme_lme (m : machine) :
  let hw_efer := efer (vmcb (snd (svm_update_guest_efer m))) in
  Z.testbit hw_efer _EFER_SVME = true /\
  Z.testbit hw_efer _EFER_LME = Z.testbit (guest_efer (v m)) _EFER_LMA.
Proof.
  intros hw_efer. subst hw_efer.
  unfold svm_update_guest_efer. run. members.
  unfold EFER_LMA. rewrite test_single_bit by (vm_compute; discriminate).
  rewrite Z.land_spec, Z.lor_spec, Z.lnot_spec by (vm_compute; discriminate).
  change (Z.testbit EFER_SVME _EFER_LMA) with false.
  change (Z.testbit EFER_LME _EFER_LMA) with false.
  rewrite orb_false_r, andb_true_r.
  destruct (Z.testbit (guest_efer (v m)) _EFER_LMA); members;
    repeat rewrite ?Z.lor_spec, ?Z.land_spec, ?Z.lnot_spec
      by (vm_compute; discriminate);
    change (Z.testbit EFER_SVME _EFER_SVME) with true;
    change (Z.testbit EFER_LME _EFER_SVME) with false;
    change (Z.testbit EFER_LME _EFER_LME) with true;
    rewrite ?orb_true_r, ?andb_false_r; split; reflexivity.
Qed.

(** C5 as claimed fails: for a guest in long mode (canonical EFER with LMA
    and LME set) the hardware EFER keeps the LME bit. *)
Lemma svm_update_guest_efer_counterexample :
  let m := set_v (set_guest_efer (Z.lor EFER_LMA EFER_LME) vcpu_zero)
                 (machine_zero false) in
  let hw_efer := efer (vmcb (snd (svm_update_guest_efer m))) in
  Z.testbit hw_efer _EFER_LME = true /\
  Z.land hw_efer EFER_LME <> 0.
Proof. cbv zeta. split; vm_compute; [reflexivity | discriminate]. Qed.

(** ** Debug registers *)

(** C10: [svm_save_dr] does nothing when the dirty flag is clear and
    otherwise clears it and sets all intercept bits;
    [__restore_debug_registers] does nothing when the flag is set and
    otherwise sets it and clears all intercept bits; both keep the flag
    nonzero exactly when [dr_intercepts] is zero. *)
Theorem debug_register_operations_keep_invariant (m : machine) :
  dr_lazy_invariant m ->
  let saved := snd (svm_save_dr m) in
  let restored := snd (__restore_debug_registers m) in
  (if flag_dr_dirty (v m) =? 0 then saved = m
   else flag_dr_dirty (v saved) = 0 /\
        dr_intercepts (vmcb saved) = 0xFFFFFFFF) /\
  (if flag_dr_dirty (v m) =? 0
   then flag_dr_dirty (v restored) = 1 /\ dr_intercepts (vmcb restored) = 0
   else restored = m) /\
  dr_lazy_invariant saved /\
  dr_lazy_invariant restored.
Proof.
  intros Hinv saved restored. subst saved restored.
  unfold svm_save_dr, __restore_debug_registers, dr_lazy_invariant in *.
  run.
  destruct (flag_dr_dirty (v m) =? 0) eqn:Hflag; members.
  - rewrite Z.eqb_eq in Hflag.
    intuition (try reflexivity; try lia).
  - rewrite Z.eqb_neq in Hflag.
    intuition (try reflexivity; try lia).
    match goal with H : u32 _ = 0 |- _ => vm_compute in H; discriminate H end.
Qed.

(** C10, at a vcpu whose debug registers are live (flag set, no
    intercepts). *)
Lemma debug_register_operations_keep_invariant_witness :
  let m := set_v (set_flag_dr_dirty 1 vcpu_zero) (machine_zero false) in
  dr_lazy_invariant m /\
  flag_dr_dirty (v (snd (svm_save_dr m))) = 0 /\
  dr_intercepts (vmcb (snd (svm_save_dr m))) = 0xFFFFFFFF /\
  snd (__restore_debug_registers m) = m.
Proof.
  cbv zeta.
  pose proof (debug_register_operations_keep_invariant
                (set_v (set_flag_dr_dirty 1 vcpu_zero) (machine_zero false)))
    as H.
  assert (Hinv : dr_lazy_invariant
                   (set_v (set_flag_dr_dirty 1 vcpu_zero)
                      (machine_zero false)))
    by (split; [reflexivity | discriminate]).
  split; [exact Hinv |].
  destruct (H Hinv) as [Hsave [Hrestore _]].
  split; [exact (proj1 Hsave) | split; [exact (proj2 Hsave) | exact Hrestore]].
Defined.

(** ** Event injection *)

(** [svm_inject_exception] touches neither the register file nor the log
    of calls, nor the interrupt shadow. *)
Lemma svm_inject_exception_frame {E : Externals}
    (trapnr errcode cr2 : Z) (m : machine) :
  let m' := snd (svm_inject_exception trapnr errcode cr2 m) in
  regs m' = regs m /\
  events m' = events m /\
  interrupt_shadow (vmcb m') = interrupt_shadow (vmcb m).
Proof.
  intros m'. subst m'.
  unfold svm_inject_exception, __restore_debug_registers. run.
  repeat (break_if; members); repeat split; reflexivity.
Qed.

(** The slot after [svm_inject_exception]: one valid hardware exception. *)
Lemma svm_inject_exception_slot {E : Externals}
    (trapnr errcode cr2 : Z) (m : machine) :
  let ev' := eventinj (vmcb (snd (svm_inject_exception trapnr errcode cr2 m))) in
  fields_v ev' = 1 /\
  fields_type ev' = X86_EVENTTYPE_HW_EXCEPTION /\
  fields_vector ev' = Z.land (injected_trapnr trapnr m) (Z.ones 8) /\
  fields_ev ev' =
    (if injected_errcode trapnr errcode m =? HVM_DELIVER_NO_ERROR_CODE
     then 0 else 1) /\
  fields_errorcode ev' =
    Z.land (injected_errcode trapnr errcode m) (Z.ones 32) /\
  fields_resvd1 ev' = 0.
Proof.
  intros ev'.
  assert (Hev : ev' =
    set_fields_errorcode (injected_errcode trapnr errcode m)
      (set_fields_ev
         (if injected_errcode trapnr errcode m =? HVM_DELIVER_NO_ERROR_CODE
          then 0 else 1)
         (set_fields_vector (injected_trapnr trapnr m)
            (set_fields_type X86_EVENTTYPE_HW_EXCEPTION
               (set_fields_v 1 0))))).
  { subst ev'.
    unfold svm_inject_exception, __restore_debug_registers,
      injected_errcode, injected_trapnr, pending_hw_exception.
    run. repeat (break_if; members); reflexivity. }
  rewrite Hev. unfold X86_EVENTTYPE_HW_EXCEPTION.
  repeat split; fields; try reflexivity.
  destruct (_ =? _); reflexivity.
Qed.

(** C2, as the code has it: when the slot holds a valid pending hardware
    exception and the escalation table turns the pending and the new
    vector into a double fault, the slot afterwards holds exactly one
    event, a valid double-fault hardware exception; the caller's error
    code is dropped and the error code zero is delivered with it (the
    has-error-code bit is set). *)
Theorem svm_inject_exception_double_fault {E : Externals}
    (trapnr errcode cr2 : Z) (m : machine) :
  fields_v (eventinj (vmcb m)) <> 0 ->
  fields_type (eventinj (vmcb m)) = X86_EVENTTYPE_HW_EXCEPTION ->
  hvm_combine_hw_exceptions (fields_vector (eventinj (vmcb m))) trapnr
    = TRAP_double_fault ->
  let ev' := eventinj (vmcb (snd (svm_inject_exception trapnr errcode cr2 m))) in
  ev' = event_word X86_EVENTTYPE_HW_EXCEPTION TRAP_double_fault 1 0 /\
  fields_v ev' = 1 /\
  fields_type ev' = X86_EVENTTYPE_HW_EXCEPTION /\
  fields_vector ev' = TRAP_double_fault /\
  fields_ev ev' = 1 /\
  fields_errorcode ev' = 0.
Proof.
  intros Hv Htype Hdf ev'.
  assert (Hev : ev' =
            event_word X86_EVENTTYPE_HW_EXCEPTION TRAP_double_fault 1 0).
  { subst ev'.
    unfold svm_inject_exception, __restore_debug_registers. run.
    rewrite Htype, Hdf.
    apply Z.eqb_neq in Hv. rewrite Hv.
    cbn [negb andb]. members. reflexivity. }
  rewrite Hev. repeat split; reflexivity.
Qed.

(** C2, at a pending general-protection fault followed by another
    general-protection fault with error code 0x18. *)
Lemma svm_inject_exception_double_fault_witness :
  let m := machine_with_event false
             (event_word X86_EVENTTYPE_HW_EXCEPTION TRAP_gp_fault 1 0x10) in
  let ev' := eventinj (vmcb (snd (@svm_inject_exception sample_host
                                    TRAP_gp_fault 0x18 0 m))) in
  fields_vector ev' = TRAP_double_fault /\
  fields_ev ev' = 1 /\
  fields_errorcode ev' = 0.
Proof.
  cbv zeta.
  pose proof (@svm_inject_exception_double_fault sample_host
                TRAP_gp_fault 0x18 0
                (machine_with_event false
                   (event_word X86_EVENTTYPE_HW_EXCEPTION TRAP_gp_fault
                      1 0x10))) as H.
  cbv zeta in H.
  destruct H as [_ [_ [_ [Hvec [Hev Hcode]]]]];
    [vm_compute; discriminate | reflexivity | reflexivity |].
  split; [exact Hvec | split; [exact Hev | exact Hcode]].
Defined.

(** C2 as claimed fails: the double fault is not delivered without an
    error code.  With a general-protection fault pending, injecting a
    second one leaves a double fault in the slot whose has-error-code bit
    is set. *)
Lemma svm_inject_exception_double_fault_counterexample :
  let m := machine_with_event false
             (event_word X86_EVENTTYPE_HW_EXCEPTION TRAP_gp_fault 1 0x10) in
  let ev' := eventinj (vmcb (snd (@svm_inject_exception sample_host
                                    TRAP_gp_fault 0x18 0 m))) in
  fields_v (eventinj (vmcb m)) = 1 /\
  fields_type (eventinj (vmcb m)) = X86_EVENTTYPE_HW_EXCEPTION /\
  @hvm_combine_hw_exceptions sample_host
     (fields_vector (eventinj (vmcb m))) TRAP_gp_fault = TRAP_double_fault /\
  fields_vector ev' = TRAP_double_fault /\
  fields_ev ev' <> 0.
Proof. cbv zeta. repeat split; vm_compute; discriminate. Qed.

(** ** Advancing the instruction pointer *)

(** Clearing RF leaves TF as it was. *)
Lemma test_tf_after_rf_clear (x : Z) :
  test (Z.land x (Z.lnot X86_EFLAGS_RF)) X86_EFLAGS_TF = test x X86_EFLAGS_TF.
Proof.
  change X86_EFLAGS_TF with (Z.shiftl 1 8).
  rewrite !test_single_bit by lia.
  rewrite Z.land_spec, Z.lnot_spec by lia.
  change (Z.testbit X86_EFLAGS_RF 8) with false. apply andb_true_r.
Qed.

Lemma rf_clear (x : Z) :
  Z.land (Z.land x (Z.lnot X86_EFLAGS_RF)) X86_EFLAGS_RF = 0.
Proof.
  rewrite <- Z.land_assoc, (Z.land_comm (Z.lnot _)), Z.land_lnot_diag.
  apply Z.land_0_r.
Qed.

(** The path of [__update_guest_eip] for an instruction length from 1 to
    15. *)
Lemma update_guest_eip_in_range {E : Externals}
    (inst_len : Z) (m : machine) :
  (inst_len =? 0) || (15 <? inst_len) = false ->
  let m' := snd (__update_guest_eip inst_len m) in
  let advanced :=
    set_vmcb (set_interrupt_shadow 0 (vmcb m))
      (set_regs
         (set_eflags (Z.land (eflags (regs m)) (Z.lnot X86_EFLAGS_RF))
            (set_eip (u64 (eip (regs m) + inst_len)) (regs m))) m) in
  eip (regs m') = u64 (eip (regs m) + inst_len) /\
  Z.land (eflags (regs m')) X86_EFLAGS_RF = 0 /\
  interrupt_shadow (vmcb m') = 0 /\
  events m' = events m /\
  if test (eflags (regs m)) X86_EFLAGS_TF then
    m' = snd (svm_inject_exception TRAP_debug HVM_DELIVER_NO_ERROR_CODE 0
                advanced) /\
    fields_v (eventinj (vmcb m')) = 1 /\
    fields_type (eventinj (vmcb m')) = X86_EVENTTYPE_HW_EXCEPTION /\
    (if pending_hw_exception m then True
     else fields_vector (eventinj (vmcb m')) = TRAP_debug /\
          fields_ev (eventinj (vmcb m')) = 0)
  else m' = advanced /\ eventinj (vmcb m') = eventinj (vmcb m).
Proof.
  intros Hlen m' advanced. subst m'. unfold __update_guest_eip.
  rewrite Hlen.
  assert (Hm' :
    snd ((assign_regs set_eip (fun m => u64 (eip (regs m) + inst_len)) ;;
          assign_regs set_eflags
            (fun m => Z.land (eflags (regs m)) (Z.lnot X86_EFLAGS_RF)) ;;
          assign_vmcb set_interrupt_shadow (fun _ => 0) ;;
          m <- get ;;
          if test (eflags (regs m)) X86_EFLAGS_TF
          then svm_inject_exception TRAP_debug HVM_DELIVER_NO_ERROR_CODE 0
          else skip) m) =
    if test (eflags (regs m)) X86_EFLAGS_TF
    then snd (svm_inject_exception TRAP_debug HVM_DELIVER_NO_ERROR_CODE 0
                advanced)
    else advanced).
  { subst advanced. run. members. rewrite test_tf_after_rf_clear.
    destruct (test (eflags (regs m)) X86_EFLAGS_TF); reflexivity. }
  rewrite Hm'. clear Hm'.
  destruct (test (eflags (regs m)) X86_EFLAGS_TF).
  - pose proof (svm_inject_exception_frame
                  TRAP_debug HVM_DELIVER_NO_ERROR_CODE 0 advanced)
      as [Hregs [Hevents Hshadow]].
    pose proof (svm_inject_exception_slot
                  TRAP_debug HVM_DELIVER_NO_ERROR_CODE 0 advanced)
      as [Hv [Htype [Hvec [Hev _]]]].
    rewrite Hregs, Hevents, Hshadow.
    split; [reflexivity |]. split; [apply rf_clear |].
    split; [reflexivity |]. split; [reflexivity |].
    split; [reflexivity |]. split; [exact Hv |]. split; [exact Htype |].
    rewrite Hvec, Hev. unfold injected_errcode, injected_trapnr.
    change (pending_hw_exception advanced) with (pending_hw_exception m).
    destruct (pending_hw_exception m); [exact I |].
    split; reflexivity.
  - repeat split; try reflexivity. apply rf_clear.
Qed.

(** C9: [__update_guest_eip] with a length of 0 or above 15 crashes the
    domain and changes nothing else; with a length from 1 to 15 it
    advances the instruction pointer by that length, clears RF and the
    interrupt shadow, makes no call, and, when TF is set, injects a debug
    exception: the state is then the one [svm_inject_exception] gives for
    [TRAP_debug] without error code, and the slot holds a valid hardware
    exception, of vector [TRAP_debug] and without error code unless it is
    merged with a hardware exception already pending.  With TF clear the
    slot is left as it was. *)
Theorem update_guest_eip_spec {E : Externals} (inst_len : Z) (m : machine) :
  let m' := snd (__update_guest_eip inst_len m) in
  if (inst_len =? 0) || (15 <? inst_len) then
    m' = set_events (Call_domain_crash :: events m) m /\
    regs m' = regs m /\
    vmcb m' = vmcb m
  else
    let advanced :=
      set_vmcb (set_interrupt_shadow 0 (vmcb m))
        (set_regs
           (set_eflags (Z.land (eflags (regs m)) (Z.lnot X86_EFLAGS_RF))
              (set_eip (u64 (eip (regs m) + inst_len)) (regs m))) m) in
    eip (regs m') = u64 (eip (regs m) + inst_len) /\
    Z.land (eflags (regs m')) X86_EFLAGS_RF = 0 /\
    interrupt_shadow (vmcb m') = 0 /\
    events m' = events m /\
    if test (eflags (regs m)) X86_EFLAGS_TF then
      m' = snd (svm_inject_exception TRAP_debug HVM_DELIVER_NO_ERROR_CODE 0
                  advanced) /\
      fields_v (eventinj (vmcb m')) = 1 /\
      fields_type (eventinj (vmcb m')) = X86_EVENTTYPE_HW_EXCEPTION /\
      (if pending_hw_exception m then True
       else fields_vector (eventinj (vmcb m')) = TRAP_debug /\
            fields_ev (eventinj (vmcb m')) = 0)
    else m' = advanced /\ eventinj (vmcb m') = eventinj (vmcb m).
Proof.
  intros m'.
  destruct ((inst_len =? 0) || (15 <? inst_len)) eqn:Hlen.
  - subst m'. unfold __update_guest_eip. rewrite Hlen. run.
    repeat split; reflexivity.
  - exact (update_guest_eip_in_range inst_len m Hlen).
Qed.

(** ** Save and restore *)

Lemma bits_u32 (lo len w : Z) :
  0 <= lo -> 0 <= len -> lo + len <= 32 ->
  bits lo len (u32 w) = bits lo len w.
Proof.
  intros Hlo Hlen Hfit. apply Z.bits_inj'. intros i Hi.
  rewrite !testbit_bits by assumption. unfold u32.
  destruct (Z.ltb_spec i len) as [Hin | Hout].
  - rewrite Z.mod_pow2_bits_low by lia. reflexivity.
  - rewrite !andb_false_r. reflexivity.
Qed.

(** C6, as the code has it: [svm_vmcb_save] never changes the control
    block, so the injection slot keeps its validity bit.  When the slot
    holds a valid event that needs redelivery, the persisted record takes
    the low half of the event word (vector, type, has-error-code bit,
    validity bit) and the error code; otherwise its pending event and
    error code are zero. *)
Theorem svm_vmcb_save_pending_event {E : Externals}
    (c : hvm_hw_cpu) (m : machine) :
  let ev := eventinj (vmcb m) in
  let c' := snd (fst (svm_vmcb_save c m)) in
  snd (svm_vmcb_save c m) = m /\
  fst (fst (svm_vmcb_save c m)) = 1 /\
  if negb (fields_v ev =? 0)
     && hvm_event_needs_reinjection (fields_type ev) (fields_vector ev)
  then
    pending_event c' = u32 ev /\
    pending_vector (pending_event c') = fields_vector ev /\
    pending_type (pending_event c') = fields_type ev /\
    pending_error_valid (pending_event c') = fields_ev ev /\
    pending_valid (pending_event c') = fields_v ev /\
    error_code c' = fields_errorcode ev
  else
    pending_event c' = 0 /\ error_code c' = 0.
Proof.
  intros ev c'. subst c'. unfold svm_vmcb_save. run. fold ev.
  split; [reflexivity |]. split; [reflexivity |].
  destruct (negb (fields_v ev =? 0)
            && hvm_event_needs_reinjection (fields_type ev) (fields_vector ev));
    members.
  - unfold pending_vector, pending_type, pending_error_valid, pending_valid,
      fields_vector, fields_type, fields_ev, fields_v.
    rewrite !bits_u32 by lia. repeat split; reflexivity.
  - split; reflexivity.
Qed.

(** C6 as claimed fails: with a valid page-fault exception in the slot,
    one that needs redelivery, [svm_vmcb_save] records the event and the
    slot still holds it, validity bit set. *)
Lemma svm_vmcb_save_counterexample :
  let ev := event_word X86_EVENTTYPE_HW_EXCEPTION TRAP_page_fault 1 2 in
  let m := machine_with_event false ev in
  let r := @svm_vmcb_save sample_host hw_cpu_zero m in
  fields_v ev = 1 /\
  @hvm_event_needs_reinjection sample_host
     (fields_type ev) (fields_vector ev) = true /\
  pending_event (snd (fst r)) = 0x80000b0e /\
  error_code (snd (fst r)) = 2 /\
  fields_v (eventinj (vmcb (snd r))) = 1.
Proof. cbv zeta. repeat split; vm_compute; reflexivity. Qed.

(** C3: a record whose pending event is valid and has type 1, a type above
    6, or a nonzero reserved field makes [svm_vmcb_restore] return -EINVAL
    with the vcpu, the control block (event-injection slot and control
    registers included) and everything else as they were. *)
Theorem svm_vmcb_restore_rejects_invalid_pending {E : Externals}
    (c : hvm_hw_cpu) (m : machine) :
  pending_valid (pending_event c) <> 0 ->
  pending_type (pending_event c) = 1 \/
  6 < pending_type (pending_event c) \/
  pending_reserved (pending_event c) <> 0 ->
  svm_vmcb_restore c m = (- EINVAL, m).
Proof.
  intros Hvalid Hbad. unfold svm_vmcb_restore.
  apply Z.eqb_neq in Hvalid. rewrite Hvalid. cbn [negb andb].
  replace ((pending_type (pending_event c) =? 1)
           || (6 <? pending_type (pending_event c))
           || negb (pending_reserved (pending_event c) =? 0)) with true;
    [reflexivity |].
  symmetry. rewrite !orb_true_iff, negb_true_iff.
  destruct Hbad as [H1 | [H6 | Hres]].
  - left; left. apply Z.eqb_eq. exact H1.
  - left; right. apply Z.ltb_lt. exact H6.
  - right. apply Z.eqb_neq. exact Hres.
Qed.

(** C3, at a snapshot with [pending_valid] set and type 1, on a vcpu whose
    slot holds a general-protection fault. *)
Lemma svm_vmcb_restore_rejects_invalid_pending_witness :
  let c := set_pending_event 0x80000100 hw_cpu_zero in
  let m := machine_with_event false
             (event_word X86_EVENTTYPE_HW_EXCEPTION TRAP_gp_fault 1 0) in
  pending_valid (pending_event c) = 1 /\
  pending_type (pending_event c) = 1 /\
  @svm_vmcb_restore sample_host c m = (-22, m).
Proof.
  cbv zeta. split; [reflexivity | split; [reflexivity |]].
  apply (@svm_vmcb_restore_rejects_invalid_pending sample_host
           (set_pending_event 0x80000100 hw_cpu_zero)
           (machine_with_event false
              (event_word X86_EVENTTYPE_HW_EXCEPTION TRAP_gp_fault 1 0))).
  - vm_compute. discriminate.
  - left. reflexivity.
Defined.

(** ** MSR intercepts *)

(** [svm_do_msr_access] advances the instruction pointer only when the
    intercept returned X86EMUL_OKAY; otherwise the state is the one the
    intercept left. *)
Lemma svm_do_msr_access_advances_only_on_okay {E : Externals} (m : machine) :
  let is_read := exitinfo1 (vmcb m) =? 0 in
  let r := if is_read then svm_msr_read_intercept m
           else svm_msr_write_intercept m in
  let inst_len :=
    __get_instruction_length (if is_read then INSTR_RDMSR else INSTR_WRMSR) in
  snd (svm_do_msr_access m) =
  if fst r =? X86EMUL_OKAY
  then snd (__update_guest_eip (u32 inst_len) (snd r))
  else snd r.
Proof.
  intros is_read r inst_len. subst r inst_len is_read.
  unfold svm_do_msr_access. run.
  destruct (exitinfo1 (vmcb m) =? 0).
  - destruct (svm_msr_read_intercept m) as [rc m1]. cbn [fst snd].
    destruct (rc =? X86EMUL_OKAY); reflexivity.
  - destruct (svm_msr_write_intercept m) as [rc m1]. cbn [fst snd].
    destruct (rc =? X86EMUL_OKAY); reflexivity.
Qed.

(** C8: an access to MSR_K8_VM_HSAVE_PA, read or write and whatever the
    value, injects a general-protection fault and returns
    X86EMUL_EXCEPTION; [svm_do_msr_access] then leaves the register file
    as it was (the instruction pointer is not advanced, eax and edx are
    not loaded) and no call is made on the guest's behalf.  The slot
    afterwards holds a valid hardware exception: the general-protection
    fault with error code 0, unless it is merged with a hardware exception
    that was already pending. *)
Theorem msr_hsave_pa_access_faults {E : Externals} (m : machine) :
  u32 (ecx (regs m)) = MSR_K8_VM_HSAVE_PA ->
  let faulted := snd (svm_inject_exception TRAP_gp_fault 0 0 m) in
  svm_msr_read_intercept m = (X86EMUL_EXCEPTION, faulted) /\
  svm_msr_write_intercept m = (X86EMUL_EXCEPTION, faulted) /\
  snd (svm_do_msr_access m) = faulted /\
  regs faulted = regs m /\
  events faulted = events m /\
  fields_v (eventinj (vmcb faulted)) = 1 /\
  fields_type (eventinj (vmcb faulted)) = X86_EVENTTYPE_HW_EXCEPTION /\
  (if pending_hw_exception m then True
   else fields_vector (eventinj (vmcb faulted)) = TRAP_gp_fault /\
        fields_ev (eventinj (vmcb faulted)) = 1 /\
        fields_errorcode (eventinj (vmcb faulted)) = 0).
Proof.
  intros Hmsr faulted.
  assert (Hread : svm_msr_read_intercept m = (X86EMUL_EXCEPTION, faulted)).
  { unfold svm_msr_read_intercept. run. rewrite Hmsr. switch_on_hsave_pa.
    subst faulted.
    destruct (svm_inject_exception TRAP_gp_fault 0 0 m). reflexivity. }
  assert (Hwrite : svm_msr_write_intercept m = (X86EMUL_EXCEPTION, faulted)).
  { unfold svm_msr_write_intercept. run. rewrite Hmsr. switch_on_hsave_pa.
    subst faulted.
    destruct (svm_inject_exception TRAP_gp_fault 0 0 m). reflexivity. }
  split; [exact Hread |]. split; [exact Hwrite |].
  split.
  { unfold svm_do_msr_access. run.
    destruct (exitinfo1 (vmcb m) =? 0); [rewrite Hread | rewrite Hwrite];
      reflexivity. }
  pose proof (svm_inject_exception_frame TRAP_gp_fault 0 0 m)
    as [Hregs [Hevents _]].
  pose proof (svm_inject_exception_slot TRAP_gp_fault 0 0 m)
    as [Hv [Htype [Hvec [Hev [Hcode _]]]]].
  split; [exact Hregs |]. split; [exact Hevents |].
  split; [exact Hv |]. split; [exact Htype |].
  fold faulted in Hvec, Hev, Hcode. rewrite Hvec, Hev, Hcode.
  unfold injected_errcode, injected_trapnr.
  destruct (pending_hw_exception m); [exact I |].
  repeat split; reflexivity.
Qed.

(** C8, at a WRMSR exit naming MSR_K8_VM_HSAVE_PA with value
    0x1234_0000_5678, the slot empty. *)
Lemma msr_hsave_pa_access_faults_witness :
  let m := set_vmcb (set_exitinfo1 1 vmcb_zero)
             (set_regs (mk_cpu_user_regs 0x5678 0xc0010117 0x1234 0x1000 2)
                (machine_zero false)) in
  let m' := snd (@svm_do_msr_access sample_host m) in
  u32 (ecx (regs m)) = MSR_K8_VM_HSAVE_PA /\
  fst (@svm_msr_write_intercept sample_host m) = X86EMUL_EXCEPTION /\
  regs m' = regs m /\
  events m' = [] /\
  fields_vector (eventinj (vmcb m')) = TRAP_gp_fault.
Proof.
  cbv zeta.
  pose proof (@msr_hsave_pa_access_faults sample_host
                (set_vmcb (set_exitinfo1 1 vmcb_zero)
                   (set_regs
                      (mk_cpu_user_regs 0x5678 0xc0010117 0x1234 0x1000 2)
                      (machine_zero false)))) as H.
  cbv zeta in H.
  destruct H as [_ [Hwrite [Hdo [Hregs [Hevents [_ [_ Hslot]]]]]]];
    [reflexivity |].
  split; [reflexivity |].
  split; [rewrite Hwrite; reflexivity |].
  rewrite Hdo.
  split; [exact Hregs |]. split; [exact Hevents |].
  exact (proj1 Hslot).
Defined.

(** ** Halt *)

(** C7: on a halt exit whose instruction length is between 1 and 15,
    [svm_vmexit_do_hlt] first advances the instruction pointer by that
    length.  With [wake] the test made after the advance (a valid event in
    the injection slot, or a pending interrupt source that is not
    blocked), the core is not idled when [wake] holds, and no call is
    made; when it does not hold, [hvm_hlt] is called, and that is the only
    call.  An event that was in the slot before the halt is still there
    at the test; with TF clear the slot at the test is the slot before the
    halt. *)
Theorem svm_vmexit_do_hlt_idles_unless_wake {E : Externals} (m : machine) :
  let inst_len := u32 (__get_instruction_length INSTR_HLT) in
  0 < inst_len <= 15 ->
  let advanced := snd (__update_guest_eip inst_len m) in
  let wake :=
    negb (fields_v (eventinj (vmcb advanced)) =? 0)
    || (negb (is_intsrc_none (source hvm_vcpu_has_pending_irq))
        && negb (hvm_interrupt_blocked advanced hvm_vcpu_has_pending_irq)) in
  let m' := snd (svm_vmexit_do_hlt m) in
  eip (regs m') = u64 (eip (regs m) + inst_len) /\
  m' = (if wake then advanced
        else set_events (Call_hvm_hlt (eflags (regs advanced))
                           :: events advanced) advanced) /\
  events m' = (if wake then events m
               else [Call_hvm_hlt (eflags (regs m'))] ++ events m) /\
  (fields_v (eventinj (vmcb m)) <> 0 -> wake = true) /\
  (test (eflags (regs m)) X86_EFLAGS_TF = false ->
   eventinj (vmcb advanced) = eventinj (vmcb m)).
Proof.
  intros inst_len Hlen advanced wake m'.
  assert (Hin : (inst_len =? 0) || (15 <? inst_len) = false)
    by (apply orb_false_iff; split;
        [apply Z.eqb_neq | apply Z.ltb_ge]; lia).
  pose proof (update_guest_eip_in_range inst_len m Hin) as Hadv.
  cbv zeta in Hadv. fold advanced in Hadv.
  destruct Hadv as [Heip [_ [_ [Hevents Htf]]]].
  assert (Hm' : m' = if wake then advanced
                     else set_events (Call_hvm_hlt (eflags (regs advanced))
                                        :: events advanced) advanced).
  { subst m'. unfold svm_vmexit_do_hlt. fold inst_len.
    replace (inst_len =? 0) with false by (symmetry; apply Z.eqb_neq; lia).
    run. subst wake advanced.
    destruct (__update_guest_eip inst_len m) as [u m1]. cbn [snd].
    destruct (negb (fields_v (eventinj (vmcb m1)) =? 0)
              || (negb (is_intsrc_none (source hvm_vcpu_has_pending_irq))
                  && negb (hvm_interrupt_blocked m1
                             hvm_vcpu_has_pending_irq)));
      reflexivity. }
  split; [rewrite Hm'; destruct wake; exact Heip |].
  split; [exact Hm' |].
  split; [rewrite Hm'; destruct wake; cbn; rewrite Hevents; reflexivity |].
  destruct (test (eflags (regs m)) X86_EFLAGS_TF).
  - destruct Htf as [_ [Hv _]]. split; [| discriminate].
    intros _. subst wake. rewrite Hv. reflexivity.
  - destruct Htf as [_ Hslot]. split; [| intros _; exact Hslot].
    intros Hvalid. subst wake. rewrite Hslot.
    apply Z.eqb_neq in Hvalid. rewrite Hvalid. reflexivity.
Qed.

(** C7, at a halt with the slot empty, no interrupt pending and TF clear:
    the core idles; and with a general-protection fault in the slot: it
    does not. *)
Lemma svm_vmexit_do_hlt_idles_unless_wake_witness :
  let idle := machine_zero false in
  let busy := machine_with_event false
                (event_word X86_EVENTTYPE_HW_EXCEPTION TRAP_gp_fault 1 0) in
  eip (regs (snd (@svm_vmexit_do_hlt sample_host idle))) = 1 /\
  events (snd (@svm_vmexit_do_hlt sample_host idle)) = [Call_hvm_hlt 0] /\
  eip (regs (snd (@svm_vmexit_do_hlt sample_host busy))) = 1 /\
  events (snd (@svm_vmexit_do_hlt sample_host busy)) = [].
Proof.
  cbv zeta.
  pose proof (@svm_vmexit_do_hlt_idles_unless_wake sample_host
                (machine_zero false)) as Hidle.
  pose proof (@svm_vmexit_do_hlt_idles_unless_wake sample_host
                (machine_with_event false
                   (event_word X86_EVENTTYPE_HW_EXCEPTION TRAP_gp_fault
                      1 0))) as Hbusy.
  cbv zeta in Hidle, Hbusy.
  destruct Hidle as [Hi1 [_ [Hi2 _]]]; [vm_compute; split; congruence |].
  destruct Hbusy as [Hb1 [_ [Hb2 _]]]; [vm_compute; split; congruence |].
  split; [exact Hi1 |]. split; [exact Hi2 |].
  split; [exact Hb1 | exact Hb2].
Defined.

(** * Further properties of svm.c *)

(** ** Debug registers, continued *)

(** X1: [svm_restore_dr] does nothing unless DR7 has a breakpoint-enable
    bit set and the dirty flag is clear; when it acts it loads the
    hardware registers 0-3 and the control block's DR6 and DR7 from the
    canonical values, sets the dirty flag and stops intercepting
    debug-register accesses. *)
Theorem svm_restore_dr_lazy (DR7_ACTIVE_MASK : Z) (m : machine) :
  let m' := snd (svm_restore_dr DR7_ACTIVE_MASK m) in
  if test (debugreg (v m) 7) DR7_ACTIVE_MASK
     && (flag_dr_dirty (v m) =? 0)
  then
    flag_dr_dirty (v m') = 1 /\
    dr_intercepts (vmcb m') = 0 /\
    hw_debugreg m' 0 = debugreg (v m) 0 /\
    hw_debugreg m' 1 = debugreg (v m) 1 /\
    hw_debugreg m' 2 = debugreg (v m) 2 /\
    hw_debugreg m' 3 = debugreg (v m) 3 /\
    dr6 (vmcb m') = debugreg (v m) 6 /\
    dr7 (vmcb m') = debugreg (v m) 7 /\
    debugreg (v m') = debugreg (v m)
  else m' = m.
Proof.
  intros m'. subst m'. unfold svm_restore_dr, __restore_debug_registers.
  run.
  destruct (test (debugreg (v m) 7) DR7_ACTIVE_MASK); cbn [andb];
    [| reflexivity].
  destruct (flag_dr_dirty (v m) =? 0); cbn [negb]; [| reflexivity].
  members. repeat split; reflexivity.
Qed.

(** X2: a round trip through the hardware.  Starting with the dirty flag
    clear, [__restore_debug_registers] followed by [svm_save_dr] gives
    back every canonical debug register, leaves the flag clear and all
    debug-register accesses intercepted, and the hardware registers 0-3
    hold the canonical values. *)
Theorem debug_registers_round_trip (m : machine) :
  flag_dr_dirty (v m) = 0 ->
  let m' := snd (svm_save_dr (snd (__restore_debug_registers m))) in
  (forall i, debugreg (v m') i = debugreg (v m) i) /\
  flag_dr_dirty (v m') = 0 /\
  dr_intercepts (vmcb m') = 0xFFFFFFFF /\
  hw_debugreg m' 0 = debugreg (v m) 0 /\
  hw_debugreg m' 1 = debugreg (v m) 1 /\
  hw_debugreg m' 2 = debugreg (v m) 2 /\
  hw_debugreg m' 3 = debugreg (v m) 3.
Proof.
  intros Hflag m'. subst m'. unfold svm_save_dr, __restore_debug_registers.
  run. rewrite Hflag. cbn.
  split; [| repeat split; reflexivity].
  intros i. unfold upd.
  repeat match goal with
         | |- context [i =? ?k] =>
           destruct (Z.eqb_spec i k) as [-> | ?]; cbn
         end; reflexivity.
Qed.

(** X2, at a vcpu with breakpoint addresses in DR0-DR3 and DR7 = 0x55. *)
Lemma debug_registers_round_trip_witness :
  let dr := fun i => if i =? 7 then 0x55 else 0x1000 + i in
  let m := set_v (set_debugreg dr vcpu_zero) (machine_zero false) in
  let m' := snd (svm_save_dr (snd (__restore_debug_registers m))) in
  flag_dr_dirty (v m) = 0 /\
  debugreg (v m') 7 = 0x55 /\
  debugreg (v m') 2 = 0x1002 /\
  hw_debugreg m' 3 = 0x1003.
Proof.
  cbv zeta.
  pose proof (debug_registers_round_trip
                (set_v (set_debugreg
                          (fun i => if i =? 7 then 0x55 else 0x1000 + i)
                          vcpu_zero) (machine_zero false))) as H.
  cbv zeta in H.
  destruct H as [Hcanon [_ [_ [_ [_ [_ Hhw3]]]]]]; [reflexivity |].
  split; [reflexivity |].
  split; [exact (Hcanon 7) |]. split; [exact (Hcanon 2) | exact Hhw3].
Defined.

(** ** Lazy FPU *)

(** Reading one bit of a disjunction or of a conjunction. *)
Lemma test_lor_bit (a b k : Z) :
  0 <= k ->
  test (Z.lor a b) (Z.shiftl 1 k) = Z.testbit a k || Z.testbit b k.
Proof. intros Hk. rewrite test_single_bit, Z.lor_spec by assumption. reflexivity. Qed.

(** X3: the task-switched bit that [svm_update_guest_cr] puts in the
    hardware CR0 is the guest's own TS bit, forced on when the vcpu is not
    the current one; the FPU is set up (and the no-device intercept
    dropped) exactly when the vcpu is current, the guest has TS clear and
    the hardware CR0 still had TS set. *)
Theorem svm_update_guest_cr0_lazy_fpu {E : Externals} (m : machine) :
  let m' := snd (svm_update_guest_cr 0 m) in
  let fpu_enter :=
    negb (test (guest_cr (v m) 0) X86_CR0_TS)
    && v_is_current m && test (cr0 (vmcb m)) X86_CR0_TS in
  test (cr0 (vmcb m')) X86_CR0_TS =
    test (guest_cr (v m) 0) X86_CR0_TS || negb (v_is_current m) /\
  events m' = (if fpu_enter then Call_setup_fpu :: events m else events m) /\
  exception_intercepts (vmcb m') =
    (if fpu_enter
     then Z.land (exception_intercepts (vmcb m)) 0xFFFFFF7F
     else exception_intercepts (vmcb m)).
Proof.
  intros m' fpu_enter. subst m' fpu_enter.
  unfold svm_update_guest_cr, svm_fpu_enter. cbn [Z.eqb]. run.
  change X86_CR0_TS with (Z.shiftl 1 3).
  rewrite (test_single_bit (guest_cr (v m) 0)) by lia.
  rewrite (test_single_bit (cr0 (vmcb m))) by lia.
  destruct (Z.testbit (guest_cr (v m) 0) 3) eqn:Hts; cbn [negb andb orb];
    [| destruct (v_is_current m); cbn [negb andb orb];
       [destruct (Z.testbit (cr0 (vmcb m)) 3) |]];
    members; destruct (paging_mode_hap m); members;
    rewrite ?test_lor_bit, ?Z.lor_spec, ?Hts by lia;
    repeat split; reflexivity.
Qed.

(** X4: leaving the FPU to another context and taking the first-use trap.
    [svm_fpu_leave] followed by [svm_fpu_dirty_intercept] sets the FPU up
    once, leaves the no-device exception unintercepted, and leaves the
    hardware TS bit set only if the guest's own CR0 has TS set and the
    hardware CR0 had it; no other bit of the hardware CR0 changes. *)
Theorem lazy_fpu_leave_then_trap (m : machine) :
  let m' := snd (svm_fpu_dirty_intercept (snd (svm_fpu_leave m))) in
  events m' = Call_setup_fpu :: events m /\
  Z.testbit (exception_intercepts (vmcb m')) TRAP_no_device = false /\
  Z.testbit (cr0 (vmcb m')) 3 =
    Z.testbit (guest_cr (v m) 0) 3 && Z.testbit (cr0 (vmcb m)) 3 /\
  (forall i, 0 <= i -> i <> 3 ->
             Z.testbit (cr0 (vmcb m')) i = Z.testbit (cr0 (vmcb m)) i).
Proof.
  intros m'. subst m'.
  unfold svm_fpu_dirty_intercept, svm_fpu_leave, svm_fpu_enter. run.
  change X86_CR0_TS with (Z.shiftl 1 3).
  rewrite test_single_bit by lia.
  destruct (Z.testbit (guest_cr (v m) 0) 3) eqn:Hts; cbn [negb]; members;
    rewrite test_single_bit, Hts by lia; cbn [negb]; members.
  - split; [reflexivity |]. split.
    + rewrite Z.land_spec. change (Z.testbit _ TRAP_no_device) with false at 2.
      apply andb_false_r.
    + split; [reflexivity | intros; reflexivity].
  - split; [reflexivity |]. split.
    + rewrite Z.land_spec. change (Z.testbit _ TRAP_no_device) with false at 2.
      apply andb_false_r.
    + split.
      * rewrite Z.land_spec, Z.lnot_spec by lia.
        change (Z.testbit (Z.shiftl 1 3) 3) with true. apply andb_false_r.
      * intros i Hi Hne.
        rewrite Z.land_spec, Z.lor_spec, Z.lnot_spec by assumption.
        change (Z.shiftl 1 3) with (2 ^ 3).
        rewrite Z.pow2_bits_false by lia.
        rewrite orb_false_r. apply andb_true_r.
Qed.

(** X5: after [svm_fpu_leave] the first FPU use of a guest that has TS
    clear traps: the no-device exception is intercepted and the hardware
    TS bit is set; nothing changes for a guest that has TS set. *)
Theorem svm_fpu_leave_arms_trap (m : machine) :
  let m' := snd (svm_fpu_leave m) in
  if test (guest_cr (v m) 0) X86_CR0_TS then m' = m
  else
    Z.testbit (exception_intercepts (vmcb m')) TRAP_no_device = true /\
    test (cr0 (vmcb m')) X86_CR0_TS = true /\
    events m' = events m.
Proof.
  intros m'. subst m'. unfold svm_fpu_leave. run.
  destruct (test (guest_cr (v m) 0) X86_CR0_TS); cbn [negb];
    [reflexivity |].
  members. split.
  - rewrite Z.lor_spec. change (Z.testbit _ TRAP_no_device) with true at 2.
    apply orb_true_r.
  - split; [| reflexivity].
    change X86_CR0_TS with (Z.shiftl 1 3).
    rewrite test_lor_bit by lia. apply orb_true_r.
Qed.

(** ** Interrupt shadow *)

(** X6: [svm_get_interrupt_shadow] after [svm_set_interrupt_shadow]
    reports both shadow kinds when the value written had the STI or the
    MOV-SS bit, and none otherwise; writing back what was read leaves the
    reading as it was. *)
Theorem interrupt_shadow_round_trip (intr_shadow : Z) (m : machine) :
  fst (svm_get_interrupt_shadow
         (snd (svm_set_interrupt_shadow intr_shadow m))) =
    (if test intr_shadow
             (Z.lor HVM_INTR_SHADOW_MOV_SS HVM_INTR_SHADOW_STI)
     then Z.lor HVM_INTR_SHADOW_MOV_SS HVM_INTR_SHADOW_STI
     else 0) /\
  fst (svm_get_interrupt_shadow
         (snd (svm_set_interrupt_shadow
                 (fst (svm_get_interrupt_shadow m)) m))) =
    fst (svm_get_interrupt_shadow m).
Proof.
  unfold svm_get_interrupt_shadow, svm_set_interrupt_shadow. run. members.
  split.
  - destruct (test intr_shadow _); reflexivity.
  - destruct (interrupt_shadow (vmcb m) =? 0); reflexivity.
Qed.

(** ** Event injection, continued *)

(** What [svm_inject_exception] does besides writing the slot. *)
Lemma svm_inject_exception_side_effects {E : Externals}
    (trapnr errcode addr : Z) (m : machine) :
  let m' := snd (svm_inject_exception trapnr errcode addr m) in
  let page_fault := injected_trapnr trapnr m =? TRAP_page_fault in
  let single_step :=
    (injected_trapnr trapnr m =? TRAP_debug)
    && test (eflags (regs m)) X86_EFLAGS_TF in
  guest_cr (v m') =
    (if page_fault then upd (guest_cr (v m)) 2 addr else guest_cr (v m)) /\
  cr2 (vmcb m') = (if page_fault then addr else cr2 (vmcb m)) /\
  flag_dr_dirty (v m') =
    (if single_step && (flag_dr_dirty (v m) =? 0)
     then 1 else flag_dr_dirty (v m)) /\
  dr_intercepts (vmcb m') =
    (if single_step && (flag_dr_dirty (v m) =? 0)
     then 0 else dr_intercepts (vmcb m)) /\
  dr6 (vmcb m') =
    (if single_step
     then Z.lor (if flag_dr_dirty (v m) =? 0
                 then debugreg (v m) 6 else dr6 (vmcb m)) 0x4000
     else dr6 (vmcb m)).
Proof.
  intros m' page_fault single_step. subst m' page_fault single_step.
  unfold svm_inject_exception, __restore_debug_registers,
    injected_trapnr, pending_hw_exception.
  run.
  match goal with
  | |- context [if ?c then u32 ?x else trapnr] =>
    set (T := if c then u32 x else trapnr)
  end.
  destruct (T =? TRAP_page_fault); members;
    destruct ((T =? TRAP_debug) && test (eflags (regs m)) X86_EFLAGS_TF);
    members;
    destruct (flag_dr_dirty (v m) =? 0); cbn [negb andb]; members;
    repeat split; reflexivity.
Qed.

(** X7: the fault address reaches CR2, canonical and hardware, exactly
    when the vector that is finally injected is the page fault; a page
    fault that a pending hardware exception escalates to another vector
    leaves both CR2 values alone.  The other canonical control registers
    never change. *)
Theorem svm_inject_exception_fault_address {E : Externals}
    (trapnr errcode addr : Z) (m : machine) :
  let m' := snd (svm_inject_exception trapnr errcode addr m) in
  let page_fault := injected_trapnr trapnr m =? TRAP_page_fault in
  guest_cr (v m') 2 = (if page_fault then addr else guest_cr (v m) 2) /\
  cr2 (vmcb m') = (if page_fault then addr else cr2 (vmcb m)) /\
  guest_cr (v m') 0 = guest_cr (v m) 0 /\
  guest_cr (v m') 3 = guest_cr (v m) 3 /\
  guest_cr (v m') 4 = guest_cr (v m) 4.
Proof.
  intros m' page_fault.
  pose proof (svm_inject_exception_side_effects trapnr errcode addr m)
    as [Hcr [Hcr2 _]].
  fold m' page_fault in Hcr, Hcr2. rewrite Hcr, Hcr2.
  destruct page_fault; repeat split; reflexivity.
Qed.

(** X8: injecting a debug exception while TF is set makes the debug
    registers live: the single-step bit (bit 14) of the control block's
    DR6 is set, the dirty flag is nonzero and debug-register accesses are
    no longer intercepted.  Any other injection leaves DR6, the flag and
    the intercepts alone.  Either way the flag stays nonzero exactly when
    [dr_intercepts] is zero. *)
Theorem svm_inject_exception_single_step {E : Externals}
    (trapnr errcode addr : Z) (m : machine) :
  dr_lazy_invariant m ->
  let m' := snd (svm_inject_exception trapnr errcode addr m) in
  let single_step :=
    (injected_trapnr trapnr m =? TRAP_debug)
    && test (eflags (regs m)) X86_EFLAGS_TF in
  dr_lazy_invariant m' /\
  if single_step then
    Z.testbit (dr6 (vmcb m')) 14 = true /\
    flag_dr_dirty (v m') <> 0 /\
    dr_intercepts (vmcb m') = 0
  else
    dr6 (vmcb m') = dr6 (vmcb m) /\
    flag_dr_dirty (v m') = flag_dr_dirty (v m) /\
    dr_intercepts (vmcb m') = dr_intercepts (vmcb m).
Proof.
  intros Hinv m' single_step.
  pose proof (svm_inject_exception_side_effects trapnr errcode addr m)
    as [_ [_ [Hflag [Hint Hdr6]]]].
  fold m' single_step in Hflag, Hint, Hdr6.
  unfold dr_lazy_invariant in *. rewrite Hflag, Hint, Hdr6.
  destruct single_step; cbn [andb].
  - destruct (Z.eqb_spec (flag_dr_dirty (v m)) 0) as [H0 | Hn0].
    + split; [split; [reflexivity | discriminate] |].
      split; [| split; [discriminate | reflexivity]].
      rewrite Z.lor_spec. apply orb_true_r.
    + split; [exact Hinv |].
      split; [rewrite Z.lor_spec; apply orb_true_r |].
      split; [exact Hn0 | apply Hinv; exact Hn0].
  - split; [exact Hinv | repeat split; reflexivity].
Qed.

(** X8, at a single-stepping guest (TF set) with nothing pending. *)
Lemma svm_inject_exception_single_step_witness :
  let m := set_vmcb (set_dr_intercepts 0xFFFFFFFF vmcb_zero)
             (set_regs (set_eflags X86_EFLAGS_TF regs_zero)
                (machine_zero false)) in
  let m' := snd (@svm_inject_exception sample_host
                   TRAP_debug HVM_DELIVER_NO_ERROR_CODE 0 m) in
  dr_lazy_invariant m /\
  Z.testbit (dr6 (vmcb m')) 14 = true /\
  dr_intercepts (vmcb m') = 0.
Proof.
  cbv zeta.
  assert (Hinv : dr_lazy_invariant
                   (set_vmcb (set_dr_intercepts 0xFFFFFFFF vmcb_zero)
                      (set_regs (set_eflags X86_EFLAGS_TF regs_zero)
                         (machine_zero false)))).
  { split; intros H; [exfalso; apply H; reflexivity | discriminate H]. }
  split; [exact Hinv |].
  pose proof (@svm_inject_exception_single_step sample_host
                TRAP_debug HVM_DELIVER_NO_ERROR_CODE 0 _ Hinv) as H.
  cbv zeta in H. destruct H as [_ H].
  change ((@injected_trapnr sample_host TRAP_debug _ =? TRAP_debug)
          && test (eflags (regs _)) X86_EFLAGS_TF) with true in H.
  destruct H as [Hbs [_ Hint]]. split; [exact Hbs | exact Hint].
Defined.

(** ** Save and restore, continued *)

(** What [svm_update_guest_cr] leaves alone. *)
Lemma svm_update_guest_cr_frame {E : Externals} (cr : Z) (m : machine) :
  let m' := snd (svm_update_guest_cr cr m) in
  v m' = v m /\
  regs m' = regs m /\
  paging_mode_hap m' = paging_mode_hap m /\
  v_is_current m' = v_is_current m /\
  eventinj (vmcb m') = eventinj (vmcb m) /\
  sysenter_cs (vmcb m') = sysenter_cs (vmcb m) /\
  sysenter_esp (vmcb m') = sysenter_esp (vmcb m) /\
  sysenter_eip (vmcb m') = sysenter_eip (vmcb m) /\
  (cr <> 0 -> cr0 (vmcb m') = cr0 (vmcb m)) /\
  (cr <> 2 -> cr2 (vmcb m') = cr2 (vmcb m)) /\
  (cr <> 4 -> cr4 (vmcb m') = cr4 (vmcb m)).
Proof.
  intros m'. subst m'. unfold svm_update_guest_cr, svm_fpu_enter. run.
  destruct (Z.eqb_spec cr 0) as [-> | H0].
  { repeat (break_if; members); repeat split; intros;
      try reflexivity; try lia. }
  destruct (Z.eqb_spec cr 2) as [-> | H2].
  { members. repeat split; intros;
      try reflexivity; try lia. }
  destruct (Z.eqb_spec cr 3) as [-> | H3].
  { members. repeat split; intros; reflexivity. }
  destruct (Z.eqb_spec cr 4) as [-> | H4].
  { members. destruct (paging_mode_hap m) eqn:Hhap; members;
      repeat split; intros; try reflexivity; try lia; assumption. }
  members. repeat split; intros; reflexivity.
Qed.

(** The low half of an event word and its error code make up the word. *)
Lemma event_word_recombine (ev : Z) :
  0 <= ev < 2 ^ 64 ->
  set_fields_errorcode (fields_errorcode ev) (u32 ev) = ev.
Proof.
  intros Hrange. unfold set_fields_errorcode, fields_errorcode.
  apply Z.bits_inj'. intros i Hi.
  rewrite testbit_set_bits by lia. unfold u32.
  destruct (Z.leb_spec 32 i) as [Hhigh | Hlow]; cbn [andb].
  - destruct (Z.ltb_spec i (32 + 32)) as [Hin | Hout].
    + rewrite testbit_bits by lia.
      replace (i - 32 + 32) with i by lia.
      replace (i - 32 <? 32) with true by (symmetry; apply Z.ltb_lt; lia).
      apply andb_true_r.
    + rewrite Z.mod_pow2_bits_high by lia.
      rewrite <- (Z.mod_small ev (2 ^ 64)) by assumption.
      rewrite Z.mod_pow2_bits_high by lia. reflexivity.
  - apply Z.mod_pow2_bits_low. assumption.
Qed.

Lemma svm_update_guest_cr2_value {E : Externals} (m : machine) :
  cr2 (vmcb (snd (svm_update_guest_cr 2 m))) = guest_cr (v m) 2.
Proof. reflexivity. Qed.

(** The state after a restore that passes both tests. *)
Lemma svm_vmcb_restore_accepted {E : Externals}
    (c : hvm_hw_cpu) (m : machine) (mfn : Z) :
  pending_event_invalid c = false ->
  restored_guest_table c m = Some mfn ->
  let m' := snd (svm_vmcb_restore c m) in
  fst (svm_vmcb_restore c m) = 0 /\
  guest_cr (v m') 0 = Z.lor (c_cr0 c) X86_CR0_ET /\
  guest_cr (v m') 2 = c_cr2 c /\
  guest_cr (v m') 3 = c_cr3 c /\
  guest_cr (v m') 4 = c_cr4 c /\
  cr2 (vmcb m') = c_cr2 c /\
  sysenter_cs (vmcb m') = c_sysenter_cs c /\
  sysenter_esp (vmcb m') = c_sysenter_esp c /\
  sysenter_eip (vmcb m') = c_sysenter_eip c /\
  eventinj (vmcb m') =
    (if negb (pending_valid (pending_event c) =? 0)
        && hvm_event_needs_reinjection (pending_type (pending_event c))
                                       (pending_vector (pending_event c))
     then set_fields_errorcode (error_code c) (pending_event c)
     else eventinj (vmcb m)) /\
  guest_table (v m') = (if paging_mode_hap m then guest_table (v m) else mfn).
Proof.
  intros Hcheck Hmfn.
  remember (svm_vmcb_restore c m) as r eqn:Hr.
  unfold svm_vmcb_restore in Hr.
  unfold pending_event_invalid in Hcheck. rewrite Hcheck in Hr.
  unfold restored_guest_table in Hmfn.
  unfold bind at 1, get at 1 in Hr. cbv beta iota zeta in Hr.
  rewrite Hmfn in Hr. unfold bind at 1 in Hr.
  (* the guest-table block *)
  destruct ((if negb (paging_mode_hap m) then
               (if test (c_cr0 c) X86_CR0_PG
                then call (Call_get_page mfn) else skip) ;;
               (if test (guest_cr (v m) 0) X86_CR0_PG
                then call (Call_put_page (guest_table (v m))) else skip) ;;
               assign_v set_guest_table (fun _ => mfn)
             else skip) m) as [u0 m0] eqn:Hblock.
  assert (Hm0 : guest_cr (v m0) = guest_cr (v m) /\
                vmcb m0 = vmcb m /\
                guest_table (v m0) =
                  (if paging_mode_hap m then guest_table (v m) else mfn)).
  { revert Hblock. run.
    destruct (paging_mode_hap m); cbn [negb];
      [intros [= _ <-]; repeat split; reflexivity |].
    destruct (test (c_cr0 c) X86_CR0_PG),
             (test (guest_cr (v m) 0) X86_CR0_PG);
      intros [= _ <-]; repeat split; reflexivity. }
  destruct Hm0 as [Hcr0 [Hvmcb0 Htable0]].
  (* the four canonical registers, then the three projections *)
  revert Hr. run. run.
  match goal with
  | |- context [svm_update_guest_cr 0 ?x] => set (m1 := x)
  end.
  pose proof (svm_update_guest_cr_frame 0 m1) as F0.
  destruct (svm_update_guest_cr 0 m1) as [u1 m2]. cbn [snd] in F0.
  pose proof (svm_update_guest_cr_frame 2 m2) as F2.
  pose proof (svm_update_guest_cr2_value m2) as V2.
  destruct (svm_update_guest_cr 2 m2) as [u2 m3]. cbn [snd] in F2, V2.
  pose proof (svm_update_guest_cr_frame 4 m3) as F4.
  destruct (svm_update_guest_cr 4 m3) as [u3 m4]. cbn [snd] in F4.
  destruct F0 as [F0v [_ [_ [_ [F0e [F0a [F0b [F0c _]]]]]]]].
  destruct F2 as [F2v [_ [_ [_ [F2e [F2a [F2b [F2c _]]]]]]]].
  destruct F4 as [F4v [_ [_ [_ [F4e [F4a [F4b [F4c [_ [F4cr2 _]]]]]]]]]].
  specialize (F4cr2 ltac:(lia)).
  assert (Hv4 : v m4 = v m1) by congruence.
  assert (He4 : eventinj (vmcb m4) = eventinj (vmcb m))
    by (rewrite F4e, F2e, F0e; subst m1; cbn; rewrite Hvmcb0; reflexivity).
  assert (Hc4 : cr2 (vmcb m4) = c_cr2 c)
    by (rewrite F4cr2, V2, F0v; subst m1; reflexivity).
  intros ->.
  destruct (paging_mode_hap m); members;
    destruct (negb (pending_valid (pending_event c) =? 0)
              && hvm_event_needs_reinjection
                   (pending_type (pending_event c))
                   (pending_vector (pending_event c)));
    members; rewrite ?Hv4, ?He4, ?Hc4; subst m1; cbn -[Z.lor];
    rewrite ?Htable0; repeat split; reflexivity.
Qed.

Lemma svm_vmcb_restore_rejected {E : Externals} (c : hvm_hw_cpu) (m : machine) :
  pending_event_invalid c = true \/ restored_guest_table c m = None ->
  svm_vmcb_restore c m = (- EINVAL, m).
Proof.
  unfold svm_vmcb_restore, pending_event_invalid, restored_guest_table.
  intros [Hcheck | Hmfn].
  - rewrite Hcheck. reflexivity.
  - destruct (negb (pending_valid (pending_event c) =? 0)
              && ((pending_type (pending_event c) =? 1)
                  || (6 <? pending_type (pending_event c))
                  || negb (pending_reserved (pending_event c) =? 0)));
      [reflexivity |].
    unfold bind at 1, get at 1. cbv beta iota zeta. rewrite Hmfn.
    reflexivity.
Qed.

(** X9: [svm_vmcb_restore] is all or nothing.  When the pending event of
    the record is malformed, or the vcpu uses shadow paging and the
    restored CR3 (with paging enabled) names a frame that is not RAM or
    cannot be referenced, it returns -EINVAL and the state is untouched;
    in every other case it returns 0. *)
Theorem svm_vmcb_restore_all_or_nothing {E : Externals}
    (c : hvm_hw_cpu) (m : machine) :
  if pending_event_invalid c then svm_vmcb_restore c m = (- EINVAL, m)
  else
    match restored_guest_table c m with
    | None => svm_vmcb_restore c m = (- EINVAL, m)
    | Some _ => fst (svm_vmcb_restore c m) = 0
    end.
Proof.
  destruct (pending_event_invalid c) eqn:Hcheck.
  - apply svm_vmcb_restore_rejected. left. exact Hcheck.
  - destruct (restored_guest_table c m) as [mfn |] eqn:Hmfn.
    + exact (proj1 (svm_vmcb_restore_accepted c m mfn Hcheck Hmfn)).
    + apply svm_vmcb_restore_rejected. right. exact Hmfn.
Qed.

(** The registers that [svm_vmcb_save] writes into the record. *)
Lemma svm_vmcb_save_registers {E : Externals} (c : hvm_hw_cpu) (m : machine) :
  let c' := snd (fst (svm_vmcb_save c m)) in
  c_cr0 c' = guest_cr (v m) 0 /\
  c_cr2 c' = guest_cr (v m) 2 /\
  c_cr3 c' = guest_cr (v m) 3 /\
  c_cr4 c' = guest_cr (v m) 4 /\
  c_sysenter_cs c' = sysenter_cs (vmcb m) /\
  c_sysenter_esp c' = sysenter_esp (vmcb m) /\
  c_sysenter_eip c' = sysenter_eip (vmcb m).
Proof.
  intros c'. subst c'. unfold svm_vmcb_save. run.
  destruct (negb (fields_v (eventinj (vmcb m)) =? 0)
            && hvm_event_needs_reinjection
                 (fields_type (eventinj (vmcb m)))
                 (fields_vector (eventinj (vmcb m))));
    repeat split; reflexivity.
Qed.

(** X10: saving a vcpu and restoring the record into it gives back what
    was saved.  If [svm_vmcb_restore] accepts the record that
    [svm_vmcb_save] wrote, the injection slot is the one before the save,
    the canonical CR2, CR3 and CR4 and the sysenter triad are unchanged,
    and the canonical CR0 differs at most by the ET bit, which is forced
    on. *)
Theorem svm_vmcb_save_restore_round_trip {E : Externals}
    (c : hvm_hw_cpu) (m : machine) :
  0 <= eventinj (vmcb m) < 2 ^ 64 ->
  let c' := snd (fst (svm_vmcb_save c m)) in
  fst (svm_vmcb_restore c' m) = 0 ->
  let m' := snd (svm_vmcb_restore c' m) in
  eventinj (vmcb m') = eventinj (vmcb m) /\
  guest_cr (v m') 0 = Z.lor (guest_cr (v m) 0) X86_CR0_ET /\
  guest_cr (v m') 2 = guest_cr (v m) 2 /\
  guest_cr (v m') 3 = guest_cr (v m) 3 /\
  guest_cr (v m') 4 = guest_cr (v m) 4 /\
  sysenter_cs (vmcb m') = sysenter_cs (vmcb m) /\
  sysenter_esp (vmcb m') = sysenter_esp (vmcb m) /\
  sysenter_eip (vmcb m') = sysenter_eip (vmcb m).
Proof.
  intros Hrange c' Hok m'.
  destruct (pending_event_invalid c') eqn:Hcheck.
  { rewrite (svm_vmcb_restore_rejected c' m (or_introl Hcheck)) in Hok.
    discriminate Hok. }
  destruct (restored_guest_table c' m) as [mfn |] eqn:Hmfn.
  2: { rewrite (svm_vmcb_restore_rejected c' m (or_intror Hmfn)) in Hok.
       discriminate Hok. }
  pose proof (svm_vmcb_restore_accepted c' m mfn Hcheck Hmfn) as Hacc.
  cbv zeta in Hacc. fold m' in Hacc.
  destruct Hacc as [_ [H0 [H2 [H3 [H4 [_ [Hcs [Hesp [Heip [Hev _]]]]]]]]]].
  pose proof (svm_vmcb_save_registers c m) as Hsaved.
  cbv zeta in Hsaved. fold c' in Hsaved.
  destruct Hsaved as [S0 [S2 [S3 [S4 [Scs [Sesp Seip]]]]]].
  rewrite H0, H2, H3, H4, Hcs, Hesp, Heip, Hev.
  rewrite S0, S2, S3, S4, Scs, Sesp, Seip.
  split; [| repeat split; reflexivity].
  subst c'. unfold svm_vmcb_save. run.
  set (ev := eventinj (vmcb m)) in *.
  destruct (negb (fields_v ev =? 0)
            && hvm_event_needs_reinjection (fields_type ev) (fields_vector ev))
    eqn:Hsave; members.
  - unfold pending_valid, pending_type, pending_vector.
    rewrite !bits_u32 by lia.
    fold (fields_v ev) (fields_type ev) (fields_vector ev).
    rewrite Hsave. apply event_word_recombine. exact Hrange.
  - reflexivity.
Qed.

(** X10, at a vcpu under hardware-assisted paging with a page fault
    (error code 2) in the slot. *)
Lemma svm_vmcb_save_restore_round_trip_witness :
  let ev := event_word X86_EVENTTYPE_HW_EXCEPTION TRAP_page_fault 1 2 in
  let m := machine_with_event true ev in
  let c' := snd (fst (@svm_vmcb_save sample_host hw_cpu_zero m)) in
  fst (@svm_vmcb_restore sample_host c' m) = 0 /\
  eventinj (vmcb (snd (@svm_vmcb_restore sample_host c' m))) = 0x280000b0e.
Proof.
  cbv zeta. split; [reflexivity |].
  pose proof (@svm_vmcb_save_restore_round_trip sample_host hw_cpu_zero
                (machine_with_event true
                   (event_word X86_EVENTTYPE_HW_EXCEPTION TRAP_page_fault
                      1 2))) as H.
  cbv zeta in H.
  destruct H as [Hev _];
    [vm_compute; split; [discriminate | reflexivity] | reflexivity |].
  rewrite Hev. reflexivity.
Defined.

(** Writing a bit-field inside a 64-bit word keeps it a 64-bit word. *)
Lemma set_bits_range (lo len x w : Z) :
  0 <= lo -> 0 <= len -> lo + len <= 64 ->
  0 <= w < 2 ^ 64 ->
  0 <= set_bits lo len x w < 2 ^ 64.
Proof.
  intros Hlo Hlen Hfit Hw.
  assert (Hmod : set_bits lo len x w mod 2 ^ 64 = set_bits lo len x w).
  { apply Z.bits_inj'. intros i Hi.
    destruct (Z.lt_ge_cases i 64) as [Hlow | Hhigh].
    - apply Z.mod_pow2_bits_low. exact Hlow.
    - rewrite Z.mod_pow2_bits_high by lia.
      rewrite testbit_set_bits by assumption.
      replace ((lo <=? i) && (i <? lo + len)) with false
        by (symmetry; apply andb_false_iff; right; apply Z.ltb_ge; lia).
      rewrite <- (Z.mod_small w (2 ^ 64)) by exact Hw.
      rewrite Z.mod_pow2_bits_high by lia. reflexivity. }
  rewrite <- Hmod. apply Z.mod_pos_bound. lia.
Qed.

(** The word that [svm_inject_exception] leaves in the slot. *)
Lemma svm_inject_exception_word {E : Externals}
    (trapnr errcode addr : Z) (m : machine) :
  eventinj (vmcb (snd (svm_inject_exception trapnr errcode addr m))) =
  set_fields_errorcode (injected_errcode trapnr errcode m)
    (set_fields_ev
       (if injected_errcode trapnr errcode m =? HVM_DELIVER_NO_ERROR_CODE
        then 0 else 1)
       (set_fields_vector (injected_trapnr trapnr m)
          (set_fields_type X86_EVENTTYPE_HW_EXCEPTION
             (set_fields_v 1 0)))).
Proof.
  unfold svm_inject_exception, __restore_debug_registers,
    injected_errcode, injected_trapnr, pending_hw_exception.
  run. repeat (break_if; members); reflexivity.
Qed.

(** X11: an exception that [svm_inject_exception] put in the slot survives
    a save and a restore.  The record that [svm_vmcb_save] writes after an
    injection is always accepted by [svm_vmcb_restore] on a vcpu under
    hardware-assisted paging, and when the event is one that needs
    redelivery the restored slot is the injected one, bit for bit. *)
Theorem injected_event_is_restorable {E : Externals}
    (trapnr errcode addr : Z) (m : machine)
    (c : hvm_hw_cpu) (target : machine) :
  paging_mode_hap target = true ->
  let injected := snd (svm_inject_exception trapnr errcode addr m) in
  let c' := snd (fst (svm_vmcb_save c injected)) in
  fst (svm_vmcb_restore c' target) = 0 /\
  eventinj (vmcb (snd (svm_vmcb_restore c' target))) =
    (if hvm_event_needs_reinjection X86_EVENTTYPE_HW_EXCEPTION
          (fields_vector (eventinj (vmcb injected)))
     then eventinj (vmcb injected)
     else eventinj (vmcb target)).
Proof.
  intros Hhap injected c'.
  pose proof (svm_inject_exception_slot trapnr errcode addr m)
    as [Hv [Htype [_ [_ [_ Hres]]]]].
  fold injected in Hv, Htype, Hres.
  assert (Hrange : 0 <= eventinj (vmcb injected) < 2 ^ 64).
  { subst injected. rewrite svm_inject_exception_word.
    unfold set_fields_errorcode, set_fields_ev, set_fields_vector,
      set_fields_type, set_fields_v.
    repeat apply set_bits_range; lia. }
  set (ev := eventinj (vmcb injected)) in *.
  assert (Hpe : pending_event c' =
                  (if hvm_event_needs_reinjection
                        X86_EVENTTYPE_HW_EXCEPTION (fields_vector ev)
                   then u32 ev else 0) /\
                error_code c' =
                  (if hvm_event_needs_reinjection
                        X86_EVENTTYPE_HW_EXCEPTION (fields_vector ev)
                   then fields_errorcode ev else 0)).
  { subst c'. unfold svm_vmcb_save. run. fold ev.
    rewrite Hv, Htype. cbn [Z.eqb negb andb].
    destruct (hvm_event_needs_reinjection _ _); split; reflexivity. }
  destruct Hpe as [Hpe Hec].
  assert (Hcheck : pending_event_invalid c' = false).
  { unfold pending_event_invalid. rewrite Hpe.
    destruct (hvm_event_needs_reinjection _ _).
    - unfold pending_valid, pending_type, pending_reserved.
      rewrite !bits_u32 by lia.
      fold (fields_v ev) (fields_type ev) (fields_resvd1 ev).
      rewrite Hv, Htype, Hres. reflexivity.
    - reflexivity. }
  assert (Hmfn : restored_guest_table c' target = Some 0)
    by (unfold restored_guest_table; rewrite Hhap; reflexivity).
  pose proof (svm_vmcb_restore_accepted c' target 0 Hcheck Hmfn) as Hacc.
  cbv zeta in Hacc.
  destruct Hacc as [Hok [_ [_ [_ [_ [_ [_ [_ [_ [Hev _]]]]]]]]]].
  split; [exact Hok |].
  rewrite Hev, Hpe, Hec.
  destruct (hvm_event_needs_reinjection X86_EVENTTYPE_HW_EXCEPTION
              (fields_vector ev)) eqn:Hneeds.
  - unfold pending_valid, pending_type, pending_vector.
    rewrite !bits_u32 by lia.
    fold (fields_v ev) (fields_type ev) (fields_vector ev).
    rewrite Hv, Htype, Hneeds. cbn [Z.eqb negb andb].
    apply event_word_recombine. exact Hrange.
  - reflexivity.
Qed.

(** X11, at a general-protection fault with error code 0x18 injected into
    an empty slot and restored into a fresh vcpu. *)
Lemma injected_event_is_restorable_witness :
  let injected := snd (@svm_inject_exception sample_host
                         TRAP_gp_fault 0x18 0 (machine_zero true)) in
  let c' := snd (fst (@svm_vmcb_save sample_host hw_cpu_zero injected)) in
  let restored := snd (@svm_vmcb_restore sample_host c' (machine_zero true)) in
  paging_mode_hap (machine_zero true) = true /\
  fst (@svm_vmcb_restore sample_host c' (machine_zero true)) = 0 /\
  eventinj (vmcb restored) = 0x1880000b0d.
Proof.
  cbv zeta. split; [reflexivity |].
  pose proof (@injected_event_is_restorable sample_host
                TRAP_gp_fault 0x18 0 (machine_zero true)
                hw_cpu_zero (machine_zero true) eq_refl) as H.
  cbv zeta in H. destruct H as [Hok Hev].
  split; [exact Hok |]. rewrite Hev. reflexivity.
Defined.

(** ** MSR intercepts, continued *)

(** The two halves of an MSR value as WRMSR takes them and RDMSR hands
    them back. *)
Lemma msr_content_low (a d : Z) :
  Z.land (Z.lor (u32 a) (u64 (Z.shiftl d 32))) 0xFFFFFFFF = u32 a.
Proof.
  change 0xFFFFFFFF with (Z.ones 32). unfold u32, u64.
  apply Z.bits_inj'. intros i Hi.
  rewrite Z.land_spec, Z.lor_spec, Z.testbit_ones_nonneg by lia.
  destruct (Z.ltb_spec i 32) as [Hlow | Hhigh].
  - rewrite (Z.mod_pow2_bits_low (Z.shiftl d 32)) by lia.
    rewrite Z.shiftl_spec, (Z.testbit_neg_r d) by lia.
    rewrite orb_false_r, andb_true_r. reflexivity.
  - rewrite (Z.mod_pow2_bits_high a) by lia. rewrite andb_false_r.
    reflexivity.
Qed.

Lemma msr_content_high (a d : Z) :
  Z.shiftr (Z.lor (u32 a) (u64 (Z.shiftl d 32))) 32 = u32 d.
Proof.
  unfold u32, u64. apply Z.bits_inj'. intros i Hi.
  rewrite Z.shiftr_spec, Z.lor_spec by lia.
  rewrite (Z.mod_pow2_bits_high a) by lia. cbn [orb].
  destruct (Z.ltb_spec i 32) as [Hlow | Hhigh].
  - rewrite !Z.mod_pow2_bits_low by lia.
    rewrite Z.shiftl_spec by lia. f_equal. lia.
  - rewrite !Z.mod_pow2_bits_high by lia. reflexivity.
Qed.

(** X12: the debug-control and last-branch registers read back what was
    written.  For each of MSR_IA32_DEBUGCTLMSR, MSR_IA32_LASTBRANCHFROMIP,
    MSR_IA32_LASTBRANCHTOIP, MSR_IA32_LASTINTFROMIP and
    MSR_IA32_LASTINTTOIP, a write intercept followed by a read intercept
    both succeed, and the read returns in eax and edx the low 32 bits of
    the eax and edx that were written. *)
Theorem msr_lbr_write_then_read {E : Externals} (m : machine) :
  In (u32 (ecx (regs m)))
     [MSR_IA32_DEBUGCTLMSR; MSR_IA32_LASTBRANCHFROMIP;
      MSR_IA32_LASTBRANCHTOIP; MSR_IA32_LASTINTFROMIP;
      MSR_IA32_LASTINTTOIP] ->
  let written := svm_msr_write_intercept m in
  let read := svm_msr_read_intercept (snd written) in
  fst written = X86EMUL_OKAY /\
  fst read = X86EMUL_OKAY /\
  eax (regs (snd read)) = u32 (eax (regs m)) /\
  edx (regs (snd read)) = u32 (edx (regs m)) /\
  eventinj (vmcb (snd read)) = eventinj (vmcb m).
Proof.
  intros Hmsr written read. subst read written.
  cbn [In] in Hmsr.
  unfold svm_msr_write_intercept, svm_msr_read_intercept. run.
  destruct Hmsr as [H | [H | [H | [H | [H | []]]]]]; rewrite <- H.
  - switch_on MSR_IA32_DEBUGCTLMSR.
    destruct ((_ =? 0) || negb cpu_has_svm_lbrv); members;
      rewrite <- H; switch_on MSR_IA32_DEBUGCTLMSR; members;
      rewrite msr_content_low, msr_content_high; repeat split; reflexivity.
  - switch_on MSR_IA32_LASTBRANCHFROMIP. members.
    rewrite <- H. switch_on MSR_IA32_LASTBRANCHFROMIP. members.
    rewrite msr_content_low, msr_content_high. repeat split; reflexivity.
  - switch_on MSR_IA32_LASTBRANCHTOIP. members.
    rewrite <- H. switch_on MSR_IA32_LASTBRANCHTOIP. members.
    rewrite msr_content_low, msr_content_high. repeat split; reflexivity.
  - switch_on MSR_IA32_LASTINTFROMIP. members.
    rewrite <- H. switch_on MSR_IA32_LASTINTFROMIP. members.
    rewrite msr_content_low, msr_content_high. repeat split; reflexivity.
  - switch_on MSR_IA32_LASTINTTOIP. members.
    rewrite <- H. switch_on MSR_IA32_LASTINTTOIP. members.
    rewrite msr_content_low, msr_content_high. repeat split; reflexivity.
Qed.

(** X12, at a write of 0x1234_0000_5678 to MSR_IA32_LASTBRANCHTOIP. *)
Lemma msr_lbr_write_then_read_witness :
  let m := set_regs (mk_cpu_user_regs 0x5678 MSR_IA32_LASTBRANCHTOIP
                       0x1234 0x1000 2) (machine_zero false) in
  let m1 := snd (@svm_msr_write_intercept sample_host m) in
  let m2 := snd (@svm_msr_read_intercept sample_host m1) in
  lastbranchtoip (vmcb m1) = 0x123400005678 /\
  eax (regs m2) = 0x5678 /\ edx (regs m2) = 0x1234.
Proof.
  cbv zeta. split; [reflexivity |].
  pose proof (@msr_lbr_write_then_read sample_host
                (set_regs (mk_cpu_user_regs 0x5678 MSR_IA32_LASTBRANCHTOIP
                             0x1234 0x1000 2) (machine_zero false))) as H.
  cbv zeta in H.
  destruct H as [_ [_ [Hlow [Hhigh _]]]];
    [cbn [In]; right; right; left; reflexivity |].
  split; [exact Hlow | exact Hhigh].
Defined.

(** X13: the guest never sees the host's machine-check state.  A read of
    MSR_IA32_MCG_CAP, MSR_IA32_MCG_STATUS or one of the bank status
    registers MC0-MC5 succeeds and returns zero in eax and edx; a read of
    a threshold register (MSR_IA32_MC4_MISC, MSR_F10_MC4_MISC1 to
    MSR_F10_MC4_MISC3) succeeds and returns only the Locked bit (bit 61).
    Nothing else of the state changes. *)
Theorem msr_machine_check_reads {E : Externals} (m : machine) :
  let msr := u32 (ecx (regs m)) in
  (In msr [MSR_IA32_MCG_CAP; MSR_IA32_MCG_STATUS; MSR_IA32_MC0_STATUS;
           MSR_IA32_MC1_STATUS; MSR_IA32_MC2_STATUS; MSR_IA32_MC3_STATUS;
           MSR_IA32_MC4_STATUS; MSR_IA32_MC5_STATUS] ->
   svm_msr_read_intercept m =
     (X86EMUL_OKAY, set_regs (set_edx 0 (set_eax 0 (regs m))) m)) /\
  (msr = MSR_IA32_MC4_MISC \/
   MSR_F10_MC4_MISC1 <= msr <= MSR_F10_MC4_MISC3 ->
   svm_msr_read_intercept m =
     (X86EMUL_OKAY,
      set_regs (set_edx (Z.shiftl 1 29) (set_eax 0 (regs m))) m)).
Proof.
  intros msr. subst msr. split.
  - intros Hmsr. cbn [In] in Hmsr.
    unfold svm_msr_read_intercept. run.
    destruct Hmsr as [H | [H | [H | [H | [H | [H | [H | [H | []]]]]]]]];
      rewrite <- H;
      [ switch_on MSR_IA32_MCG_CAP | switch_on MSR_IA32_MCG_STATUS
      | switch_on MSR_IA32_MC0_STATUS | switch_on MSR_IA32_MC1_STATUS
      | switch_on MSR_IA32_MC2_STATUS | switch_on MSR_IA32_MC3_STATUS
      | switch_on MSR_IA32_MC4_STATUS | switch_on MSR_IA32_MC5_STATUS ];
      reflexivity.
  - intros Hmsr. unfold svm_msr_read_intercept. run.
    set (msr := u32 (ecx (regs m))) in *.
    assert (Hthreshold :
              (msr =? MSR_IA32_MC4_MISC)
              || in_range MSR_F10_MC4_MISC1 MSR_F10_MC4_MISC3 msr = true).
    { apply orb_true_iff. destruct Hmsr as [-> | Hrange];
        [left; reflexivity | right].
      unfold in_range. apply andb_true_iff.
      split; apply Z.leb_le; lia. }
    rewrite Hthreshold.
    replace (msr =? MSR_IA32_TSC) with false
      by (symmetry; apply Z.eqb_neq;
          unfold MSR_IA32_TSC, MSR_IA32_MC4_MISC, MSR_F10_MC4_MISC1 in *;
          lia).
    replace (msr =? MSR_IA32_APICBASE) with false
      by (symmetry; apply Z.eqb_neq;
          unfold MSR_IA32_APICBASE, MSR_IA32_MC4_MISC, MSR_F10_MC4_MISC1
            in *; lia).
    replace (msr =? MSR_EFER) with false
      by (symmetry; apply Z.eqb_neq;
          unfold MSR_EFER, MSR_IA32_MC4_MISC, MSR_F10_MC4_MISC1 in *; lia).
    reflexivity.
Qed.

(** X13, at reads of MSR_IA32_MC0_STATUS and of MSR_F10_MC4_MISC1 + 1. *)
Lemma msr_machine_check_reads_witness :
  let status := set_regs (mk_cpu_user_regs 7 MSR_IA32_MC0_STATUS 7 0 0)
                  (machine_zero false) in
  let misc := set_regs (mk_cpu_user_regs 7 0xc0000409 7 0 0)
                (machine_zero false) in
  regs (snd (@svm_msr_read_intercept sample_host status)) =
    mk_cpu_user_regs 0 MSR_IA32_MC0_STATUS 0 0 0 /\
  regs (snd (@svm_msr_read_intercept sample_host misc)) =
    mk_cpu_user_regs 0 0xc0000409 0x20000000 0 0.
Proof.
  cbv zeta. split.
  - rewrite (proj1 (@msr_machine_check_reads sample_host _)).
    + reflexivity.
    + cbn [In]. right; right; left. reflexivity.
  - rewrite (proj2 (@msr_machine_check_reads sample_host _)).
    + reflexivity.
    + right. vm_compute. split; discriminate.
Defined.



(** [svm_msr_read_intercept] writes eax and edx at most; it makes no call
    and leaves the rest of the register file alone. *)
Lemma svm_msr_read_intercept_frame {E : Externals} (m : machine) :
  let m' := snd (svm_msr_read_intercept m) in
  eip (regs m') = eip (regs m) /\
  eflags (regs m') = eflags (regs m) /\
  ecx (regs m') = ecx (regs m) /\
  events m' = events m.
Proof.
  intros m'. subst m'.
  pose proof (svm_inject_exception_frame TRAP_gp_fault 0 0 m)
    as [Hregs [Hevents _]].
  unfold svm_msr_read_intercept. run.
  repeat (break_if; members);
    try (repeat split; reflexivity);
    try (destruct (svm_inject_exception TRAP_gp_fault 0 0 m);
         cbn [snd] in *; rewrite Hregs, Hevents; repeat split; reflexivity).
  destruct (rdmsr_hypervisor_regs _) as [r |]; members;
    [repeat split; reflexivity |].
  destruct (rdmsr_safe _) as [r |]; members;
    [repeat split; reflexivity |].
  destruct (svm_inject_exception TRAP_gp_fault 0 0 m);
    cbn [snd] in *; rewrite Hregs, Hevents; repeat split; reflexivity.
Qed.

(** X15: a successful read advances the instruction pointer and a faulting
    one does not.  On a read exit (exitinfo1 = 0) with an instruction
    length from 1 to 15, [svm_do_msr_access] leaves the instruction
    pointer advanced by exactly that length when the read intercept
    returned X86EMUL_OKAY, and where it was otherwise. *)
Theorem svm_do_msr_access_read_advances_eip {E : Externals} (m : machine) :
  exitinfo1 (vmcb m) = 0 ->
  0 < u32 (__get_instruction_length INSTR_RDMSR) <= 15 ->
  eip (regs (snd (svm_do_msr_access m))) =
    if fst (svm_msr_read_intercept m) =? X86EMUL_OKAY
    then u64 (eip (regs m) + u32 (__get_instruction_length INSTR_RDMSR))
    else eip (regs m).
Proof.
  intros Hread Hlen.
  pose proof (svm_do_msr_access_advances_only_on_okay m) as Hacc.
  cbv zeta in Hacc. rewrite Hread in Hacc. cbn [Z.eqb] in Hacc.
  rewrite Hacc. clear Hacc.
  pose proof (svm_msr_read_intercept_frame m) as [Heip _].
  cbv zeta in Heip.
  destruct (fst (svm_msr_read_intercept m) =? X86EMUL_OKAY);
    [| exact Heip].
  assert (Hin : (u32 (__get_instruction_length INSTR_RDMSR) =? 0)
                || (15 <? u32 (__get_instruction_length INSTR_RDMSR))
                = false)
    by (apply orb_false_iff; split;
        [apply Z.eqb_neq | apply Z.ltb_ge]; lia).
  pose proof (update_guest_eip_in_range _ (snd (svm_msr_read_intercept m))
                Hin) as [Hadv _].
  rewrite Hadv, Heip. reflexivity.
Qed.

(** X15, at a read of the time-stamp counter (a two-byte instruction). *)
Lemma svm_do_msr_access_read_advances_eip_witness :
  let m := set_regs (mk_cpu_user_regs 0 MSR_IA32_TSC 0 0x1000 2)
             (machine_zero false) in
  exitinfo1 (vmcb m) = 0 /\
  eip (regs (snd (@svm_do_msr_access sample_host m))) = 0x1002.
Proof.
  cbv zeta. split; [reflexivity |].
  rewrite (@svm_do_msr_access_read_advances_eip sample_host).
  - reflexivity.
  - reflexivity.
  - vm_compute. split; [reflexivity | discriminate].
Defined.

(** ** Segment registers *)

(** Writing back the bit-field that was read changes nothing. *)
Lemma set_bits_bits_same (lo len w : Z) :
  0 <= lo -> 0 <= len -> set_bits lo len (bits lo len w) w = w.
Proof.
  intros Hlo Hlen. apply Z.bits_inj'. intros i Hi.
  rewrite testbit_set_bits by assumption.
  destruct (Z.leb_spec lo i) as [Hle | Hlt]; cbn [andb]; [| reflexivity].
  destruct (Z.ltb_spec i (lo + len)) as [Hin | Hout]; [| reflexivity].
  rewrite testbit_bits by lia.
  replace (i - lo + lo) with i by lia.
  replace (i - lo <? len) with true by (symmetry; apply Z.ltb_lt; lia).
  apply andb_true_r.
Qed.

(** X16: a segment register reads back as written.  For each of the ten
    segments, [svm_get_segment_register] after
    [svm_set_segment_register] returns the register that was written; for
    the stack segment this holds because the write sets the privilege
    level from the descriptor's DPL and the read puts the privilege level
    back into the DPL field. *)
Theorem segment_register_round_trip
    (seg : x86_segment) (reg reg0 : segment_register) (s : seg_machine) :
  seg <> x86_seg_none ->
  fst (svm_get_segment_register seg reg0
         (svm_set_segment_register seg reg s)) = reg.
Proof.
  intros Hseg.
  destruct seg; try contradiction;
    unfold svm_set_segment_register, svm_get_segment_register,
      svm_sync_vmcb, hw;
    repeat (break_if; cbn); try reflexivity.
  destruct reg as [sel0 attr0 limit0 base0]. unfold set_attr. cbn.
  unfold set_attr_dpl, attr_dpl. rewrite set_bits_bits_same by lia.
  reflexivity.
Qed.

(** X16, at a ring-3 stack segment. *)
Lemma segment_register_round_trip_witness :
  let zero := mk_segment_register 0 0 0 0 in
  let s := mk_seg_machine
             (mk_vmcb_segments zero zero zero zero zero zero zero zero zero
                zero 0) 0 true [] in
  let reg := mk_segment_register 0x2b 0xcf3 0xffffffff 0 in
  x86_seg_ss <> x86_seg_none /\
  cpl (segs (svm_set_segment_register x86_seg_ss reg s)) = 3 /\
  fst (svm_get_segment_register x86_seg_ss zero
         (svm_set_segment_register x86_seg_ss reg s)) = reg.
Proof.
  cbv zeta. split; [discriminate |]. split; [reflexivity |].
  apply segment_register_round_trip. discriminate.
Defined.

(** X17: writing one segment register does not change what any other
    reads as; in particular only a write of the stack segment changes the
    privilege level that a read of the stack segment reports. *)
Theorem segment_register_independence
    (seg seg' : x86_segment) (reg reg0 : segment_register)
    (s : seg_machine) :
  seg <> seg' ->
  fst (svm_get_segment_register seg' reg0
         (svm_set_segment_register seg reg s)) =
  fst (svm_get_segment_register seg' reg0 s).
Proof.
  intros Hne.
  destruct seg, seg'; try contradiction;
    unfold svm_set_segment_register, svm_get_segment_register,
      svm_sync_vmcb, hw;
    repeat (break_if; cbn); reflexivity.
Qed.

(** X17, at a write of the code segment followed by a read of the stack
    segment. *)
Lemma segment_register_independence_witness :
  let zero := mk_segment_register 0 0 0 0 in
  let stack := mk_segment_register 0x2b 0xcf3 0xffffffff 0 in
  let s := mk_seg_machine
             (mk_vmcb_segments zero zero zero zero zero stack zero zero
                zero zero 3) 1 true [] in
  fst (svm_get_segment_register x86_seg_ss zero
         (svm_set_segment_register x86_seg_cs
            (mk_segment_register 0x23 0xcfb 0xffffffff 0) s)) = stack.
Proof.
  cbv zeta.
  rewrite segment_register_independence by discriminate. reflexivity.
Defined.

(** X18: the hidden state of FS, GS, TR and LDTR is synchronised around
    every access.  A read of one of them saves the control block at most
    once (only if it was not in sync) and leaves it in sync; a write on
    the current vcpu does the same and then reloads the control block; a
    write on another vcpu, and every access to the other segments, issues
    no hardware operation at all. *)
Theorem segment_register_sync
    (seg : x86_segment) (reg : segment_register) (s : seg_machine) :
  seg <> x86_seg_none ->
  let lazy :=
    match seg with
    | x86_seg_fs | x86_seg_gs | x86_seg_tr | x86_seg_ldtr => true
    | _ => false
    end in
  let saved :=
    if vmcb_in_sync s =? 0 then Op_svm_vmsave guest_vmcb :: ops s
    else ops s in
  let got := snd (svm_get_segment_register seg reg s) in
  let set := svm_set_segment_register seg reg s in
  ops got = (if lazy then saved else ops s) /\
  (if lazy then vmcb_in_sync got <> 0
   else vmcb_in_sync got = vmcb_in_sync s) /\
  ops set = (if lazy && seg_v_is_current s
             then Op_svm_vmload guest_vmcb :: saved else ops s) /\
  ops (snd (svm_get_segment_register seg reg got)) = ops got.
Proof.
  intros Hseg lazy saved got set. subst lazy saved got set.
  destruct seg; try contradiction;
    unfold svm_set_segment_register, svm_get_segment_register,
      svm_sync_vmcb, hw; cbn [andb];
    destruct (Z.eqb_spec (vmcb_in_sync s) 0) as [H0 | Hn0];
    destruct (seg_v_is_current s); cbn;
    rewrite ?H0; cbn;
    repeat split; try reflexivity; try discriminate; try assumption;
    destruct (vmcb_in_sync s =? 0) eqn:Hs; cbn;
    try reflexivity; try (apply Z.eqb_eq in Hs; contradiction).
Qed.

(** X18, at a write of FS on the current vcpu whose control block is not
    in sync. *)
Lemma segment_register_sync_witness :
  let zero := mk_segment_register 0 0 0 0 in
  let s := mk_seg_machine
             (mk_vmcb_segments zero zero zero zero zero zero zero zero zero
                zero 0) 0 true [] in
  ops (svm_set_segment_register x86_seg_fs zero s) =
    [Op_svm_vmload guest_vmcb; Op_svm_vmsave guest_vmcb].
Proof.
  cbv zeta.
  pose proof (segment_register_sync x86_seg_fs
                (mk_segment_register 0 0 0 0)
                (mk_seg_machine
                   (mk_vmcb_segments
                      (mk_segment_register 0 0 0 0)
                      (mk_segment_register 0 0 0 0)
                      (mk_segment_register 0 0 0 0)
                      (mk_segment_register 0 0 0 0)
                      (mk_segment_register 0 0 0 0)
                      (mk_segment_register 0 0 0 0)
                      (mk_segment_register 0 0 0 0)
                      (mk_segment_register 0 0 0 0)
                      (mk_segment_register 0 0 0 0)
                      (mk_segment_register 0 0 0 0) 0) 0 true []))
    as H.
  cbv zeta in H. destruct H as [_ [_ [Hset _]]]; [discriminate |].
  exact Hset.
Defined.

(** ** The hypercall page *)

Lemma hypercall_stub_byte (i : Z) (page : Z -> Z) (o : Z) :
  hypercall_stub i page o =
  if (i * 32 <=? o) && (o <? i * 32 + 32)
  then stub_byte i (o - i * 32) (page o)
  else page o.
Proof.
  unfold hypercall_stub, write_u32, write_u8, upd, stub_byte.
  destruct (Z.leb_spec (i * 32) o) as [Hle | Hlt];
  destruct (Z.ltb_spec o (i * 32 + 32)) as [Hin | Hout]; cbn [andb];
    repeat match goal with
           | |- context [?a =? ?b] =>
             destruct (Z.eqb_spec a b); try lia
           end; reflexivity.
Qed.

Lemma hypercall_stubs_byte (count : nat) :
  forall (i : Z) (page : Z -> Z) (o : Z),
    0 <= i ->
    hypercall_stubs count i page o =
    if (i * 32 <=? o) && (o <? (i + Z.of_nat count) * 32)
    then stub_byte (o / 32) (o mod 32) (page o)
    else page o.
Proof.
  induction count as [| count IH]; intros i page o Hi.
  - cbn [hypercall_stubs].
    replace ((i * 32 <=? o) && (o <? (i + Z.of_nat 0) * 32)) with false;
      [reflexivity |].
    symmetry. apply andb_false_iff.
    destruct (Z.leb_spec (i * 32) o); [right; apply Z.ltb_ge; lia | now left].
  - cbn [hypercall_stubs]. rewrite IH by lia.
    rewrite !hypercall_stub_byte.
    destruct (Z.leb_spec ((i + 1) * 32) o) as [Hhi | Hlo];
    destruct (Z.ltb_spec o ((i + 1 + Z.of_nat count) * 32)) as [Hin | Hout];
    destruct (Z.leb_spec (i * 32) o) as [Hle | Hlt];
    destruct (Z.ltb_spec o (i * 32 + 32)) as [Hin0 | Hout0];
    destruct (Z.ltb_spec o ((i + Z.of_nat (S count)) * 32)) as [Hall | Hnone];
    cbn [andb]; try lia; try reflexivity.
    replace (o / 32) with i
      by (apply Z.div_unique with (o - i * 32); lia).
    replace (o mod 32) with (o - i * 32)
      by (apply Z.mod_unique with i; lia).
    reflexivity.
Qed.

Lemma svm_init_hypercall_page_byte (page : Z -> Z) (o : Z) :
  svm_init_hypercall_page page o =
  if o =? __HYPERVISOR_iret * 32 then 0x0f
  else if o =? __HYPERVISOR_iret * 32 + 1 then 0x0b
  else if (0 <=? o) && (o <? PAGE_SIZE)
       then stub_byte (o / 32) (o mod 32) (page o)
       else page o.
Proof.
  unfold svm_init_hypercall_page, write_u16, write_u8, upd.
  rewrite hypercall_stubs_byte by lia.
  destruct (Z.eqb_spec o (__HYPERVISOR_iret * 32 + 1)) as [-> | H1];
    [reflexivity |].
  destruct (Z.eqb_spec o (__HYPERVISOR_iret * 32)) as [-> | H0];
    reflexivity.
Qed.

(** A byte-sized value is its own low byte, and has no higher bytes. *)
Lemma low_byte_small (i : Z) : 0 <= i < 256 -> bits 0 8 i = i.
Proof.
  intros Hi. unfold bits. rewrite Z.shiftr_0_r, Z.land_ones by lia.
  apply Z.mod_small. lia.
Qed.

Lemma high_byte_small (i n : Z) :
  0 <= i < 256 -> 8 <= n -> bits 0 8 (Z.shiftr i n) = 0.
Proof.
  intros Hi Hn. rewrite Z.shiftr_div_pow2 by lia.
  rewrite Z.div_small; [apply bits_of_zero |].
  split; [lia |].
  apply Z.lt_le_trans with (2 ^ 8); [lia |].
  apply Z.pow_le_mono_r; lia.
Qed.

(** X19: what [svm_init_hypercall_page] leaves in the page.  For each of
    the 128 entries, the first nine bytes of the 32-byte slot [i] are
    "mov $i, %eax; vmmcall; ret" (b8 i 00 00 00 0f 01 d9 c3), except that
    the slot of HYPERVISOR_iret (number 23) starts with ud2 (0f 0b)
    instead of the mov opcode and the low byte of the number; the
    remaining 23 bytes of every slot are left as they were. *)
Theorem svm_init_hypercall_page_stubs (page : Z -> Z) (i : Z) :
  0 <= i < 128 ->
  let p := svm_init_hypercall_page page in
  map (fun k => p (i * 32 + k)) [0; 1; 2; 3; 4; 5; 6; 7; 8] =
    (if i =? __HYPERVISOR_iret
     then [0x0f; 0x0b; 0; 0; 0; 0x0f; 0x01; 0xd9; 0xc3]
     else [0xb8; i; 0; 0; 0; 0x0f; 0x01; 0xd9; 0xc3]) /\
  (forall k, 9 <= k < 32 -> p (i * 32 + k) = page (i * 32 + k)).
Proof.
  intros Hi p. subst p.
  assert (Hbyte : forall k, 0 <= k < 32 ->
            svm_init_hypercall_page page (i * 32 + k) =
            if (i =? __HYPERVISOR_iret) && (k =? 0) then 0x0f
            else if (i =? __HYPERVISOR_iret) && (k =? 1) then 0x0b
            else stub_byte i k (page (i * 32 + k))).
  { intros k Hk. rewrite svm_init_hypercall_page_byte.
    replace ((i * 32 + k) / 32) with i
      by (apply Z.div_unique with k; lia).
    replace ((i * 32 + k) mod 32) with k
      by (apply Z.mod_unique with i; lia).
    replace ((0 <=? i * 32 + k) && (i * 32 + k <? PAGE_SIZE)) with true
      by (symmetry; apply andb_true_iff; unfold PAGE_SIZE;
          split; [apply Z.leb_le | apply Z.ltb_lt]; lia).
    unfold __HYPERVISOR_iret.
    destruct (Z.eqb_spec i 23) as [-> | Hne]; cbn [andb].
    - destruct (Z.eqb_spec k 0) as [-> | Hk0]; [reflexivity |].
      destruct (Z.eqb_spec k 1) as [-> | Hk1]; [reflexivity |].
      replace (23 * 32 + k =? 23 * 32) with false
        by (symmetry; apply Z.eqb_neq; lia).
      replace (23 * 32 + k =? 23 * 32 + 1) with false
        by (symmetry; apply Z.eqb_neq; lia).
      reflexivity.
    - replace (i * 32 + k =? 23 * 32) with false
        by (symmetry; apply Z.eqb_neq; lia).
      replace (i * 32 + k =? 23 * 32 + 1) with false
        by (symmetry; apply Z.eqb_neq; lia).
      reflexivity. }
  split.
  - cbn [map]. rewrite !Hbyte by lia. unfold stub_byte. cbn [Z.eqb].
    rewrite low_byte_small, !high_byte_small by lia.
    destruct (i =? __HYPERVISOR_iret); reflexivity.
  - intros k Hk. rewrite Hbyte by lia.
    replace (k =? 0) with false by (symmetry; apply Z.eqb_neq; lia).
    replace (k =? 1) with false by (symmetry; apply Z.eqb_neq; lia).
    rewrite !andb_false_r. unfold stub_byte.
    repeat match goal with
           | |- context [k =? ?b] =>
             destruct (Z.eqb_spec k b); try lia
           end; try reflexivity.
Qed.

(** X19, at the slot of hypercall 24 in a page of 0xcc bytes. *)
Lemma svm_init_hypercall_page_stubs_witness :
  0 <= 24 < 128 /\
  map (fun k => svm_init_hypercall_page (fun _ => 0xcc) (24 * 32 + k))
      [0; 1; 2; 3; 4; 5; 6; 7; 8] =
  [0xb8; 24; 0; 0; 0; 0x0f; 0x01; 0xd9; 0xc3] /\
  svm_init_hypercall_page (fun _ => 0xcc) (24 * 32 + 9) = 0xcc.
Proof.
  split; [lia |].
  pose proof (svm_init_hypercall_page_stubs (fun _ => 0xcc) 24
                ltac:(lia)) as [Hstub Hrest].
  split; [exact Hstub | exact (Hrest 9 ltac:(lia))].
Defined.

(** ** The CPUID intercept *)

(** What passes a whitelist has no bit outside it. *)
Lemma land_whitelist (x w : Z) : Z.land (Z.land x w) (Z.lnot w) = 0.
Proof. rewrite <- Z.land_assoc, Z.land_lnot_diag. apply Z.land_0_r. Qed.

Lemma testbit_clear_bit (nr x i : Z) :
  0 <= nr -> 0 <= i ->
  Z.testbit (__clear_bit nr x) i = Z.testbit x i && negb (i =? nr).
Proof.
  intros Hnr Hi. unfold __clear_bit.
  rewrite Z.land_spec, Z.lnot_spec, Z.shiftl_1_l by assumption.
  rewrite Z.pow2_bits_eqb by assumption. rewrite (Z.eqb_sym nr i).
  reflexivity.
Qed.

(** X20: the power-management and SVM leaves read as zero.  For the
    inputs 0x80000007 and 0x8000000A, [svm_cpuid_intercept] returns zero
    in all four registers, whatever the generic query answered. *)
Theorem svm_cpuid_intercept_zero_leaves
    (hvm_cpuid : Z -> cpuid_regs -> cpuid_regs)
    (vlapic_hw_disabled : bool) (pae_enabled : Z) (r : cpuid_regs) :
  cpuid_eax r = 0x80000007 \/ cpuid_eax r = 0x8000000A ->
  svm_cpuid_intercept hvm_cpuid vlapic_hw_disabled pae_enabled r =
  mk_cpuid_regs 0 0 0 0.
Proof.
  intros [H | H]; unfold svm_cpuid_intercept; rewrite H; reflexivity.
Qed.

(** X20, at a generic answer of all ones. *)
Lemma svm_cpuid_intercept_zero_leaves_witness :
  svm_cpuid_intercept
    (fun _ _ => mk_cpuid_regs 0xffffffff 0xffffffff 0xffffffff 0xffffffff)
    false 1 (mk_cpuid_regs 0x8000000A 0 0 0) =
  mk_cpuid_regs 0 0 0 0.
Proof.
  apply svm_cpuid_intercept_zero_leaves. right. reflexivity.
Defined.

(** X21: the extended-feature leaf is filtered by a whitelist.  For the
    input 0x80000001 the result has no ecx bit outside 0x1f1 (so the SVM
    feature bit, bit 2, is never shown) and no edx bit outside
    0x23dbfbff; the PSE36 bit of edx is always clear, the APIC bit is
    clear when the local APIC is disabled and the PAE bit is clear when
    PAE is not enabled for the domain; eax and ebx are those of the
    generic query. *)
Theorem svm_cpuid_intercept_extended_features
    (hvm_cpuid : Z -> cpuid_regs -> cpuid_regs)
    (vlapic_hw_disabled : bool) (pae_enabled : Z) (r : cpuid_regs) :
  cpuid_eax r = 0x80000001 ->
  let out := svm_cpuid_intercept hvm_cpuid vlapic_hw_disabled pae_enabled r in
  let generic := hvm_cpuid 0x80000001 r in
  Z.land (cpuid_ecx out) (Z.lnot 0x1f1) = 0 /\
  Z.testbit (cpuid_ecx out) (Z.land X86_FEATURE_SVME 31) = false /\
  Z.land (cpuid_edx out) (Z.lnot 0x23dbfbff) = 0 /\
  Z.testbit (cpuid_edx out) (Z.land X86_FEATURE_PSE36 31) = false /\
  Z.testbit (cpuid_edx out) (Z.land X86_FEATURE_APIC 31) =
    Z.testbit (cpuid_edx generic) 9 && negb vlapic_hw_disabled /\
  Z.testbit (cpuid_edx out) (Z.land X86_FEATURE_PAE 31) =
    Z.testbit (cpuid_edx generic) 6 && negb (pae_enabled =? 0) /\
  cpuid_eax out = cpuid_eax generic /\
  cpuid_ebx out = cpuid_ebx generic.
Proof.
  intros Hinput out generic. subst out generic.
  unfold svm_cpuid_intercept. rewrite Hinput.
  change (0x80000001 =? 1) with false.
  change (0x80000001 =? 0x80000001) with true. cbv iota.
  set (g := hvm_cpuid 0x80000001 r).
  cbn [cpuid_eax cpuid_ebx cpuid_ecx cpuid_edx].
  split; [apply land_whitelist |].
  split; [rewrite Z.land_spec; apply andb_false_intro2; reflexivity |].
  split; [apply land_whitelist |].
  assert (Hbit : forall i, 0 <= i ->
    Z.testbit
      (__clear_bit (Z.land X86_FEATURE_PSE36 31)
         (if pae_enabled =? 0
          then __clear_bit (Z.land X86_FEATURE_PAE 31)
                 (if vlapic_hw_disabled
                  then __clear_bit (Z.land X86_FEATURE_APIC 31) (cpuid_edx g)
                  else cpuid_edx g)
          else if vlapic_hw_disabled
               then __clear_bit (Z.land X86_FEATURE_APIC 31) (cpuid_edx g)
               else cpuid_edx g)) i =
    Z.testbit (cpuid_edx g) i
    && negb ((i =? 9) && vlapic_hw_disabled)
    && negb ((i =? 6) && (pae_enabled =? 0))
    && negb (i =? 17)).
  { intros i Hi.
    destruct (pae_enabled =? 0), vlapic_hw_disabled;
      rewrite ?testbit_clear_bit by (try assumption; vm_compute; discriminate);
      change (Z.land X86_FEATURE_PSE36 31) with 17;
      change (Z.land X86_FEATURE_PAE 31) with 6;
      change (Z.land X86_FEATURE_APIC 31) with 9;
      destruct (Z.testbit (cpuid_edx g) i), (i =? 9), (i =? 6), (i =? 17);
      reflexivity. }
  repeat split; try reflexivity;
    rewrite Z.land_spec, Hbit by (vm_compute; discriminate);
    change (Z.land X86_FEATURE_PSE36 31) with 17;
    change (Z.land X86_FEATURE_PAE 31) with 6;
    change (Z.land X86_FEATURE_APIC 31) with 9;
    match goal with
    | |- context [Z.testbit (cpuid_edx g) ?i] =>
      destruct (Z.testbit (cpuid_edx g) i)
    end;
    destruct vlapic_hw_disabled, (pae_enabled =? 0); reflexivity.
Qed.

(** X21, at a generic answer of all ones with the local APIC disabled. *)
Lemma svm_cpuid_intercept_extended_features_witness :
  svm_cpuid_intercept
    (fun _ _ => mk_cpuid_regs 0xffffffff 0xffffffff 0xffffffff 0xffffffff)
    true 1 (mk_cpuid_regs 0x80000001 0 0 0) =
  mk_cpuid_regs 0xffffffff 0xffffffff 0x1f1 0x23d9f9ff /\
  Z.testbit 0x1f1 (Z.land X86_FEATURE_SVME 31) = false.
Proof.
  split; [reflexivity |].
  exact (proj1 (proj2
           (svm_cpuid_intercept_extended_features
              (fun _ _ =>
                 mk_cpuid_regs 0xffffffff 0xffffffff 0xffffffff 0xffffffff)
              true 1 (mk_cpuid_regs 0x80000001 0 0 0) eq_refl))).
Defined.

(** X22: the other leaves.  For input 1 the SSSE3, SSE4.1 and SSE4.2 bits
    of ecx are hidden and nothing else changes; for input 0x80000008 the
    low byte of ecx is zero and nothing else changes; every input other
    than 1, 0x80000001, 0x80000007, 0x80000008 and 0x8000000A gets the
    answer of the generic query unchanged. *)
Theorem svm_cpuid_intercept_other_leaves
    (hvm_cpuid : Z -> cpuid_regs -> cpuid_regs)
    (vlapic_hw_disabled : bool) (pae_enabled : Z) (r : cpuid_regs) :
  let input := cpuid_eax r in
  let out := svm_cpuid_intercept hvm_cpuid vlapic_hw_disabled pae_enabled r in
  let generic := hvm_cpuid input r in
  if input =? 1 then
    out = mk_cpuid_regs (cpuid_eax generic) (cpuid_ebx generic)
            (Z.land (cpuid_ecx generic) 0xffe7fdff) (cpuid_edx generic) /\
    Z.testbit (cpuid_ecx out) (Z.land X86_FEATURE_SSSE3 31) = false /\
    Z.testbit (cpuid_ecx out) (Z.land X86_FEATURE_SSE4_1 31) = false /\
    Z.testbit (cpuid_ecx out) (Z.land X86_FEATURE_SSE4_2 31) = false
  else if input =? 0x80000008 then
    out = mk_cpuid_regs (cpuid_eax generic) (cpuid_ebx generic)
            (Z.land (cpuid_ecx generic) 0xFFFFFF00) (cpuid_edx generic) /\
    bits 0 8 (cpuid_ecx out) = 0
  else if (input =? 0x80000001) || (input =? 0x80000007)
          || (input =? 0x8000000A) then True
  else out = generic.
Proof.
  intros input out generic. subst out generic. unfold svm_cpuid_intercept.
  fold input.
  destruct (Z.eqb_spec input 1) as [H1 | H1].
  { split; [reflexivity |]. cbn [cpuid_ecx].
    repeat split; rewrite Z.land_spec; apply andb_false_intro2; reflexivity. }
  destruct (Z.eqb_spec input 0x80000008) as [H8 | H8].
  { rewrite H8. cbn [Z.eqb Pos.eqb orb]. split; [reflexivity |].
    cbn [cpuid_ecx]. unfold bits. rewrite Z.shiftr_0_r, <- Z.land_assoc.
    apply Z.land_0_r. }
  destruct (input =? 0x80000001); [exact I |].
  destruct (input =? 0x80000007); [exact I |].
  destruct (input =? 0x8000000A); [exact I |].
  reflexivity.
Qed.

(** ** The world switch *)

(** X23: switching away from a vcpu leaves nothing of it live on the
    core.  After [svm_ctxt_switch_from] the debug-register dirty flag is
    clear and every debug-register access is intercepted, the control
    block is in sync (saved once if it was not), and the last hardware
    operation is the load of the root control block. *)
Theorem svm_ctxt_switch_from_leaves_nothing_live (w : world) :
  dr_lazy_invariant (w_vcpu w) ->
  let w' := svm_ctxt_switch_from w in
  flag_dr_dirty (v (w_vcpu w')) = 0 /\
  dr_intercepts (vmcb (w_vcpu w')) <> 0 /\
  dr_lazy_invariant (w_vcpu w') /\
  vmcb_in_sync (w_hidden w') <> 0 /\
  ops (w_hidden w') =
    Op_svm_vmload root_vmcb
    :: (if vmcb_in_sync (w_hidden w) =? 0
        then Op_svm_vmsave guest_vmcb :: ops (w_hidden w)
        else ops (w_hidden w)).
Proof.
  intros Hinv w'. subst w'.
  unfold svm_ctxt_switch_from. cbn [w_vcpu w_hidden].
  assert (Hdr : flag_dr_dirty (v (snd (svm_save_dr
                                         (snd (svm_fpu_leave (w_vcpu w))))))
                = 0 /\
                dr_intercepts (vmcb (snd (svm_save_dr
                                            (snd (svm_fpu_leave (w_vcpu w))))))
                <> 0).
  { unfold dr_lazy_invariant in Hinv.
    unfold svm_save_dr, svm_fpu_leave. run.
    destruct (test (guest_cr (v (w_vcpu w)) 0) X86_CR0_TS); cbn [negb];
      members;
      (destruct (Z.eqb_spec (flag_dr_dirty (v (w_vcpu w))) 0) as [H0 | Hn0];
       members;
       [split; [exact H0 | intros Hc; apply Hinv in Hc; contradiction]
       | split; [reflexivity | vm_compute; discriminate]]). }
  destruct Hdr as [Hflag Hint].
  split; [exact Hflag |]. split; [exact Hint |].
  split; [unfold dr_lazy_invariant; rewrite Hflag; split; intros H;
          [exfalso; apply H; reflexivity | contradiction] |].
  unfold svm_sync_vmcb, hw.
  destruct (Z.eqb_spec (vmcb_in_sync (w_hidden w)) 0) as [H0 | Hn0];
    cbn; split; try reflexivity; try discriminate; assumption.
Qed.

(** X23, at a vcpu whose debug registers are live. *)
Lemma svm_ctxt_switch_from_leaves_nothing_live_witness :
  let m := set_v (set_flag_dr_dirty 1 vcpu_zero) (machine_zero false) in
  let w' := svm_ctxt_switch_from (world_zero m (fun _ => 0)) in
  dr_lazy_invariant m /\
  flag_dr_dirty (v (w_vcpu w')) = 0 /\
  ops (w_hidden w') = [Op_svm_vmload root_vmcb; Op_svm_vmsave guest_vmcb].
Proof.
  cbv zeta.
  assert (Hinv : dr_lazy_invariant
                   (set_v (set_flag_dr_dirty 1 vcpu_zero)
                      (machine_zero false)))
    by (split; [reflexivity | discriminate]).
  split; [exact Hinv |].
  pose proof (svm_ctxt_switch_from_leaves_nothing_live
                (world_zero _ (fun _ => 0)) Hinv) as H.
  cbv zeta in H. destruct H as [Hflag [_ [_ [_ Hops]]]].
  split; [exact Hflag | exact Hops].
Defined.

(** X24: the interrupt-stack-table assignment across a world switch.
    While the guest's context is installed ([svm_ctxt_switch_to]) the IST
    field (bits 32-34) of the double-fault, NMI and machine-check gates is
    zero; after the matching [svm_ctxt_switch_from] it is IST_DF, IST_NMI
    and IST_MCE again.  No other bit of these gates and no other gate
    changes. *)
Theorem world_switch_ist_round_trip (DR7_ACTIVE_MASK : Z) (w : world) :
  let inside := svm_ctxt_switch_to DR7_ACTIVE_MASK w in
  let back := svm_ctxt_switch_from inside in
  idt_a inside TRAP_double_fault =
    set_bits 32 3 0 (idt_a w TRAP_double_fault) /\
  idt_a inside TRAP_nmi = set_bits 32 3 0 (idt_a w TRAP_nmi) /\
  idt_a inside TRAP_machine_check =
    set_bits 32 3 0 (idt_a w TRAP_machine_check) /\
  idt_a back TRAP_double_fault =
    set_bits 32 3 IST_DF (idt_a w TRAP_double_fault) /\
  idt_a back TRAP_nmi = set_bits 32 3 IST_NMI (idt_a w TRAP_nmi) /\
  idt_a back TRAP_machine_check =
    set_bits 32 3 IST_MCE (idt_a w TRAP_machine_check) /\
  (forall vec,
      vec <> TRAP_double_fault -> vec <> TRAP_nmi ->
      vec <> TRAP_machine_check ->
      idt_a inside vec = idt_a w vec /\ idt_a back vec = idt_a w vec).
Proof.
  intros inside back. subst back inside.
  unfold svm_ctxt_switch_from, svm_ctxt_switch_to. cbn [idt_a].
  unfold upd, set_bits.
  change (TRAP_double_fault =? TRAP_machine_check) with false.
  change (TRAP_double_fault =? TRAP_nmi) with false.
  change (TRAP_nmi =? TRAP_machine_check) with false.
  change (TRAP_nmi =? TRAP_double_fault) with false.
  change (TRAP_machine_check =? TRAP_nmi) with false.
  change (TRAP_machine_check =? TRAP_double_fault) with false.
  rewrite !Z.eqb_refl. cbv iota.
  rewrite !Z.ldiff_land, !Z.lor_0_r.
  repeat split; try reflexivity;
    destruct (Z.eqb_spec vec TRAP_machine_check); try contradiction;
    destruct (Z.eqb_spec vec TRAP_nmi); try contradiction;
    destruct (Z.eqb_spec vec TRAP_double_fault); try contradiction;
    reflexivity.
Qed.

(** ** Pending events *)

(** X25: after [svm_inject_exception], whatever the slot held and whatever
    is injected, [svm_event_pending] reports a pending event; the query
    itself changes nothing. *)
Theorem svm_event_pending_after_injection {E : Externals}
    (trapnr errcode addr : Z) (m : machine) :
  let injected := snd (svm_inject_exception trapnr errcode addr m) in
  svm_event_pending injected = (1, injected).
Proof.
  intros injected. unfold svm_event_pending. run.
  pose proof (svm_inject_exception_slot trapnr errcode addr m) as [Hv _].
  fold injected in Hv. rewrite Hv. reflexivity.
Qed.

(** ** Execution mode *)

(** X26: [svm_guest_x86_mode] returns one of 0, 1, 2, 4 and 8; it returns
    0 exactly when the guest has protected mode off, 1 only in virtual-8086
    mode, and 8 only when the guest is in long mode and its code segment
    has the L bit. *)
Theorem svm_guest_x86_mode_cases (segments : vmcb_segments) (m : machine) :
  let mode := svm_guest_x86_mode segments m in
  In mode [0; 1; 2; 4; 8] /\
  (mode = 0 <-> test (guest_cr (v m) 0) X86_CR0_PE = false) /\
  (mode = 1 -> test (eflags (regs m)) X86_EFLAGS_VM = true) /\
  (mode = 8 ->
   test (guest_efer (v m)) EFER_LMA = true /\
   attr_l (attr (cs segments)) <> 0).
Proof.
  intros mode. subst mode. unfold svm_guest_x86_mode, hvm_long_mode_enabled.
  cbn [In].
  destruct (test (guest_cr (v m) 0) X86_CR0_PE); cbn [negb];
    [| intuition discriminate].
  destruct (test (eflags (regs m)) X86_EFLAGS_VM);
    [intuition discriminate |].
  destruct (test (guest_efer (v m)) EFER_LMA); cbn [andb];
    destruct (Z.eqb_spec (attr_l (attr (cs segments))) 0); cbn [negb];
    destruct (negb (attr_db (attr (cs segments)) =? 0));
    intuition (try discriminate; try lia).
Qed.
